(** * TimeSeriesMTL: the DEAP dataset builder

    A shallow embedding of [src/dataio/deap/make_deap_dataset.py] and the
    properties of its label binning, windowing, buffering, sharded writing
    and train/validation routing.

    Conventions of the embedding.
    - Python [int] values are [Z]; [float] values (numpy float64) are exact
      rationals [Q]; a value that may be either is a [pyval].
    - A raised Python exception is [Raise e]; a normal return is [Ok a].
    - numpy arrays are nested lists; a tuple of window positions that may hold
      the fill value [None] is a [list (option Z)].
    - Random draws come from an explicit [RandomSource] whose single law is
      that a drawn permutation is a permutation. *)

From Stdlib Require Import String.
From Stdlib Require Import List ZArith QArith Qround Bool Lia Arith.
From Stdlib Require Import Permutation Lqa.
Import ListNotations.

Local Open Scope Z_scope.

(** ** Python values and exceptions *)

Inductive exn : Type :=
| ValueError
| TypeError
| IndexError
| AttributeError
| UnboundLocalError
| ZeroDivisionError
| StopIteration
| OSError.

Inductive result (A : Type) : Type :=
| Ok (a : A)
| Raise (e : exn).

Arguments Ok {A} a.
Arguments Raise {A} e.

Definition bind {A B : Type} (r : result A) (k : A -> result B) : result B :=
  match r with
  | Ok a => k a
  | Raise e => Raise e
  end.

Declare Scope result_scope.
Delimit Scope result_scope with result.
Notation "x <- r ;; k" := (bind r (fun x => k))
  (at level 61, r at next level, right associativity) : result_scope.

(** Code that also mutates objects runs in a state monad with exceptions:
    the state survives a raise, as a Python object does. *)
Definition SE (S A : Type) : Type := S -> result A * S.

Definition ret {S A : Type} (a : A) : SE S A := fun s => (Ok a, s).
Definition raise {S A : Type} (e : exn) : SE S A := fun s => (Raise e, s).
Definition se_bind {S A B : Type} (m : SE S A) (k : A -> SE S B) : SE S B :=
  fun s =>
    match m s with
    | (Ok a, s') => k a s'
    | (Raise e, s') => (Raise e, s')
    end.
Definition get {S : Type} : SE S S := fun s => (Ok s, s).
Definition put {S : Type} (s : S) : SE S unit := fun _ => (Ok tt, s).
Definition lift_result {S A : Type} (r : result A) : SE S A := fun s => (r, s).

Declare Scope se_scope.
Delimit Scope se_scope with se.
Notation "x <- c ;; k" := (se_bind c (fun x => k))
  (at level 61, c at next level, right associativity) : se_scope.
Notation "c ;;; k" := (se_bind c (fun _ => k))
  (at level 61, right associativity) : se_scope.

(** [for x in xs: body(x)]. *)
Fixpoint for_each {S A : Type} (xs : list A) (body : A -> SE S unit)
    : SE S unit :=
  match xs with
  | [] => ret tt
  | x :: xs' => se_bind (body x) (fun _ => for_each xs' body)
  end.

(** A Python number: an [int] or a [float]. *)
Inductive pyval : Type :=
| PInt (z : Z)
| PFloat (q : Q).

Definition to_Q (v : pyval) : Q :=
  match v with
  | PInt z => inject_Z z
  | PFloat q => q
  end.

(** [a >= b], [a < b] and [a == b] on Python numbers compare by value. *)
Definition py_ge (a b : pyval) : bool := Qle_bool (to_Q b) (to_Q a).
Definition py_lt (a b : pyval) : bool := negb (Qle_bool (to_Q b) (to_Q a)).
Definition py_eq (a b : pyval) : bool := Qeq_bool (to_Q a) (to_Q b).

(** [int(x)]: truncation toward zero. *)
Definition py_int (v : pyval) : Z :=
  match v with
  | PInt z => z
  | PFloat q => Z.quot (Qnum q) (Zpos (Qden q))
  end.

(** [round(x)]: to the nearest integer, ties to the even one. *)
Definition py_round (v : pyval) : Z :=
  match v with
  | PInt z => z
  | PFloat q =>
      let f := Qfloor q in
      let r := (q - inject_Z f)%Q in
      if Qeq_bool r (1 # 2) then (if Z.even f then f else f + 1)
      else if Qle_bool r (1 # 2) then f else f + 1
  end.

(** [a * b]: an [int] only when both factors are. *)
Definition py_mul (a b : pyval) : pyval :=
  match a, b with
  | PInt x, PInt y => PInt (x * y)
  | _, _ => PFloat (to_Q a * to_Q b)
  end.

(** [labels[i]], [l[i]] for a non-negative index. *)
Definition getitem {A : Type} (l : list A) (i : nat) : result A :=
  match nth_error l i with
  | Some x => Ok x
  | None => Raise IndexError
  end.

(** [range(n)]. *)
Definition py_range (n : Z) : list Z := map Z.of_nat (seq 0 (Z.to_nat n)).

(** A dict with string keys, in insertion order. *)
Fixpoint dict_set {V : Type} (d : list (string * V)) (k : string) (v : V)
    : list (string * V) :=
  match d with
  | [] => [(k, v)]
  | (k', v') :: rest =>
      if String.eqb k' k then (k', v) :: rest
      else (k', v') :: dict_set rest k v
  end.

Definition dict_of_pairs {V : Type} (kvs : list (string * V))
    : list (string * V) :=
  fold_left (fun d kv => dict_set d (fst kv) (snd kv)) kvs [].

(** ** LabelTransformer *)

Module LabelTransformer.
Local Open Scope result_scope.

(** [np.linspace(start, stop, num)] with the default [endpoint=True]:
    [num] samples [start + i * step], [step = (stop - start) / (num - 1)],
    the last one overwritten by [stop]; a negative [num] raises. *)
Definition replace_last (stop : Q) (y : list Q) : list Q :=
  match y with
  | [] => []
  | _ :: _ => removelast y ++ [stop]
  end.

Definition linspace (start stop : Q) (num : Z) : result (list Q) :=
  if num <? 0 then Raise ValueError
  else
    let div := num - 1 in
    let delta := (stop - start)%Q in
    let arange := map (fun i => inject_Z (Z.of_nat i)) (seq 0 (Z.to_nat num)) in
    let y :=
      if 0 <? div
      then let step := (delta / inject_Z div)%Q in
           map (fun i => (i * step + start)%Q) arange
      else map (fun i => (i * delta + start)%Q) arange in
    Ok (if 1 <? num then replace_last stop y else y).

(** [a, b = itertools.tee(breaks); next(b, None); zip(a, b)]. *)
Definition pairwise (breaks : list Q) : list (Q * Q) :=
  combine breaks (tl breaks).

Definition min_value : Q := 1.
Definition max_value : Q := 9.

Definition build_classes (num_classes : Z) : result (list (Q * Q)) :=
  breaks <- linspace min_value max_value (num_classes + 1) ;;
  Ok (pairwise breaks).

Record t : Type := mk {
  valence_classes : list (Q * Q);
  arousal_classes : list (Q * Q);
  dominance_classes : list (Q * Q);
  liking_classes : list (Q * Q);
  label_names : list string
}.

(** [LabelTransformer.__init__]. *)
Definition init (valence arousal dominance liking : Z)
    (names : list string) : result t :=
  v <- build_classes valence ;;
  a <- build_classes arousal ;;
  d <- build_classes dominance ;;
  l <- build_classes liking ;;
  Ok (mk v a d l names).

(** The [for ... enumerate(classes)] loop of
    [transform_label_channel_with_classes]: the state is the pair of the
    local variables [label_channel] and [max_exclusive] ([None] while
    [max_exclusive] is still unbound). *)
Fixpoint scan_classes (class_id : Z) (classes : list (Q * Q))
    (label_channel : pyval) (max_exclusive : option Q)
    : pyval * option Q :=
  match classes with
  | [] => (label_channel, max_exclusive)
  | (min_inclusive, hi) :: rest =>
      if py_ge label_channel (PFloat min_inclusive)
         && py_lt label_channel (PFloat hi)
      then (PInt class_id, Some hi)
      else scan_classes (class_id + 1) rest label_channel (Some hi)
  end.

Definition transform_label_channel_with_classes
    (label_channel : pyval) (classes : list (Q * Q)) : result pyval :=
  let '(label_channel, max_exclusive) :=
    scan_classes 0 classes label_channel None in
  match max_exclusive with
  | None => Raise UnboundLocalError
  | Some hi =>
      if py_eq label_channel (PFloat hi)
      then Ok (PInt (Z.of_nat (length classes) - 1))
      else Ok label_channel
  end.

(** What [transform_labels] returns: an array ([return_np=True]) or a dict
    keyed by label name, in insertion order. *)
Inductive labels_out : Type :=
| AsArray (a : list pyval)
| AsDict (d : list (string * pyval)).

Definition transform_labels (self : t) (labels : list pyval)
    (return_np : bool) : result labels_out :=
  l0 <- getitem labels 0 ;;
  valence_label <-
    transform_label_channel_with_classes l0 (valence_classes self) ;;
  l1 <- getitem labels 1 ;;
  arousal_label <-
    transform_label_channel_with_classes l1 (valence_classes self) ;;
  l2 <- getitem labels 2 ;;
  dominance_label <-
    transform_label_channel_with_classes l2 (valence_classes self) ;;
  l3 <- getitem labels 3 ;;
  liking_label <-
    transform_label_channel_with_classes l3 (valence_classes self) ;;
  let out := [valence_label; arousal_label; dominance_label; liking_label] in
  if return_np then Ok (AsArray out)
  else Ok (AsDict (dict_of_pairs (combine (label_names self) out))).

(** The binning the specification asks for: every channel is classified with
    the table built for that channel. *)
Definition spec_transform_labels (self : t) (labels : list pyval)
    : result (list pyval) :=
  l0 <- getitem labels 0 ;;
  valence_label <-
    transform_label_channel_with_classes l0 (valence_classes self) ;;
  l1 <- getitem labels 1 ;;
  arousal_label <-
    transform_label_channel_with_classes l1 (arousal_classes self) ;;
  l2 <- getitem labels 2 ;;
  dominance_label <-
    transform_label_channel_with_classes l2 (dominance_classes self) ;;
  l3 <- getitem labels 3 ;;
  liking_label <-
    transform_label_channel_with_classes l3 (liking_classes self) ;;
  Ok [valence_label; arousal_label; dominance_label; liking_label].

End LabelTransformer.

(** ** more_itertools.windowed

    [windowed] is not part of the repository: it is the function of the
    more-itertools library (release 10.3.0) that [process_directory] calls.
    The window is a [deque(maxlen=n)]; after the first window the remaining
    items, followed by the padding, are appended one at a time and a window
    is yielded after every [step] of them. *)

Module MoreItertools.
Section Windowed.
Context {A : Type}.

(** [deque(maxlen).append]. *)
Definition deque_append (maxlen : nat) (window : list A) (x : A) : list A :=
  let w := window ++ [x] in
  skipn (length w - maxlen) w.

(** [for _ in islice(filler, step - 1, None, step): yield tuple(window)];
    [skip] items are still to be appended before the next yield. *)
Fixpoint rest_windows (maxlen step skip : nat) (window stream : list A)
    : list (list A) :=
  match stream with
  | [] => []
  | x :: stream' =>
      let window' := deque_append maxlen window x in
      match skip with
      | O => window' :: rest_windows maxlen step (step - 1) window' stream'
      | S skip' => rest_windows maxlen step skip' window' stream'
      end
  end.

Definition windowed (seq : list A) (n : Z) (fillvalue : A) (step : pyval)
    : result (list (list A)) :=
  if n <? 0 then Raise ValueError
  else if n =? 0 then Ok [[]]
  else if py_lt step (PInt 1) then Raise ValueError
  else
    let window := firstn (Z.to_nat n) seq in
    let iterable := skipn (Z.to_nat n) seq in
    match window with
    | [] => Ok []
    | _ :: _ =>
        if (length window <? Z.to_nat n)%nat
        then Ok [window ++ repeat fillvalue (Z.to_nat n - length window)]
        else
          match step with
          | PInt s =>
              let padding :=
                repeat fillvalue
                       (Z.to_nat (if s >=? n then n - 1 else s - 1)) in
              Ok (window
                    :: rest_windows (Z.to_nat n) (Z.to_nat s)
                         (Z.to_nat s - 1) window (iterable ++ padding))
          | PFloat q =>
              (* a float step: the padding product or islice raises *)
              if Qle_bool (inject_Z n) q then Raise ValueError
              else Raise TypeError
          end
    end.
End Windowed.
End MoreItertools.

(** ** Arrays *)

(** A rank-2 array is the list of its rows, a rank-3 array the list of its
    rank-2 slices along the first axis. *)
Definition array2 : Type := list (list Q).
Definition array3 : Type := list array2.

Definition shape2 (a : array2) : list nat := [length a; length (hd [] a)].

(** [np.swapaxes(a, 0, 1)] on a rank-2 array. *)
Definition swapaxes (a : array2) : array2 :=
  map (fun c => map (fun row => nth c row 0%Q) a) (seq 0 (length (hd [] a))).

(** [data[w, :]] for a tuple [w] of positions: the rows at these positions.
    A negative position counts from the end; a position out of bounds, or the
    fill value [None] inside the tuple, raises [IndexError]. *)
Definition row_at (data : array2) (p : option Z) : result (list Q) :=
  match p with
  | None => Raise IndexError
  | Some z =>
      let len := Z.of_nat (length data) in
      if (0 <=? z) && (z <? len) then getitem data (Z.to_nat z)
      else if (- len <=? z) && (z <? 0) then getitem data (Z.to_nat (len + z))
      else Raise IndexError
  end.

Fixpoint map_result {A B : Type} (f : A -> result B) (l : list A)
    : result (list B) :=
  match l with
  | [] => Ok []
  | x :: l' =>
      match f x with
      | Raise e => Raise e
      | Ok y =>
          match map_result f l' with
          | Raise e => Raise e
          | Ok ys => Ok (y :: ys)
          end
      end
  end.

Definition split_with_windows (data : array2) (windows : list (list (option Z)))
    : result (list array2) :=
  map_result (fun w => map_result (row_at data) w) windows.

(** [np.split(ary, sections, axis=0)] for an integer [sections]: equal parts,
    or an error when the rows do not divide evenly. *)
Definition np_split (ary : array2) (sections : Z) : result (list array2) :=
  if sections =? 0 then Raise ZeroDivisionError
  else if negb (Z.of_nat (length ary) mod sections =? 0) then Raise ValueError
  else if sections <? 0 then Raise ValueError
  else
    let each := (length ary / Z.to_nat sections)%nat in
    Ok (map (fun i => firstn each (skipn (i * each) ary))
            (seq 0 (Z.to_nat sections))).

(** [a[permutation]]: the rows of [a] in the order the index list gives. *)
Definition take {A : Type} (a : list A) (permutation : list nat) : list A :=
  flat_map (fun j => match nth_error a j with
                     | Some x => [x]
                     | None => []
                     end) permutation.

(** Assignment [buffer[i] = value] broadcasts [value] to the shape of the
    slot: every axis must have the slot's length or length 1. *)
Definition broadcast_axis {A : Type} (n : nat) (l : list A) : result (list A) :=
  if (length l =? n)%nat then Ok l
  else match l with
       | [x] => Ok (repeat x n)
       | _ => Raise ValueError
       end.

Definition broadcast2 (shape : list nat) (value : array2) : result array2 :=
  match shape with
  | [r; c] =>
      match broadcast_axis r value with
      | Raise e => Raise e
      | Ok rows => map_result (broadcast_axis c) rows
      end
  | _ => Raise ValueError
  end.

(** [buffer[i] = value] on a list: stdpp-style replacement at a position,
    raising where Python does. *)
Fixpoint setitem {A : Type} (l : list A) (i : nat) (x : A) : result (list A) :=
  match l, i with
  | [], _ => Raise IndexError
  | _ :: l', O => Ok (x :: l')
  | y :: l', S i' =>
      match setitem l' i' x with
      | Ok r => Ok (y :: r)
      | Raise e => Raise e
      end
  end.

(** ** LabelTransformer.onehot *)

(** [np.eye(n)]: the identity matrix; a negative [n] raises. *)
Definition eye (n : Z) : result (list (list Q)) :=
  if n <? 0 then Raise ValueError
  else
    Ok (map (fun i => map (fun j => if (i =? j)%nat then 1%Q else 0%Q)
                          (seq 0 (Z.to_nat n)))
            (seq 0 (Z.to_nat n))).

(** [LabelTransformer.onehot]: [np.eye(n_classes)[labels]] for a scalar
    [labels].  An integer selects a row, a negative one counting from the
    end; a float is not an index. *)
Definition onehot (n_classes : Z) (labels : pyval) : result (list Q) :=
  match eye n_classes with
  | Raise e => Raise e
  | Ok rows =>
      match labels with
      | PInt z => row_at rows (Some z)
      | PFloat _ => Raise IndexError
      end
  end.

(** ** normalize *)

(** [np.maximum] and [np.minimum] of two numbers. *)
Definition qmax (a b : Q) : Q := if Qle_bool a b then b else a.
Definition qmin (a b : Q) : Q := if Qle_bool a b then a else b.

(** [np.max(data, axis=0)] and [np.min(data, axis=0)]: the reduction of a
    rank-2 array along its first axis; an array without rows has no
    extreme. *)
Definition reduce_axis0 (op : Q -> Q -> Q) (data : array2) : result (list Q) :=
  match data with
  | [] => Raise ValueError
  | row :: rest =>
      Ok (fold_left (fun acc r =>
                       map (fun ab => op (fst ab) (snd ab)) (combine acc r))
                    rest row)
  end.

(** [normalize]: [(data - minimum) / (maximum - minimum)], the extremes
    broadcast over the rows.  Where a column is constant the quotient is
    0/0, which numpy evaluates to [nan] without raising: [None] here. *)
Definition normalize (data : array2) : result (list (list (option Q))) :=
  match reduce_axis0 qmax data with
  | Raise e => Raise e
  | Ok maximum =>
      match reduce_axis0 qmin data with
      | Raise e => Raise e
      | Ok minimum =>
          Ok (map (fun row =>
                     map (fun xmm =>
                            let '(x, (mx, mn)) := xmm in
                            if Qeq_bool mx mn then None
                            else Some ((x - mn) / (mx - mn))%Q)
                         (combine row (combine maximum minimum)))
                  data)
      end
  end.

(** ** DEAPWriter *)

Module DEAPWriter.
Local Open Scope se_scope.

(** A [tf.train.Feature]: a serialized tensor or an int64 value. *)
Inductive feature : Type :=
| numpy_feature (value : array2)
| int64_feature (value : pyval).

(** A serialized [tf.train.Example]: its feature dict. *)
Definition example : Type := list (string * feature).

(** A [tf.io.TFRecordWriter]: [wid] is the identity of the object, [records]
    what has been written to [path] so far. *)
Record tfwriter : Type := mk_tfwriter {
  wid : nat;
  path : string;
  records : list example;
  closed : bool
}.

Record t : Type := mk {
  filenames : list string;
  records_processed : list Z;
  writers : option (list tfwriter);
  writer_iterator : option nat;   (* position of [itertools.cycle] *)
  shape : option (list nat)
}.

Definition init (filenames : list string) : t :=
  mk filenames (repeat 0 (length filenames)) None None None.

Fixpoint open_writers (next_id : nat) (filenames : list string)
    : list tfwriter :=
  match filenames with
  | [] => []
  | fn :: rest => mk_tfwriter next_id fn [] false :: open_writers (S next_id) rest
  end.

Definition enter (self : t) : t :=
  mk (filenames self) (records_processed self)
     (Some (open_writers 0 (filenames self))) (Some 0%nat) (shape self).

Definition close_writer (w : tfwriter) : tfwriter :=
  mk_tfwriter (wid w) (path w) (records w) true.

(** [__exit__]: closes the writer of every pair of [zip(filenames, writers)]. *)
Definition exit (self : t) : SE t unit :=
  match writers self with
  | None => raise AttributeError
  | Some ws =>
      let n := Nat.min (length (filenames self)) (length ws) in
      put (mk (filenames self) (records_processed self)
              (Some (map close_writer (firstn n ws) ++ skipn n ws))
              (writer_iterator self) (shape self))
  end.

Definition serialize_example (data : array2) (labels : list (string * pyval))
    : example :=
  fold_left (fun feat kv => dict_set feat (fst kv) (int64_feature (snd kv)))
            labels [("X"%string, numpy_feature data)].

(** [self.writers.index(this_writer)]: writer objects compare by identity. *)
Fixpoint index (ws : list tfwriter) (this_writer : tfwriter) : result nat :=
  match ws with
  | [] => Raise ValueError
  | w :: rest =>
      if (wid w =? wid this_writer)%nat then Ok 0%nat
      else match index rest this_writer with
           | Ok i => Ok (S i)
           | Raise e => Raise e
           end
  end.

Definition write_record (serialized : example) (w : tfwriter) : tfwriter :=
  mk_tfwriter (wid w) (path w) (records w ++ [serialized]) (closed w).

Definition write_example (data : array2) (labels : list (string * pyval))
    : SE t unit :=
  self <- get ;;
  (* self.shape = data.shape *)
  put (mk (filenames self) (records_processed self) (writers self)
          (writer_iterator self) (Some (shape2 data))) ;;;
  let serialized := serialize_example data labels in
  (* this_writer = next(self.writer_iterator) *)
  match writer_iterator self, writers self with
  | Some pos, Some ws =>
      match nth_error ws pos with
      | None => raise StopIteration
      | Some this_writer =>
          let pos' := (S pos mod length ws)%nat in
          put (mk (filenames self) (records_processed self) (Some ws)
                  (Some pos') (Some (shape2 data))) ;;;
          writer_id <- lift_result (index ws this_writer) ;;
          (* this_writer.write(serialized) *)
          ws' <- lift_result (setitem ws pos (write_record serialized this_writer)) ;;
          put (mk (filenames self) (records_processed self) (Some ws')
                  (Some pos') (Some (shape2 data))) ;;;
          (* self.records_processed[writer_id] += 1 *)
          count <- lift_result (getitem (records_processed self) writer_id) ;;
          rp <- lift_result (setitem (records_processed self) writer_id (count + 1)) ;;
          put (mk (filenames self) rp (Some ws') (Some pos')
                  (Some (shape2 data)))
      end
  | _, _ => raise AttributeError
  end.

End DEAPWriter.

(** ** DEAPWriterBuffer *)

Module DEAPWriterBuffer.
Local Open Scope se_scope.

(** [writer] is a reference to the [DEAPWriter] object the buffer drains
    into; the object itself lives in the heap of the [world]. *)
Record t : Type := mk {
  data_buffer_shape : list nat;
  label_buffer_shape : list nat;
  data_buffer : list array2;
  label_buffer : list (list Z);
  writer : nat;
  collected : nat;
  label_names : list string
}.

Definition zeros2 (item_shape : list nat) : array2 :=
  match item_shape with
  | [r; c] => repeat (repeat 0%Q c) r
  | _ => []
  end.

Definition zeros1 (label_shape : list nat) : list Z :=
  match label_shape with
  | [n] => repeat 0 n
  | _ => []
  end.

(** [__init__]: [np.zeros] raises on a negative [buffer_size]. *)
Definition init (dw : nat) (item_shape label_shape : list nat)
    (buffer_size : Z) : result t :=
  if buffer_size <? 0 then Raise ValueError
  else
    Ok (mk (Z.to_nat buffer_size :: item_shape)
           (Z.to_nat buffer_size :: label_shape)
           (repeat (zeros2 item_shape) (Z.to_nat buffer_size))
           (repeat (zeros1 label_shape) (Z.to_nat buffer_size))
           dw 0%nat
           ["valence"; "arousal"; "dominance"; "liking"]%string).

Definition labels_np_to_dict (self : t) (np : list Z)
    : list (string * pyval) :=
  dict_of_pairs (combine (label_names self) (map PInt np)).

(** [write_example]: the sample and the labels go to slot [collected]; the
    label buffer has [dtype=int], so the labels are cast on assignment. *)
Definition write_example (data : array2) (labels : list pyval) : SE t unit :=
  self <- get ;;
  _ <- lift_result (getitem (data_buffer self) (collected self)) ;;
  row <- lift_result (broadcast2 (tl (data_buffer_shape self)) data) ;;
  db <- lift_result (setitem (data_buffer self) (collected self) row) ;;
  put (mk (data_buffer_shape self) (label_buffer_shape self) db
          (label_buffer self) (writer self) (collected self)
          (label_names self)) ;;;
  _ <- lift_result (getitem (label_buffer self) (collected self)) ;;
  lrow <- lift_result
            (broadcast_axis (hd 0%nat (tl (label_buffer_shape self)))
                            (map py_int labels)) ;;
  lb <- lift_result (setitem (label_buffer self) (collected self) lrow) ;;
  put (mk (data_buffer_shape self) (label_buffer_shape self) db lb
          (writer self) (S (collected self)) (label_names self)).

(** The two fancy-indexing assignments of [flush_buffer]. *)
Definition permute (self : t) (permutation : list nat) : t :=
  mk (data_buffer_shape self) (label_buffer_shape self)
     (take (data_buffer self) permutation)
     (take (label_buffer self) permutation)
     (writer self) (collected self) (label_names self).

End DEAPWriterBuffer.

(** ** The world: random source, file system, object heap, I/O trace *)

(** The random generators ([np.random] and [random], both seeded in the
    module header) as a source of permutations of [range(n)]. *)
Record RandomSource : Type := {
  rng_state : Type;
  draw_permutation : rng_state -> nat -> list nat * rng_state;
  draw_permutation_ok :
    forall g n, Permutation (fst (draw_permutation g n)) (seq 0 n)
}.

(** What the run reads: the listing of a directory and the decoded
    [(x["data"], x["labels"])] of a pickle file. *)
Record filesystem : Type := {
  listdir : string -> result (list string);
  pickle_load : string -> result (array3 * list (list pyval))
}.

(** Mutable Python objects referenced from several places. *)
Inductive obj : Type :=
| OWriter (dw : DEAPWriter.t)
| OBuffer (b : DEAPWriterBuffer.t)
| OArray0 (z : Z).            (* a 0-d integer array, [np.array(0)] *)

(** The document [write_config] dumps to [meta.json]. *)
Record manifest : Type := {
  meta_timestep : Z;
  meta_trim_samples : Z;
  meta_mode : string;
  meta_num_classes : Z * Z * Z * Z;
  meta_label_names : list string;
  manifest_shape : list nat;
  files_train : list string;
  files_test : list string;
  files_validation_split : pyval;
  available_train : Z;
  available_test : Z;
  available_total : Z
}.

(** The I/O a run performs, in order (console output is not recorded). *)
Inductive event : Type :=
| EListDir (dir : string)
| ELoad (file : string)
| EOpen (file : string)
| EWrite (file : string) (serialized : DEAPWriter.example)
| EClose (file : string)
| EDump (file : string) (m : manifest).

(** [sub in s]. *)
Fixpoint contains (sub s : string) : bool :=
  String.prefix sub s
  || match s with
     | EmptyString => false
     | String _ s' => contains sub s'
     end.

(** [os.path.join(a, b)] on POSIX paths. *)
Definition path_join (a b : string) : string :=
  if String.prefix "/" b then b
  else if String.eqb a "" then b
  else if String.eqb (String.substring (String.length a - 1) 1 a) "/"
       then (a ++ b)%string
       else (a ++ "/" ++ b)%string.

(** [list.sort()] on strings. *)
Fixpoint insert_sorted (x : string) (l : list string) : list string :=
  match l with
  | [] => [x]
  | y :: l' => if String.leb x y then x :: l else y :: insert_sorted x l'
  end.

Definition sort_strings (l : list string) : list string :=
  fold_right insert_sorted [] l.

Fixpoint list_set {A : Type} (l : list A) (i : nat) (x : A) : list A :=
  match l, i with
  | [], _ => []
  | _ :: l', O => x :: l'
  | y :: l', S i' => y :: list_set l' i' x
  end.

Definition deap_label_names : list string :=
  ["valence"; "arousal"; "dominance"; "liking"]%string.

Section Pipeline.

Variable R : RandomSource.

(** [dwt_alpha] (pywt) and [fft] (scipy.signal.spectrogram) are numeric
    library calls; they enter as functions on arrays. *)
Variable dwt_alpha : array2 -> array2.
Variable fft : array2 -> array2.

Record world : Type := mk_world {
  rng : rng_state R;
  fs : filesystem;
  heap : list obj;
  trace : list event
}.

Local Open Scope se_scope.

Definition log (e : event) : SE world unit :=
  fun w => (Ok tt, mk_world (rng w) (fs w) (heap w) (trace w ++ [e])).

Definition alloc (o : obj) : SE world nat :=
  fun w => (Ok (length (heap w)),
            mk_world (rng w) (fs w) (heap w ++ [o]) (trace w)).

Definition set_heap (r : nat) (o : obj) (w : world) : world :=
  mk_world (rng w) (fs w) (list_set (heap w) r o) (trace w).

(** Run a method on the [DEAPWriter] object that [r] refers to. *)
Definition on_writer {A : Type} (r : nat) (m : SE DEAPWriter.t A)
    : SE world A :=
  fun w =>
    match nth_error (heap w) r with
    | Some (OWriter dw) =>
        let '(res, dw') := m dw in (res, set_heap r (OWriter dw') w)
    | _ => (Raise AttributeError, w)
    end.

Definition on_buffer {A : Type} (r : nat) (m : SE DEAPWriterBuffer.t A)
    : SE world A :=
  fun w =>
    match nth_error (heap w) r with
    | Some (OBuffer b) =>
        let '(res, b') := m b in (res, set_heap r (OBuffer b') w)
    | _ => (Raise AttributeError, w)
    end.

Definition on_array0 {A : Type} (r : nat) (m : SE Z A) : SE world A :=
  fun w =>
    match nth_error (heap w) r with
    | Some (OArray0 z) =>
        let '(res, z') := m z in (res, set_heap r (OArray0 z') w)
    | _ => (Raise AttributeError, w)
    end.

(** [np.random.permutation(n)]. *)
Definition np_random_permutation (n : nat) : SE world (list nat) :=
  fun w =>
    let '(p, g) := draw_permutation R (rng w) n in
    (Ok p, mk_world g (fs w) (heap w) (trace w)).

(** [np.random.shuffle(a)] and [random.shuffle(l)]: the elements along the
    first axis in a drawn order. *)
Definition shuffle {A : Type} (l : list A) : SE world (list A) :=
  p <- np_random_permutation (length l) ;;
  ret (take l p).

(** [np.random.choice(a, size=size, replace=False)] for an integer [a]:
    the first [size] entries of a permutation of [range(a)]. *)
Definition np_random_choice (a size : Z) : SE world (list Z) :=
  if size <? 0 then raise ValueError
  else if (a <=? 0) && negb (size =? 0) then raise ValueError
  else if a <? size then raise ValueError
  else
    p <- np_random_permutation (Z.to_nat a) ;;
    ret (map Z.of_nat (firstn (Z.to_nat size) p)).

(** [with enter() as x: body(x)]: [exit_] runs however the body ends. *)
Definition with_ctx {X B : Type} (enter : SE world X)
    (exit_ : X -> SE world unit) (body : X -> SE world B) : SE world B :=
  fun w =>
    match enter w with
    | (Raise e, w1) => (Raise e, w1)
    | (Ok x, w1) =>
        let '(r, w2) := body x w1 in
        match exit_ x w2 with
        | (Raise e', w3) => (Raise e', w3)
        | (Ok _, w3) => (r, w3)
        end
    end.

(** *** DEAPWriter as a context manager *)

Definition DEAPWriter_enter (filenames : list string) : SE world nat :=
  r <- alloc (OWriter (DEAPWriter.init filenames)) ;;
  on_writer r (fun dw => (Ok tt, DEAPWriter.enter dw)) ;;;
  for_each filenames (fun fn => log (EOpen fn)) ;;;
  ret r.

Definition DEAPWriter_exit (r : nat) : SE world unit :=
  dw <- on_writer r get ;;
  on_writer r (DEAPWriter.exit dw) ;;;
  for_each (map fst (combine (DEAPWriter.filenames dw)
                             (match DEAPWriter.writers dw with
                              | Some ws => ws
                              | None => []
                              end)))
           (fun fn => log (EClose fn)).

(** The file the next record of the writer goes to. *)
Definition next_path (dw : DEAPWriter.t) : option string :=
  match DEAPWriter.writer_iterator dw, DEAPWriter.writers dw with
  | Some pos, Some ws => option_map DEAPWriter.path (nth_error ws pos)
  | _, _ => None
  end.

Definition DEAPWriter_write_example (r : nat) (data : array2)
    (labels : list (string * pyval)) : SE world unit :=
  dw <- on_writer r get ;;
  on_writer r (DEAPWriter.write_example data labels) ;;;
  match next_path dw with
  | Some file => log (EWrite file (DEAPWriter.serialize_example data labels))
  | None => ret tt
  end.

(** *** DEAPWriterBuffer as a context manager *)

Definition DEAPWriterBuffer_enter (dw : nat) (item_shape label_shape : list nat)
    (buffer_size : Z) : SE world nat :=
  b <- lift_result (DEAPWriterBuffer.init dw item_shape label_shape buffer_size) ;;
  alloc (OBuffer b).

Definition flush_buffer (r : nat) : SE world unit :=
  self <- on_buffer r get ;;
  permutation <- np_random_permutation (DEAPWriterBuffer.collected self) ;;
  on_buffer r (put (DEAPWriterBuffer.permute self permutation)) ;;;
  for_each (seq 0 (DEAPWriterBuffer.collected self)) (fun i =>
    self <- on_buffer r get ;;
    d <- lift_result (getitem (DEAPWriterBuffer.data_buffer self) i) ;;
    l <- lift_result (getitem (DEAPWriterBuffer.label_buffer self) i) ;;
    let ld := DEAPWriterBuffer.labels_np_to_dict self l in
    DEAPWriter_write_example (DEAPWriterBuffer.writer self) d ld).

(** *** Reading a subject file *)

Definition unpickle (file : string)
    : SE world (array3 * list (list pyval)) :=
  log (ELoad file) ;;;
  w <- get ;;
  lift_result (pickle_load (fs w) file).

Definition as_dict (out : LabelTransformer.labels_out)
    : result (list (string * pyval)) :=
  match out with
  | LabelTransformer.AsDict d => Ok d
  | LabelTransformer.AsArray _ => Raise AttributeError
  end.

Definition as_array (out : LabelTransformer.labels_out)
    : result (list pyval) :=
  match out with
  | LabelTransformer.AsArray a => Ok a
  | LabelTransformer.AsDict _ => Raise TypeError
  end.

(** [data[:, trim_samples:, :]] when [trim_samples > 0]. *)
Definition trim (trim_samples : Z) (data : array3) : array3 :=
  if 0 <? trim_samples then map (skipn (Z.to_nat trim_samples)) data
  else data.

(** *** process_file, the [method == "own"] branch (the one
    [process_directory] uses) *)

Definition process_file (pickle_file : string) (writer : nat)
    (trim_samples : Z) (target_splits : Z)
    (valence_classes arousal_classes dominance_classes liking_classes : Z)
    (axes_order : string) : SE world unit :=
  loaded <- unpickle pickle_file ;;
  let '(data, labels) := loaded in
  let data := map swapaxes data in
  label_transformer <-
    lift_result (LabelTransformer.init valence_classes arousal_classes
                   dominance_classes liking_classes deap_label_names) ;;
  let data := trim trim_samples data in
  let num_experiments := length data in
  data <- shuffle data ;;
  for_each (seq 0 num_experiments) (fun experiment =>
    experiment_data <- lift_result (getitem data experiment) ;;
    experiment_labels <- lift_result (getitem labels experiment) ;;
    transformed_labels <-
      lift_result (LabelTransformer.transform_labels label_transformer
                     experiment_labels false) ;;
    split_experiment_data <-
      lift_result (np_split experiment_data target_splits) ;;
    split_experiment_data <- shuffle split_experiment_data ;;
    for_each split_experiment_data (fun sample =>
      let sample :=
        if String.eqb axes_order "sensors-first" then swapaxes sample
        else sample in
      ld <- lift_result (as_dict transformed_labels) ;;
      DEAPWriter_write_example writer sample ld)).

(** *** process_file_subject_dependent *)

(** [experiment_data[:, :32]] when [processing is not None]. *)
Definition select_channels (processing : option string)
    (experiment_data : array2) : array2 :=
  match processing with
  | Some _ => map (firstn 32) experiment_data
  | None => experiment_data
  end.

Definition processing_is (processing : option string) (name : string) : bool :=
  match processing with
  | Some p => String.eqb p name
  | None => false
  end.

Definition apply_processing (processing : option string)
    (split_experiment_data : list array2) : list array2 :=
  let split_experiment_data :=
    if processing_is processing "wavelet"
    then map dwt_alpha split_experiment_data
    else split_experiment_data in
  if processing_is processing "fft"
  then map fft (map swapaxes split_experiment_data)
  else split_experiment_data.

(** Lines 502-503: the axis order of an emitted sample. *)
Definition oriented (axes_order : string) (processing : option string)
    (sample : array2) : array2 :=
  if String.eqb axes_order "sensors-first"
     && negb (processing_is processing "fft")
  then swapaxes sample else sample.

(** Lines 455-508: what [process_file_subject_dependent] does with the
    decoded arrays.  [current_sample] refers to the 0-d array the caller
    shares with every call; [+= 1] updates that object in place. *)
Definition process_subject_trials (data : array3) (labels : list (list pyval))
    (train_writer test_writer : nat) (current_sample : nat)
    (validation_indices : list Z)
    (target_windows : list (list (option Z))) (trim_samples : Z)
    (num_classes : Z * Z * Z * Z) (axes_order : string)
    (processing : option string) : SE world unit :=
  let data := map swapaxes data in
  let '(valence_classes, arousal_classes, dominance_classes, liking_classes) :=
    num_classes in
  label_transformer <-
    lift_result (LabelTransformer.init valence_classes arousal_classes
                   dominance_classes liking_classes deap_label_names) ;;
  let data := trim trim_samples data in
  let num_experiments := length data in
  for_each (seq 0 num_experiments) (fun experiment =>
    experiment_data <- lift_result (getitem data experiment) ;;
    let experiment_data := select_channels processing experiment_data in
    experiment_labels <- lift_result (getitem labels experiment) ;;
    transformed_labels <-
      lift_result (LabelTransformer.transform_labels label_transformer
                     experiment_labels true) ;;
    split_experiment_data <-
      lift_result (split_with_windows experiment_data target_windows) ;;
    let split_experiment_data :=
      apply_processing processing split_experiment_data in
    for_each split_experiment_data (fun sample =>
      let sample := oriented axes_order processing sample in
      counter <- on_array0 current_sample get ;;
      la <- lift_result (as_array transformed_labels) ;;
      (if existsb (Z.eqb counter) validation_indices
       then on_buffer test_writer (DEAPWriterBuffer.write_example sample la)
       else on_buffer train_writer (DEAPWriterBuffer.write_example sample la)) ;;;
      on_array0 current_sample (put (counter + 1)))).

Definition process_file_subject_dependent (in_file : string)
    (train_writer test_writer : nat) (current_sample : nat)
    (validation_indices : list Z)
    (target_windows : list (list (option Z))) (trim_samples : Z)
    (num_classes : Z * Z * Z * Z) (axes_order : string)
    (processing : option string) : SE world unit :=
  loaded <- unpickle in_file ;;
  let '(data, labels) := loaded in
  process_subject_trials data labels train_writer test_writer current_sample
    validation_indices target_windows trim_samples num_classes axes_order
    processing.

(** *** write_config and process_directory *)

Definition write_config (timestep trim_samples : Z) (mode : string)
    (num_classes : Z * Z * Z * Z) (names : list string) (shape : list nat)
    (train test : list string) (validation_split : pyval)
    (available : Z * Z * Z) (destination_dir : string) : SE world unit :=
  let '(a_train, a_test, a_total) := available in
  log (EDump (path_join destination_dir "meta.json")
             (Build_manifest timestep trim_samples mode num_classes names
                shape train test validation_split a_train a_test a_total)).

(** The local variables of [process_directory] that only one of the two
    mode branches binds. *)
Record locals : Type := mk_locals {
  train_names : option (list string);
  test_names : option (list string);
  records_available : option (Z * Z * Z);
  shape : option (list nat)
}.

Definition lookup {A : Type} (v : option A) : SE world A :=
  match v with
  | Some a => ret a
  | None => raise UnboundLocalError
  end.

(** Lines 201-214: the window length, the step and the index windows. *)
Definition compute_windows (target_seconds : pyval) (trim_samples : Z)
    (window_step : option pyval) : result (list (list (option Z))) :=
  let samples_per_chunk := py_int (py_mul (PInt 128) target_seconds) in
  let total_samples_per_experiment := 63 * 128 - trim_samples in
  match window_step with
  | Some ws =>
      let step_samples := py_mul (PInt 128) ws in
      MoreItertools.windowed
        (map Some (py_range total_samples_per_experiment))
        samples_per_chunk None step_samples
  | None =>
      MoreItertools.windowed
        (map Some (py_range total_samples_per_experiment))
        samples_per_chunk None (PInt samples_per_chunk)
  end.

(** [int(total_number_available * validation_split)]. *)
Definition num_validation_of (total_number_available : Z)
    (validation_split : pyval) : Z :=
  py_int (py_mul (PInt total_number_available) validation_split).

Definition subject_dependent_pass (input_dir : string)
    (out_names file_list : list string)
    (windows : list (list (option Z))) (samples_per_chunk : Z)
    (trim_samples : Z) (validation_split : pyval)
    (num_classes : Z * Z * Z * Z) (num_experiments : Z)
    (processing : option string) : SE world locals :=
  let num_subjects :=
    Z.of_nat (length (filter (contains ".dat") file_list)) in
  let num_samples_per_experiment := Z.of_nat (length windows) in
  let total_number_available :=
    num_subjects * num_experiments * num_samples_per_experiment in
  let num_validation :=
    num_validation_of total_number_available validation_split in
  let num_training := total_number_available - num_validation in
  validation_indices <-
    np_random_choice total_number_available num_validation ;;
  let train_names := filter (contains "train") out_names in
  let test_names := filter (contains "test") out_names in
  current_sample <- alloc (OArray0 0) ;;
  let data_shape := [40%nat; Z.to_nat samples_per_chunk] in
  let label_shape := [4%nat] in
  with_ctx (DEAPWriter_enter train_names) DEAPWriter_exit (fun train_writer =>
  with_ctx (DEAPWriter_enter test_names) DEAPWriter_exit (fun test_writer =>
    with_ctx (DEAPWriterBuffer_enter train_writer data_shape label_shape
                num_training)
             flush_buffer (fun train_writer_buffer =>
    with_ctx (DEAPWriterBuffer_enter test_writer data_shape label_shape
                num_validation)
             flush_buffer (fun test_writer_buffer =>
      for_each file_list (fun file =>
        let abs_file := path_join input_dir file in
        process_file_subject_dependent abs_file train_writer_buffer
          test_writer_buffer current_sample validation_indices windows
          trim_samples num_classes "sensors-first" processing))) ;;;
    dw <- on_writer train_writer get ;;
    shape <- (match DEAPWriter.shape dw with
              | Some s => ret s
              | None => raise AttributeError
              end) ;;
    ret (mk_locals (Some train_names) (Some test_names)
           (Some (total_number_available - num_validation, num_validation,
                  total_number_available))
           (Some shape)))).

(** The [for file_id, file in enumerate(...)] loop of the
    subject-independent branch; [shape] is rebound on every round. *)
Fixpoint independent_files (input_dir : string) (out_names : list string)
    (trim_samples : Z) (num_samples_per_experiment : Z)
    (num_classes : Z * Z * Z * Z) (file_id : nat) (files : list string)
    (shape : option (list nat)) : SE world (option (list nat)) :=
  match files with
  | [] => ret shape
  | file :: rest =>
      let abs_file := path_join input_dir file in
      tffile <- lift_result (getitem out_names file_id) ;;
      let '(valence_classes, arousal_classes, dominance_classes,
            liking_classes) := num_classes in
      shape' <-
        with_ctx (DEAPWriter_enter [tffile]) DEAPWriter_exit (fun writer =>
          process_file abs_file writer trim_samples
            num_samples_per_experiment valence_classes arousal_classes
            dominance_classes liking_classes "sensors-first" ;;;
          dw <- on_writer writer get ;;
          match DEAPWriter.shape dw with
          | Some s => ret s
          | None => raise AttributeError
          end) ;;
      independent_files input_dir out_names trim_samples
        num_samples_per_experiment num_classes (S file_id) rest (Some shape')
  end.

Definition subject_independent_pass (input_dir : string)
    (out_names file_list : list string)
    (windows : list (list (option Z))) (trim_samples : Z)
    (validation_split : pyval) (num_classes : Z * Z * Z * Z)
    (num_experiments : Z) (before : locals) : SE world locals :=
  let file_list := sort_strings file_list in
  let num_samples_per_experiment := Z.of_nat (length windows) in
  let available_per_file := num_samples_per_experiment * num_experiments in
  let num_test_files :=
    py_round (py_mul validation_split (PInt (Z.of_nat (length file_list)))) in
  let num_train_files := Z.of_nat (length file_list) - num_test_files in
  test_names <-
    lift_result
      (map_result (getitem out_names)
         (filter (fun i => Z.of_nat i <? num_test_files)
                 (seq 0 (length file_list)))) ;;
  let train_names :=
    filter (fun x => negb (existsb (String.eqb x) test_names)) out_names in
  shape <-
    independent_files input_dir out_names trim_samples
      num_samples_per_experiment num_classes 0 file_list (shape before) ;;
  ret (mk_locals (Some train_names) (Some test_names)
         (Some (available_per_file * num_train_files,
                available_per_file * num_test_files,
                available_per_file * (num_test_files + num_train_files)))
         shape).

Definition process_directory (input_dir target_directory : string)
    (out_names : list string) (mode : string) (target_seconds : pyval)
    (trim_samples : Z) (validation_split : pyval)
    (num_classes : Z * Z * Z * Z) (num_experiments : Z)
    (processing : option string) (window_step : option pyval)
    : SE world unit :=
  log (EListDir input_dir) ;;;
  w <- get ;;
  file_list <- lift_result (listdir (fs w) input_dir) ;;
  let samples_per_chunk := py_int (py_mul (PInt 128) target_seconds) in
  windows <-
    lift_result (compute_windows target_seconds trim_samples window_step) ;;
  l <- (if String.eqb mode "subject-dependent"
        then subject_dependent_pass input_dir out_names file_list windows
               samples_per_chunk trim_samples validation_split num_classes
               num_experiments processing
        else ret (mk_locals None None None None)) ;;
  l <- (if String.eqb mode "subject-independent"
        then subject_independent_pass input_dir out_names file_list windows
               trim_samples validation_split num_classes num_experiments l
        else ret l) ;;
  train <- lookup (train_names l) ;;
  test <- lookup (test_names l) ;;
  available <- lookup (records_available l) ;;
  shape <- lookup (shape l) ;;
  write_config samples_per_chunk trim_samples mode num_classes deap_label_names
    shape train test validation_split available target_directory.

End Pipeline.

Arguments mk_world {R} rng fs heap trace.
Arguments rng {R} w.
Arguments fs {R} w.
Arguments heap {R} w.
Arguments trace {R} w.
Arguments log {R} e _.
Arguments alloc {R} o _.
Arguments set_heap {R} r o w.
Arguments on_writer {R A} r m _.
Arguments on_buffer {R A} r m _.
Arguments on_array0 {R A} r m _.
Arguments np_random_permutation {R} n _.
Arguments shuffle {R A} l _.
Arguments np_random_choice {R} a size _.
Arguments with_ctx {R X B} enter exit_ body _.
Arguments DEAPWriter_enter {R} filenames _.
Arguments DEAPWriter_exit {R} r _.
Arguments DEAPWriter_write_example {R} r data labels _.
Arguments DEAPWriterBuffer_enter {R} dw item_shape label_shape buffer_size _.
Arguments flush_buffer {R} r _.
Arguments unpickle {R} file _.

(** ** Concrete worlds for examples *)

(** A random source that always draws the reversed order. *)
Definition reversing_source : RandomSource :=
  {| rng_state := unit;
     draw_permutation := fun g n => (rev (seq 0 n), g);
     draw_permutation_ok :=
       fun _ n => Permutation_sym (Permutation_rev (seq 0 n)) |}.

(** A random source that always draws the identity order. *)
Definition identity_source : RandomSource :=
  {| rng_state := unit;
     draw_permutation := fun g n => (seq 0 n, g);
     draw_permutation_ok := fun _ n => Permutation_refl (seq 0 n) |}.

(** One subject file [s01.dat] in directory [in]: a single trial of two
    channels and three samples, with its four ratings. *)
Definition one_subject_filesystem : filesystem :=
  {| listdir := fun dir =>
       if String.eqb dir "in" then Ok ["s01.dat"%string] else Raise OSError;
     pickle_load := fun file =>
       if String.eqb file "in/s01.dat"
       then Ok ([[[1; 2; 3]; [4; 5; 6]]]%Q,
                [[PFloat 7; PFloat 2; PFloat 5; PFloat 9]])
       else Raise OSError |}.

(** One subject file [s01.dat] with two trials of one channel and two
    samples each. *)
Definition two_trial_filesystem : filesystem :=
  {| listdir := fun dir =>
       if String.eqb dir "in" then Ok ["s01.dat"%string] else Raise OSError;
     pickle_load := fun file =>
       if String.eqb file "in/s01.dat"
       then Ok ([[[1; 2]]; [[3; 4]]]%Q,
                [[PFloat 7; PFloat 2; PFloat 5; PFloat 9];
                 [PFloat 2; PFloat 2; PFloat 2; PFloat 2]])
       else Raise OSError |}.

Definition empty_filesystem : filesystem :=
  {| listdir := fun _ => Raise OSError;
     pickle_load := fun _ => Raise OSError |}.

(** ** Definitions used to state the properties *)

Module LabelSpec.
Import LabelTransformer.

(** The label range [[min_value, max_value]]. *)
Definition in_range (q : Q) : Prop := (min_value <= q /\ q <= max_value)%Q.

(** [max_exclusive] after a loop that never breaks. *)
Definition last_bound (classes : list (Q * Q)) (m : option Q) : option Q :=
  match classes with
  | [] => m
  | _ :: _ => Some (snd (last classes (0, 0)%Q))
  end.

(** The classification the specification describes: the id of the first
    interval with [low <= value < high]; the last id when none matches and
    the value is the maximum; a failure otherwise. *)
Fixpoint first_interval (class_id : Z) (breakpoints : list (Q * Q))
    (value : Q) : option Z :=
  match breakpoints with
  | [] => None
  | (low, high) :: rest =>
      if Qle_bool low value && negb (Qle_bool high value) then Some class_id
      else first_interval (class_id + 1) rest value
  end.

Definition spec_classify (value : Q) (breakpoints : list (Q * Q))
    : option Z :=
  match first_interval 0 breakpoints value with
  | Some class_id => Some class_id
  | None =>
      if Qeq_bool value max_value
      then Some (Z.of_nat (length breakpoints) - 1)
      else None
  end.

End LabelSpec.

Module WriterSpec.

(** The records of a written sequence that a rotation over [n] destinations
    sends to destination [j]: those at positions [j], [j + n], [j + 2n], ... *)
Definition dest_records {A : Type} (n j : nat) (written : list A) : list A :=
  map snd (filter (fun ix => (fst ix mod n =? j)%nat)
                  (combine (seq 0 (length written)) written)).

(** The state of a writer over [fns] after the examples [written], the
    last of them of shape [sh]. *)
Definition after_writes (fns : list string) (written : list DEAPWriter.example)
    (sh : option (list nat)) : DEAPWriter.t :=
  let n := length fns in
  DEAPWriter.mk fns
    (map (fun j => Z.of_nat (length (dest_records n j written))) (seq 0 n))
    (Some (map (fun j => DEAPWriter.mk_tfwriter j (nth j fns ""%string)
                           (dest_records n j written) false)
               (seq 0 n)))
    (Some (length written mod n)%nat)
    sh.




End WriterSpec.

Module WindowSpec.

(** Cell [x] of a timeline of length [T] extended by padding: the position
    itself inside the timeline, the fill value [None] beyond it. *)
Definition cell (T x : nat) : option Z :=
  if (x <? T)%nat then Some (Z.of_nat x) else None.

(** The window that starts at [i * step]. *)
Definition window_at (T n step i : nat) : list (option Z) :=
  map (cell T) (seq (i * step) n).

(** How many fill values follow the timeline. *)
Definition padding_length (n step : nat) : nat :=
  if (n <=? step)%nat then (n - 1)%nat else (step - 1)%nat.

(** How many windows a timeline of length [T] yields. *)
Definition window_count (T n step : nat) : nat :=
  if (T =? 0)%nat then 0%nat
  else if (T <? n)%nat then 1%nat
  else S ((T - n + padding_length n step) / step).

End WindowSpec.

Module BufferSpec.

(** A sample of exactly the shape of a buffer slot. *)
Definition has_shape (r c : nat) (data : array2) : Prop :=
  length data = r /\ Forall (fun row => length row = c) data.

(** The label vector as the integer buffer holds it. *)
Definition stored_labels (it : array2 * list pyval) : list Z :=
  map py_int (snd it).

(** [write_example] for every pair of a list, in order. *)
Definition append_all (items : list (array2 * list pyval))
    : SE DEAPWriterBuffer.t unit :=
  for_each items (fun it => DEAPWriterBuffer.write_example (fst it) (snd it)).

(** The example persisted for an appended pair: the sample with the dict of
    its own labels. *)
Definition record_of (names : list string) (it : array2 * list pyval)
    : DEAPWriter.example :=
  DEAPWriter.serialize_example (fst it)
    (dict_of_pairs (combine names (map PInt (stored_labels it)))).

(** The examples written, in order, according to an I/O trace. *)
Definition writes_of (tr : list event) : list DEAPWriter.example :=
  flat_map (fun e => match e with
                     | EWrite _ serialized => [serialized]
                     | _ => []
                     end) tr.

End BufferSpec.

Module RoutingSpec.

(** A buffer of capacity [cap] for [r] x [c] samples and 4 labels whose
    first slots hold [items], in order, the others still zero. *)
Definition buffer_holding (cap r c dw : nat)
    (items : list (array2 * list pyval)) : DEAPWriterBuffer.t :=
  DEAPWriterBuffer.mk [cap; r; c] [cap; 4%nat]
    (map fst items
     ++ repeat (DEAPWriterBuffer.zeros2 [r; c]) (cap - length items))
    (map BufferSpec.stored_labels items
     ++ repeat (DEAPWriterBuffer.zeros1 [4%nat]) (cap - length items))
    dw (length items) deap_label_names.



(** A pair that fits a buffer slot: an [r] x [c] sample with 4 labels. *)
Definition well_shaped (r c : nat) (it : array2 * list pyval) : Prop :=
  BufferSpec.has_shape r c (fst it) /\ length (snd it) = 4%nat.

Section Emission.
Variables dwt_alpha fft : array2 -> array2.




End Emission.

End RoutingSpec.

Module ShuffleSpec.

(** A computation that leaves the random generators untouched, however it
    ends. *)
Definition keeps_rng {R : RandomSource} {A : Type} (m : SE (world R) A)
    : Prop :=
  forall w, rng (snd (m w)) = rng w.

(** The sample array of a written example: its feature "X". *)
Definition sample_of (serialized : DEAPWriter.example) : list array2 :=
  match serialized with
  | (_, DEAPWriter.numpy_feature a) :: _ => [a]
  | _ => []
  end.

(** The sample arrays written, in order, according to an I/O trace. *)
Definition written_arrays (tr : list event) : list array2 :=
  flat_map sample_of (BufferSpec.writes_of tr).



End ShuffleSpec.

(** ** Definitions used to state the further properties *)

(** An input directory that exists and holds nothing. *)
Definition empty_directory_filesystem : filesystem :=
  {| listdir := fun _ => Ok [];
     pickle_load := fun _ => Raise OSError |}.

Module FlushSpec.

(** A buffer whose first slots hold [items], in order, whatever follows
    them. *)
Definition holds (b : DEAPWriterBuffer.t)
    (items : list (array2 * list pyval)) : Prop :=
  exists pad_d pad_l,
    DEAPWriterBuffer.data_buffer b = map fst items ++ pad_d
    /\ DEAPWriterBuffer.label_buffer b
       = map BufferSpec.stored_labels items ++ pad_l
    /\ DEAPWriterBuffer.collected b = length items
    /\ DEAPWriterBuffer.label_names b = deap_label_names.

End FlushSpec.

Module SessionSpec.


(** The writer object after a session over [fns] that wrote [written]:
    every destination closed, with the records it received. *)
Definition closed_after (fns : list string)
    (written : list DEAPWriter.example) (sh : option (list nat))
    : DEAPWriter.t :=
  let n := length fns in
  DEAPWriter.mk fns
    (map (fun j => Z.of_nat (length (WriterSpec.dest_records n j written)))
         (seq 0 n))
    (Some (map (fun j => DEAPWriter.mk_tfwriter j (nth j fns ""%string)
                           (WriterSpec.dest_records n j written) true)
               (seq 0 n)))
    (Some (length written mod n)%nat)
    sh.

End SessionSpec.

Module ManifestSpec.

Definition is_dump (e : event) : bool :=
  match e with
  | EDump _ _ => true
  | _ => false
  end.

(** The manifests dumped, in order, according to an I/O trace. *)
Definition dumps_of (tr : list event) : list event := filter is_dump tr.

(** A computation that dumps no manifest, however it ends. *)
Definition dumps_nothing {R : RandomSource} {A : Type}
    (m : SE (world R) A) : Prop :=
  forall w, dumps_of (trace (snd (m w))) = dumps_of (trace w).

End ManifestSpec.

Module OwnSpec.


End OwnSpec.

(* ================================================================== *)
(** * Properties *)

(** ** Generic facts: the monad, lists *)

Lemma for_each_app {S A : Type} (xs ys : list A) (body : A -> SE S unit)
    (s : S) :
  for_each (xs ++ ys) body s
  = match for_each xs body s with
    | (Ok _, s') => for_each ys body s'
    | (Raise e, s') => (Raise e, s')
    end.
Proof.
  revert s. induction xs as [|x xs IH]; intros s.
  - reflexivity.
  - cbn [app for_each]. unfold se_bind.
    destruct (body x s) as [[[]|e] s1]; [apply IH | reflexivity].
Qed.

Lemma se_bind_lift_ok {S A B : Type} (r : result A) (a : A)
    (k : A -> SE S B) (s : S) :
  r = Ok a -> se_bind (lift_result r) k s = k a s.
Proof. intros ->. reflexivity. Qed.

Lemma getitem_nth {A : Type} (l : list A) (i : nat) (d : A) :
  (i < length l)%nat -> getitem l i = Ok (nth i l d).
Proof.
  intros H. unfold getitem. now rewrite (nth_error_nth' _ d H).
Qed.

Lemma setitem_list_set {A : Type} (l : list A) (i : nat) (x : A) :
  (i < length l)%nat -> setitem l i x = Ok (list_set l i x).
Proof.
  revert i. induction l as [|y l IH]; intros [|i] H; simpl in *; try lia.
  - reflexivity.
  - rewrite IH by lia. reflexivity.
Qed.

Lemma list_set_map_seq {A : Type} (f : nat -> A) (a n p : nat) (x : A) :
  list_set (map f (seq a n)) p x
  = map (fun j => if (j =? a + p)%nat then x else f j) (seq a n).
Proof.
  revert a p. induction n as [|n IH]; intros a p; [reflexivity|].
  destruct p as [|p]; cbn [seq map list_set].
  - rewrite Nat.add_0_r, Nat.eqb_refl. f_equal.
    apply map_ext_in. intros j Hj. apply in_seq in Hj.
    destruct (Nat.eqb_spec j a); [lia | reflexivity].
  - destruct (Nat.eqb_spec a (a + S p)); [lia|]. f_equal.
    rewrite IH. apply map_ext. intros j.
    replace (S a + p)%nat with (a + S p)%nat by lia. reflexivity.
Qed.

Lemma nth_error_map_seq {A : Type} (f : nat -> A) (a n p : nat) :
  (p < n)%nat -> nth_error (map f (seq a n)) p = Some (f (a + p)%nat).
Proof.
  intros H. rewrite nth_error_map, nth_error_seq.
  destruct (Nat.ltb_spec p n); [reflexivity | lia].
Qed.

Lemma combine_app_same {A B : Type} (l1 l2 : list A) (m1 m2 : list B) :
  length l1 = length m1 ->
  combine (l1 ++ l2) (m1 ++ m2) = combine l1 m1 ++ combine l2 m2.
Proof.
  revert m1. induction l1 as [|a l1 IH]; intros [|b m1] H;
    simpl in *; try discriminate; [reflexivity|].
  rewrite IH by lia. reflexivity.
Qed.

Lemma firstn_seq (n a len : nat) :
  firstn n (seq a len) = seq a (Nat.min n len).
Proof.
  revert a len. induction n as [|n IH]; intros a [|len]; try reflexivity.
  cbn [firstn seq Nat.min]. now rewrite IH.
Qed.

Lemma list_set_same {A : Type} (l : list A) (r : nat) (x : A) :
  nth_error l r = Some x -> list_set l r x = l.
Proof.
  revert r. induction l as [|y l IH]; intros [|r] H; simpl in *;
    try discriminate; [congruence|].
  now rewrite IH.
Qed.

Lemma list_set_twice {A : Type} (l : list A) (r : nat) (x y : A) :
  list_set (list_set l r x) r y = list_set l r y.
Proof.
  revert r. induction l as [|z l IH]; intros [|r]; simpl; try reflexivity.
  now rewrite IH.
Qed.

Lemma list_set_length {A : Type} (l : list A) (r : nat) (x : A) :
  length (list_set l r x) = length l.
Proof.
  revert r. induction l as [|z l IH]; intros [|r]; simpl; try reflexivity.
  now rewrite IH.
Qed.

Lemma nth_error_list_set_eq {A : Type} (l : list A) (r : nat) (x : A) :
  (r < length l)%nat -> nth_error (list_set l r x) r = Some x.
Proof.
  revert r. induction l as [|z l IH]; intros [|r] H; simpl in *; try lia.
  - reflexivity.
  - apply IH. lia.
Qed.

Lemma nth_error_list_set_neq {A : Type} (l : list A) (r r' : nat) (x : A) :
  r <> r' -> nth_error (list_set l r x) r' = nth_error l r'.
Proof.
  revert r r'. induction l as [|z l IH]; intros [|r] [|r'] H; simpl;
    try reflexivity; try congruence.
  apply IH. congruence.
Qed.

Lemma list_set_app_mid {A : Type} (pre post : list A) (z x : A) :
  list_set (pre ++ z :: post) (length pre) x = pre ++ x :: post.
Proof.
  induction pre as [|y pre IH]; simpl; [reflexivity | now rewrite IH].
Qed.

Lemma take_map {A B : Type} (f : A -> B) (l : list A) (p : list nat) :
  take (map f l) p = map f (take l p).
Proof.
  unfold take. induction p as [|j p IH]; [reflexivity|].
  cbn [flat_map]. rewrite map_app, IH, nth_error_map.
  destruct (nth_error l j); reflexivity.
Qed.

Lemma take_app_l {A : Type} (l1 l2 : list A) (p : list nat) :
  Forall (fun j => (j < length l1)%nat) p ->
  take (l1 ++ l2) p = take l1 p.
Proof.
  unfold take. induction 1 as [|j p Hj _ IH]; [reflexivity|].
  cbn [flat_map]. rewrite IH, nth_error_app1 by exact Hj. reflexivity.
Qed.

Lemma take_seq {A : Type} (l pre : list A) :
  take (pre ++ l) (seq (length pre) (length l)) = l.
Proof.
  revert pre. induction l as [|x l IH]; intros pre; [reflexivity|].
  cbn [length seq]. unfold take in *. cbn [flat_map].
  rewrite nth_error_app2, Nat.sub_diag by lia. cbn [nth_error app].
  f_equal. specialize (IH (pre ++ [x])).
  rewrite <- app_assoc, length_app, Nat.add_1_r in IH. exact IH.
Qed.

Lemma take_permutation {A : Type} (l : list A) (p : list nat) :
  Permutation p (seq 0 (length l)) -> Permutation (take l p) l.
Proof.
  intros H. rewrite <- (take_seq l []) at 2. cbn [app length].
  unfold take. apply Permutation_flat_map. exact H.
Qed.

Lemma take_length {A : Type} (l : list A) (p : list nat) :
  Forall (fun j => (j < length l)%nat) p -> length (take l p) = length p.
Proof.
  unfold take. induction 1 as [|j p Hj _ IH]; [reflexivity|].
  cbn [flat_map]. rewrite length_app, IH.
  apply nth_error_Some in Hj. destruct (nth_error l j); [reflexivity|congruence].
Qed.

Lemma combine_take {A B : Type} (a : list A) (b : list B) (p : list nat) :
  length a = length b ->
  combine (take a p) (take b p) = take (combine a b) p.
Proof.
  intros Hlen. unfold take. induction p as [|j p IH]; [reflexivity|].
  cbn [flat_map].
  destruct (nth_error a j) as [x|] eqn:Ea; destruct (nth_error b j) as [y|] eqn:Eb.
  - assert (E : nth_error (combine a b) j = Some (x, y)).
    { clear IH. revert b j Hlen Ea Eb.
      induction a as [|x' a IHa]; intros [|y' b] [|j] Hlen Ea Eb;
        simpl in *; try discriminate; [congruence|].
      apply IHa; [lia | assumption | assumption]. }
    rewrite E. cbn [app combine]. now rewrite IH.
  - apply nth_error_None in Eb.
    assert (nth_error a j <> None) by congruence.
    apply nth_error_Some in H. lia.
  - apply nth_error_None in Ea.
    assert (nth_error b j <> None) by congruence.
    apply nth_error_Some in H. lia.
  - assert (E : nth_error (combine a b) j = None).
    { apply nth_error_None. rewrite length_combine.
      apply nth_error_None in Ea. lia. }
    rewrite E. exact IH.
Qed.

Lemma permutation_in_range (p : list nat) (n : nat) :
  Permutation p (seq 0 n) -> Forall (fun j => (j < n)%nat) p.
Proof.
  intros H. apply Forall_forall. intros j Hj.
  apply (Permutation_in _ H) in Hj. apply in_seq in Hj. lia.
Qed.

Lemma succ_div_mod (c n : nat) :
  (0 < n)%nat ->
  if (S (c mod n) =? n)%nat
  then (S c / n = S (c / n) /\ S c mod n = 0)%nat
  else (S c / n = c / n /\ S c mod n = S (c mod n))%nat.
Proof.
  intros Hn.
  assert (Hc := Nat.div_mod_eq c n).
  assert (Hr := Nat.mod_upper_bound c n ltac:(lia)).
  assert (Hc' := Nat.div_mod_eq (S c) n).
  assert (Hr' := Nat.mod_upper_bound (S c) n ltac:(lia)).
  destruct (Nat.eqb_spec (S (c mod n)) n) as [E|E];
    apply (Nat.div_mod_unique n); try lia; nia.
Qed.

(** ** Label binning *)

Module LabelTransformerFacts.
Import LabelTransformer LabelSpec.
Local Open Scope result_scope.

Lemma arange_point_in_range (n k : nat) :
  (0 < n)%nat -> (k <= n)%nat ->
  in_range (inject_Z (Z.of_nat k)
            * ((max_value - min_value) / inject_Z (Z.of_nat n)) + min_value).
Proof.
  intros Hn Hk. unfold in_range, min_value, max_value.
  assert (Hn' : (0 < inject_Z (Z.of_nat n))%Q).
  { unfold Qlt; simpl; lia. }
  assert (Hk0 : (0 <= inject_Z (Z.of_nat k))%Q).
  { unfold Qle; simpl; lia. }
  assert (Hkn : (inject_Z (Z.of_nat k) <= inject_Z (Z.of_nat n))%Q).
  { unfold Qle; simpl; lia. }
  set (a := inject_Z (Z.of_nat k)) in *.
  set (b := inject_Z (Z.of_nat n)) in *.
  assert (E : (a * ((9 - 1) / b) + 1 == 8 * (a / b) + 1)%Q).
  { field. intro Hb. rewrite Hb in Hn'. discriminate. }
  rewrite E.
  assert (H0 : (0 <= a / b)%Q).
  { apply Qle_shift_div_l; [exact Hn'|]. rewrite Qmult_0_l. exact Hk0. }
  assert (H1 : (a / b <= 1)%Q).
  { apply Qle_shift_div_r; [exact Hn'|]. rewrite Qmult_1_l. exact Hkn. }
  set (c := (a / b)%Q) in *. clearbody c. split; lra.
Qed.

Lemma in_removelast {A : Type} (l : list A) (x : A) :
  In x (removelast l) -> In x l.
Proof.
  induction l as [|a l IH]; [simpl; tauto|].
  destruct l as [|b l]; [simpl; tauto|].
  change (removelast (a :: b :: l)) with (a :: removelast (b :: l)).
  intros [H|H]; [now left | right; now apply IH].
Qed.

Lemma in_replace_last (stop x : Q) (y : list Q) :
  In x (replace_last stop y) -> In x y \/ x = stop.
Proof.
  destruct y as [|a y]; [simpl; tauto|].
  unfold replace_last. intros H. apply in_app_or in H.
  destruct H as [H|[H|[]]]; [left; now apply in_removelast | now right].
Qed.

Lemma replace_last_length (stop : Q) (y : list Q) :
  length (replace_last stop y) = length y.
Proof.
  destruct y as [|a y]; [reflexivity|].
  unfold replace_last. rewrite length_app. simpl length at 2.
  induction y as [|b y IH] in a |- *; [reflexivity|].
  change (removelast (a :: b :: y)) with (a :: removelast (b :: y)).
  simpl length in *. specialize (IH b). lia.
Qed.

(** For a positive class count the table exists, has [num_classes] rows and
    every bound of every row lies in [[min_value, max_value]]. *)
Lemma build_classes_bounds (num_classes : Z) :
  0 < num_classes ->
  exists classes,
    build_classes num_classes = Ok classes
    /\ length classes = Z.to_nat num_classes
    /\ Forall (fun c => in_range (fst c) /\ in_range (snd c)) classes.
Proof.
  intros Hpos. unfold build_classes, linspace.
  destruct (Z.ltb_spec (num_classes + 1) 0) as [?|_]; [lia|].
  destruct (Z.ltb_spec 0 (num_classes + 1 - 1)) as [_|?]; [|lia].
  destruct (Z.ltb_spec 1 (num_classes + 1)) as [_|?]; [|lia].
  cbn [bind]. eexists. split; [reflexivity|].
  set (y := map _ (map _ _)).
  assert (Hlen : length y = S (Z.to_nat num_classes)).
  { unfold y. rewrite !length_map, length_seq. lia. }
  assert (Hy : forall x, In x y -> in_range x).
  { intros x Hx. unfold y in Hx.
    apply in_map_iff in Hx. destruct Hx as [i [<- Hi]].
    apply in_map_iff in Hi. destruct Hi as [k [<- Hk]].
    apply in_seq in Hk.
    replace (num_classes + 1 - 1) with (Z.of_nat (Z.to_nat num_classes))
      by (clear - Hpos; lia).
    apply arange_point_in_range; clear - Hpos Hk; lia. }
  assert (Hr : forall x, In x (replace_last max_value y) -> in_range x).
  { intros x Hx. apply in_replace_last in Hx. destruct Hx as [Hx| ->].
    - now apply Hy.
    - unfold in_range, min_value, max_value. split; lra. }
  split.
  - unfold pairwise. rewrite length_combine.
    assert (Hl := replace_last_length max_value y). rewrite Hlen in Hl.
    clear - Hl.
    destruct (replace_last max_value y) as [|b l]; cbn [length tl] in *; lia.
  - apply Forall_forall. intros [lo hi] Hin. unfold pairwise in Hin. split.
    + apply Hr. eapply in_combine_l; exact Hin.
    + apply Hr.
      apply in_combine_r in Hin.
      destruct (replace_last max_value y); [destruct Hin | now right].
Qed.

(** A label that no row accepts leaves the loop with [label_channel]
    unchanged and [max_exclusive] bound to the upper bound of the last row. *)
Lemma scan_classes_no_match (classes : list (Q * Q)) (v : pyval) :
  (forall lo hi, In (lo, hi) classes ->
     py_ge v (PFloat lo) && py_lt v (PFloat hi) = false) ->
  forall class_id m,
    scan_classes class_id classes v m = (v, last_bound classes m).
Proof.
  induction classes as [|[lo hi] rest IH]; intros Hno class_id m.
  - reflexivity.
  - cbn [scan_classes]. rewrite (Hno lo hi) by now left.
    rewrite IH by (intros lo' hi' Hc; apply Hno; now right).
    destruct rest as [|c rest]; reflexivity.
Qed.

Lemma last_bound_in (c : Q * Q) (classes : list (Q * Q)) (m : option Q) :
  exists c', In c' (c :: classes)
             /\ last_bound (c :: classes) m = Some (snd c').
Proof.
  exists (last (c :: classes) (0, 0)%Q). split; [|reflexivity].
  destruct (exists_last (l := c :: classes)) as [l' [a E]]; [discriminate|].
  rewrite E, last_last. apply in_or_app. right. now left.
Qed.

(** Outside the binning range the label comes back as it went in. *)
Lemma out_of_range_unbinned (classes : list (Q * Q)) (v : pyval) :
  classes <> [] ->
  Forall (fun c => in_range (fst c) /\ in_range (snd c)) classes ->
  (to_Q v < min_value \/ max_value < to_Q v)%Q ->
  transform_label_channel_with_classes v classes = Ok v.
Proof.
  intros Hne Hall Hout.
  assert (Hno : forall lo hi, In (lo, hi) classes ->
            py_ge v (PFloat lo) && py_lt v (PFloat hi) = false).
  { intros lo hi Hin. rewrite Forall_forall in Hall.
    destruct (Hall _ Hin) as [[Hlo _] [_ Hhi]]. cbn [fst snd] in *.
    unfold py_ge, py_lt. cbn [to_Q].
    destruct Hout as [Hlt|Hgt].
    - destruct (Qle_bool lo (to_Q v)) eqn:E; [|reflexivity].
      apply Qle_bool_iff in E. lra.
    - destruct (Qle_bool hi (to_Q v)) eqn:E; [apply andb_false_r|].
      assert (Hle : (hi <= to_Q v)%Q) by lra.
      apply Qle_bool_iff in Hle. congruence. }
  unfold transform_label_channel_with_classes.
  rewrite scan_classes_no_match by exact Hno.
  destruct classes as [|c classes]; [congruence|].
  destruct (last_bound_in c classes None) as [c' [Hin ->]].
  rewrite Forall_forall in Hall. destruct (Hall _ Hin) as [_ [Hlo Hhi]].
  unfold py_eq. cbn [to_Q].
  destruct (Qeq_bool (to_Q v) (snd c')) eqn:E; [|reflexivity].
  apply Qeq_bool_iff in E. lra.
Qed.

(** [transform_labels] never reads the arousal, dominance or liking table. *)
Lemma transform_labels_reads_valence_only (self : t) (a d l : list (Q * Q))
    (labels : list pyval) (return_np : bool) :
  transform_labels self labels return_np
  = transform_labels (mk (valence_classes self) a d l (label_names self))
      labels return_np.
Proof. reflexivity. Qed.

(** C1 (the code departs from the claim): with class counts (2, 4, 2, 2) and
    the label vector (5, 4, 5, 5), [transform_labels] bins the arousal score
    4.0 into class 0, the class of the 2-row valence table, whereas binning
    each channel with its own table puts it into class 1 of the 4-row
    arousal table. *)
Theorem C1_arousal_binned_with_valence_table :
  exists self,
    init 2 4 2 2 deap_label_names = Ok self
    /\ transform_labels self [PFloat 5; PFloat 4; PFloat 5; PFloat 5] true
       = Ok (AsArray [PInt 1; PInt 0; PInt 1; PInt 1])
    /\ spec_transform_labels self [PFloat 5; PFloat 4; PFloat 5; PFloat 5]
       = Ok [PInt 1; PInt 1; PInt 1; PInt 1]
    /\ getitem (arousal_classes self) 1 = Ok ((12 # 4)%Q, (20 # 4)%Q).
Proof.
  eexists. split; [reflexivity|]. repeat split; reflexivity.
Qed.

(** C2 (the code departs from the claim): with 16 classes the value 2.75
    lies in the interval [2.5, 3.0) of class 3, which is the first interval
    that contains it, but [transform_label_channel_with_classes] returns
    class 15: after the loop the class id 3 equals the bound 3.0 still held
    by [max_exclusive], so the patch for the maximum score fires. *)
Theorem C2_class_id_mistaken_for_maximum :
  exists classes,
    build_classes 16 = Ok classes
    /\ in_range (11 # 4)
    /\ spec_classify (11 # 4) classes = Some 3
    /\ transform_label_channel_with_classes (PFloat (11 # 4)) classes
       = Ok (PInt 15).
Proof.
  eexists. split; [reflexivity|].
  split; [unfold in_range, min_value, max_value; split; lra|].
  split; reflexivity.
Qed.

(** For the default class count 2 the slip cannot bite: every label in
    [[1, 9]] gets the id of the first interval that contains it, the
    maximum 9.0 the last id. *)
Lemma two_classes_binning_total (q : Q) :
  in_range q ->
  exists class_id,
    build_classes 2 = Ok [((2 # 2)%Q, (10 # 2)%Q); ((10 # 2)%Q, 9%Q)]
    /\ spec_classify q [((2 # 2)%Q, (10 # 2)%Q); ((10 # 2)%Q, 9%Q)]
       = Some class_id
    /\ transform_label_channel_with_classes (PFloat q)
         [((2 # 2)%Q, (10 # 2)%Q); ((10 # 2)%Q, 9%Q)]
       = Ok (PInt class_id)
    /\ 0 <= class_id < 2.
Proof.
  intros [Hlo Hhi]. unfold min_value, max_value in *.
  assert (E0 : Qle_bool (2 # 2) q = true) by (apply Qle_bool_iff; lra).
  unfold spec_classify, transform_label_channel_with_classes.
  cbn [first_interval scan_classes length].
  unfold py_ge, py_lt, py_eq. cbn [to_Q]. rewrite E0.
  destruct (Qle_bool (10 # 2) q) eqn:E1; cbn [andb negb].
  - destruct (Qle_bool 9 q) eqn:E9; cbn [negb andb].
    + assert (Heq : Qeq_bool q 9 = true).
      { apply Qeq_bool_iff. apply Qle_bool_iff in E9.
        apply Qle_antisym; assumption. }
      unfold max_value. cbn [to_Q]. rewrite !Heq. exists 1.
      split; [reflexivity|]. split; [reflexivity|].
      split; [reflexivity | lia].
    + exists 1. split; [reflexivity|]. split; [reflexivity|].
      split; [reflexivity | lia].
  - exists 0. split; [reflexivity|]. split; [reflexivity|].
    split; [reflexivity | lia].
Qed.

(** C3, counterexample: for the 2-class table the label 10.0, which is above
    the maximum 9.0, is returned unbinned; no exception is raised. *)
Lemma C3_counterexample :
  (max_value < 10)%Q
  /\ (classes <- build_classes 2 ;;
      transform_label_channel_with_classes (PFloat 10) classes)
     = Ok (PFloat 10)
  /\ ~ (exists e,
          (classes <- build_classes 2 ;;
           transform_label_channel_with_classes (PFloat 10) classes)
          = Raise e).
Proof.
  split; [reflexivity|]. split; [reflexivity|].
  intros [e H]. discriminate H.
Qed.

(** C3, as the code has it: for a table built with a positive class count, a
    label below [min_value] or above [max_value] raises nothing and comes
    back unchanged, unbinned. *)
Theorem C3_out_of_range_label_returned_unbinned
    (num_classes : Z) (label_channel : pyval) :
  0 < num_classes ->
  (to_Q label_channel < min_value \/ max_value < to_Q label_channel)%Q ->
  exists classes,
    build_classes num_classes = Ok classes
    /\ transform_label_channel_with_classes label_channel classes
       = Ok label_channel.
Proof.
  intros Hpos Hout.
  destruct (build_classes_bounds num_classes Hpos) as [classes [E [Hlen Hall]]].
  exists classes. split; [exact E|].
  apply out_of_range_unbinned; [|exact Hall|exact Hout].
  intros ->. simpl in Hlen. lia.
Qed.

Lemma C3_out_of_range_label_returned_unbinned_witness :
  exists classes,
    build_classes 2 = Ok classes
    /\ transform_label_channel_with_classes (PFloat 10) classes
       = Ok (PFloat 10).
Proof.
  apply (C3_out_of_range_label_returned_unbinned 2 (PFloat 10)).
  - lia.
  - right. reflexivity.
Defined.

End LabelTransformerFacts.

(** ** DEAPWriter: round-robin sharding *)

Module DEAPWriterFacts.
Import DEAPWriter WriterSpec.

Lemma open_writers_seq (a : nat) (fns : list string) :
  open_writers a fns
  = map (fun j => mk_tfwriter j (nth (j - a) fns ""%string) [] false)
        (seq a (length fns)).
Proof.
  revert a. induction fns as [|fn fns IH]; intros a; [reflexivity|].
  cbn [open_writers length seq map]. rewrite Nat.sub_diag. f_equal.
  rewrite IH. apply map_ext_in. intros j Hj. apply in_seq in Hj.
  replace (j - a)%nat with (S (j - S a)) by lia. reflexivity.
Qed.

Lemma index_map_seq (f : nat -> tfwriter) (a n p : nat) (w : tfwriter) :
  (forall j, wid (f j) = j) -> wid w = (a + p)%nat -> (p < n)%nat ->
  index (map f (seq a n)) w = Ok p.
Proof.
  intros Hf. revert a p. induction n as [|n IH]; intros a p Hw Hp; [lia|].
  cbn [seq map index]. rewrite Hf, Hw.
  destruct p as [|p].
  - rewrite Nat.add_0_r, Nat.eqb_refl. reflexivity.
  - destruct (Nat.eqb_spec a (a + S p)); [lia|].
    rewrite (IH (S a) p) by lia. reflexivity.
Qed.

Lemma dest_records_snoc {A : Type} (n j : nat) (l : list A) (x : A) :
  dest_records n j (l ++ [x])
  = dest_records n j l ++ (if (length l mod n =? j)%nat then [x] else []).
Proof.
  unfold dest_records.
  rewrite length_app, Nat.add_1_r, seq_S, Nat.add_0_l.
  rewrite combine_app_same by now rewrite length_seq.
  rewrite filter_app, map_app. cbn [combine filter fst].
  destruct (length l mod n =? j)%nat; reflexivity.
Qed.




Lemma enter_init (fns : list string) :
  enter (init fns) = after_writes fns [] None.
Proof.
  unfold enter, init, after_writes. cbn [filenames records_processed shape].
  rewrite open_writers_seq. f_equal.
  - generalize (length fns) at 2 as n. generalize 0%nat as a.
    generalize (length fns) as m. intros m.
    induction m as [|m IH]; intros a n; [reflexivity|].
    cbn [repeat seq map]. f_equal. apply IH.
  - f_equal. apply map_ext. intros j. rewrite Nat.sub_0_r. reflexivity.
  - cbn [length]. rewrite Nat.Div0.mod_0_l. reflexivity.
Qed.

(** One write: the example goes to the destination the rotation points at,
    whose count goes up by one, and the rotation advances. *)
Lemma write_example_after (fns : list string) (written : list example)
    (sh : option (list nat)) (data : array2) (labels : list (string * pyval)) :
  fns <> [] ->
  write_example data labels (after_writes fns written sh)
  = (Ok tt, after_writes fns (written ++ [serialize_example data labels])
              (Some (shape2 data))).
Proof.
  intros Hne.
  assert (Hn : (0 < length fns)%nat) by (destruct fns; [congruence | cbn; lia]).
  set (n := length fns) in *.
  assert (Hp := Nat.mod_upper_bound (length written) n ltac:(lia)).
  set (p := (length written mod n)%nat) in *.
  unfold write_example, after_writes, se_bind, get, put, lift_result.
  cbn [filenames records_processed writers writer_iterator shape].
  fold n. fold p.
  rewrite nth_error_map_seq by exact Hp. cbn [Nat.add].
  rewrite (index_map_seq _ 0 n p) by (auto; reflexivity).
  rewrite setitem_list_set by (rewrite length_map, length_seq; exact Hp).
  unfold getitem. rewrite nth_error_map_seq by exact Hp. cbn [Nat.add].
  rewrite setitem_list_set by (rewrite length_map, length_seq; exact Hp).
  rewrite !list_set_map_seq, length_map, length_seq. cbn [Nat.add].
  f_equal. unfold after_writes. fold n.
  assert (Hs := succ_div_mod (length written) n Hn). fold p in Hs.
  f_equal.
  - apply map_ext. intros j. rewrite dest_records_snoc. fold p.
    destruct (Nat.eqb_spec j p) as [->|Hj].
    + rewrite Nat.eqb_refl, length_app. cbn [length]. lia.
    + destruct (Nat.eqb_spec p j); [congruence|].
      rewrite app_nil_r. reflexivity.
  - f_equal. apply map_ext. intros j. rewrite dest_records_snoc. fold p.
    destruct (Nat.eqb_spec j p) as [->|Hj].
    + rewrite Nat.eqb_refl. reflexivity.
    + destruct (Nat.eqb_spec p j); [congruence|].
      rewrite app_nil_r. reflexivity.
  - f_equal. rewrite length_app, Nat.add_1_r. cbn [length].
    destruct (Nat.eqb_spec (S p) n) as [E|E]; destruct Hs as [_ ->].
    + rewrite E. apply Nat.Div0.mod_same.
    + apply Nat.mod_small. lia.
Qed.




End DEAPWriterFacts.

(** ** Windowing *)

Module WindowedFacts.
Import MoreItertools WindowSpec.

Section Sliding.
Context {A : Type} (f : nat -> A).

(** Appending the next item to a full window slides it by one. *)
Lemma deque_append_slide (n a : nat) :
  (0 < n)%nat ->
  deque_append n (map f (seq a n)) (f (a + n)%nat) = map f (seq (S a) n).
Proof.
  intros Hn. unfold deque_append.
  rewrite length_app, length_map, length_seq. cbn [length].
  replace (n + 1 - n)%nat with 1%nat by lia.
  change [f (a + n)%nat] with (map f [(a + n)%nat]).
  rewrite <- map_app, <- seq_S.
  cbn [seq map skipn]. reflexivity.
Qed.

(** The windows after the first: one per full group of [step] appended
    items, each the window slid to where the group ends. *)
Lemma rest_windows_slide (n step : nat) :
  (0 < n)%nat -> (0 < step)%nat ->
  forall m a skip,
    (skip < step)%nat ->
    rest_windows n step skip (map f (seq a n)) (map f (seq (a + n) m))
    = map (fun i => map f (seq (a + skip + 1 + i * step) n))
          (seq 0 ((m + step - 1 - skip) / step)).
Proof.
  intros Hn Hs. induction m as [|m IH]; intros a skip Hskip.
  - cbn [seq map rest_windows].
    rewrite Nat.div_small by lia. reflexivity.
  - cbn [seq map rest_windows]. rewrite deque_append_slide by exact Hn.
    replace (S (a + n)) with (S a + n)%nat by lia.
    destruct skip as [|skip].
    + rewrite IH by lia.
      replace (S m + step - 1 - 0)%nat with (m + 1 * step)%nat by lia.
      rewrite Nat.div_add by lia.
      replace (m / step + 1)%nat with (S (m / step)) by lia.
      replace (m + step - 1 - (step - 1))%nat with m by lia.
      cbn [seq map]. f_equal.
      * f_equal. f_equal. lia.
      * rewrite <- seq_shift, map_map. apply map_ext. intros i.
        f_equal. f_equal. lia.
    + rewrite IH by lia.
      replace (S m + step - 1 - S skip)%nat with (m + step - 1 - skip)%nat
        by lia.
      apply map_ext. intros i. f_equal. f_equal. lia.
Qed.
End Sliding.

Lemma timeline_cells (T : Z) :
  map Some (py_range T) = map (cell (Z.to_nat T)) (seq 0 (Z.to_nat T)).
Proof.
  unfold py_range. rewrite map_map. apply map_ext_in. intros x Hx.
  apply in_seq in Hx. unfold cell.
  destruct (Nat.ltb_spec x (Z.to_nat T)); [reflexivity | lia].
Qed.

Lemma padding_cells (T p : nat) :
  repeat None p = map (cell T) (seq T p).
Proof.
  assert (H : forall a, (T <= a)%nat -> repeat None p = map (cell T) (seq a p)).
  { induction p as [|p IH]; intros a Ha; [reflexivity|].
    cbn [repeat seq map]. rewrite <- IH by lia. unfold cell at 1.
    destruct (Nat.ltb_spec a T); [lia | reflexivity]. }
  apply H. lia.
Qed.

(** The closed form of the windows over a timeline. *)
Lemma windowed_timeline (T n s : Z) :
  0 < n -> 0 < s ->
  windowed (map Some (py_range T)) n None (PInt s)
  = Ok (map (window_at (Z.to_nat T) (Z.to_nat n) (Z.to_nat s))
            (seq 0 (window_count (Z.to_nat T) (Z.to_nat n) (Z.to_nat s)))).
Proof.
  intros Hn Hs. unfold windowed.
  destruct (Z.ltb_spec n 0); [lia|].
  destruct (Z.eqb_spec n 0); [lia|].
  assert (Hstep : py_lt (PInt s) (PInt 1) = false).
  { unfold py_lt, to_Q. apply negb_false_iff. apply Qle_bool_iff.
    unfold Qle, inject_Z; simpl. lia. }
  rewrite Hstep. rewrite timeline_cells.
  set (T' := Z.to_nat T). set (n' := Z.to_nat n). set (s' := Z.to_nat s).
  assert (Hn' : (0 < n')%nat) by (unfold n'; lia).
  assert (Hs' : (0 < s')%nat) by (unfold s'; lia).
  unfold window_count, window_at.
  rewrite firstn_map, firstn_seq, skipn_map, skipn_seq. cbn [Nat.add].
  destruct (Nat.eqb_spec T' 0) as [E0|E0].
  { rewrite E0, Nat.min_0_r. reflexivity. }
  destruct (Nat.ltb_spec T' n') as [Hlt|Hge].
  - rewrite Nat.min_r by lia.
    remember (map (cell T') (seq 0 T')) as window eqn:Ew.
    assert (Hlen : length window = T') by (subst window; now rewrite length_map, length_seq).
    destruct window as [|c window]; [cbn in Hlen; lia|].
    rewrite Hlen. destruct (Nat.ltb_spec T' n'); [|lia].
    cbn [seq map]. rewrite Nat.mul_0_l. f_equal. f_equal.
    rewrite Ew, (padding_cells T' (n' - T')), <- map_app.
    replace (seq 0 n') with (seq 0 (T' + (n' - T')))
      by (f_equal; lia).
    rewrite seq_app. reflexivity.
  - rewrite Nat.min_l by lia.
    remember (map (cell T') (seq 0 n')) as window eqn:Ew.
    assert (Hlen : length window = n') by (subst window; now rewrite length_map, length_seq).
    destruct window as [|c window]; [cbn in Hlen; lia|].
    rewrite Hlen. destruct (Nat.ltb_spec n' n'); [lia|].
    rewrite Ew. f_equal.
    set (p := Z.to_nat (if s >=? n then n - 1 else s - 1)).
    assert (Hp : p = padding_length n' s').
    { unfold p, padding_length, n', s'.
      destruct (Z.geb_spec s n); destruct (Nat.leb_spec (Z.to_nat n) (Z.to_nat s)); lia. }
    rewrite (padding_cells T' p), <- map_app.
    replace (seq n' (T' - n') ++ seq T' p) with (seq (0 + n') (T' - n' + p))
      by (rewrite seq_app; do 2 f_equal; lia).
    rewrite rest_windows_slide by lia.
    rewrite <- Hp.
    replace (T' - n' + p + s' - 1 - (s' - 1))%nat with (T' - n' + p)%nat
      by lia.
    cbn [seq map]. rewrite Nat.mul_0_l. f_equal.
    rewrite <- seq_shift, map_map. apply map_ext. intros i.
    f_equal. f_equal. lia.
Qed.

Lemma window_count_bounds (T n s i : nat) :
  (0 < n)%nat -> (0 < s)%nat -> (i < window_count T n s)%nat ->
  (i * s < T)%nat
  /\ (S i < window_count T n s -> i * s + n <= T)%nat.
Proof.
  intros Hn Hs. unfold window_count, padding_length.
  destruct (Nat.eqb_spec T 0); [lia|].
  destruct (Nat.ltb_spec T n); [lia|].
  set (p := if (n <=? s)%nat then (n - 1)%nat else (s - 1)%nat).
  assert (Hq := Nat.div_mod_eq (T - n + p) s).
  assert (Hr := Nat.mod_upper_bound (T - n + p) s ltac:(lia)).
  set (q := ((T - n + p) / s)%nat) in *.
  assert (Hp : (p <= n - 1 /\ (n <= s -> p = n - 1) /\ (s < n -> p = s - 1))%nat).
  { unfold p. destruct (Nat.leb_spec n s); lia. }
  intros Hi. split; [nia|]. intros Hi'.
  destruct (Nat.le_gt_cases n s); nia.
Qed.

(** C4, counterexample: a timeline of 6 positions cut into windows of 3 with
    step 2 keeps the trailing remainder: the last window is (4, 5, None),
    padded with the fill value, and selecting its rows from a trial fails.
    The same happens in [process_directory] for 2-second windows over the
    untrimmed 8064-sample timeline. *)
Lemma C4_counterexample :
  windowed (map Some (py_range 6)) 3 None (PInt 2)
  = Ok [[Some 0; Some 1; Some 2]; [Some 2; Some 3; Some 4];
        [Some 4; Some 5; None]]
  /\ ~ (forall w,
          In w [[Some 0; Some 1; Some 2]; [Some 2; Some 3; Some 4];
                [Some 4; Some 5; None]] ->
          forall c, In c w -> exists z, c = Some z /\ 0 <= z < 6)
  /\ split_with_windows [[0%Q]; [1%Q]; [2%Q]; [3%Q]; [4%Q]; [5%Q]]
       [[Some 0; Some 1; Some 2]; [Some 2; Some 3; Some 4];
        [Some 4; Some 5; None]]
     = Raise IndexError
  /\ (exists windows,
        compute_windows (PInt 2) 0 None = Ok windows
        /\ length windows = 32%nat
        /\ last windows []
           = map (fun j => Some (7936 + Z.of_nat j)) (seq 0 128)
             ++ repeat None 128).
Proof.
  split; [reflexivity|]. split; [|split; [reflexivity|]].
  - intros H.
    destruct (H [Some 4; Some 5; None] ltac:(simpl; tauto) None
                ltac:(simpl; tauto)) as [z [Hz _]].
    discriminate Hz.
  - eexists. split; [vm_compute; reflexivity|].
    split; vm_compute; reflexivity.
Qed.

(** C4, as the code has it: for a window length and an integer step of at
    least 1 the windows are generated without error and each has exactly
    [window_length] entries; entry [j] of window [i] is the position
    [i * step + j] when that lies inside the timeline and the fill value
    [None] otherwise, so the positions of a window are consecutive, strictly
    increasing and within [[0, timeline_length)]; every window starts inside
    the timeline, and only the last one can reach beyond it: a trailing
    remainder is kept as a last window padded with [None], not dropped. *)
Theorem C4_windows_fixed_length_last_padded
    (timeline_length window_length step_length : Z) :
  0 < window_length -> 0 < step_length ->
  let T := Z.to_nat timeline_length in
  let n := Z.to_nat window_length in
  let s := Z.to_nat step_length in
  exists windows,
    windowed (map Some (py_range timeline_length)) window_length None
      (PInt step_length) = Ok windows
    /\ length windows = window_count T n s
    /\ forall i w,
         nth_error windows i = Some w ->
         length w = n
         /\ (forall j, (j < n)%nat ->
               nth_error w j
               = Some (if (i * s + j <? T)%nat
                       then Some (Z.of_nat (i * s + j)) else None))
         /\ (i * s < T)%nat
         /\ (S i < length windows -> i * s + n <= T)%nat.
Proof.
  intros Hn Hs T n s.
  eexists. split; [apply windowed_timeline; assumption|].
  fold T n s. rewrite length_map, length_seq.
  split; [reflexivity|].
  intros i w Hw.
  assert (Hi : (i < window_count T n s)%nat).
  { assert (Hsome : nth_error
              (map (window_at T n s) (seq 0 (window_count T n s))) i <> None)
      by congruence.
    apply nth_error_Some in Hsome.
    now rewrite length_map, length_seq in Hsome. }
  rewrite nth_error_map_seq in Hw by exact Hi.
  injection Hw as <-. cbn [Nat.add]. unfold window_at.
  split; [now rewrite length_map, length_seq|].
  split.
  - intros j Hj. rewrite nth_error_map_seq by exact Hj. reflexivity.
  - apply window_count_bounds; [unfold n | unfold s | exact Hi]; lia.
Qed.

Lemma C4_windows_fixed_length_last_padded_witness :
  exists windows,
    windowed (map Some (py_range 6)) 3 None (PInt 2) = Ok windows
    /\ length windows = 3%nat.
Proof.
  destruct (C4_windows_fixed_length_last_padded 6 3 2)
    as [windows [E [Hlen _]]]; [lia | lia |].
  exists windows. split; [exact E | exact Hlen].
Defined.

End WindowedFacts.

(** ** The heap *)

Section HeapFacts.
Context {R : RandomSource}.
Implicit Types (g : rng_state R) (f : filesystem) (h : list obj)
  (t : list event).

Lemma on_writer_run {A : Type} (m : SE DEAPWriter.t A) g f h t r dw res dw' :
  nth_error h r = Some (OWriter dw) -> m dw = (res, dw') ->
  on_writer r m (mk_world g f h t)
  = (res, mk_world g f (list_set h r (OWriter dw')) t).
Proof.
  intros Hr Hm. unfold on_writer. cbn [heap]. rewrite Hr, Hm. reflexivity.
Qed.

Lemma on_buffer_run {A : Type} (m : SE DEAPWriterBuffer.t A)
    g f h t r b res b' :
  nth_error h r = Some (OBuffer b) -> m b = (res, b') ->
  on_buffer r m (mk_world g f h t)
  = (res, mk_world g f (list_set h r (OBuffer b')) t).
Proof.
  intros Hr Hm. unfold on_buffer. cbn [heap]. rewrite Hr, Hm. reflexivity.
Qed.


Lemma nth_error_in_bounds {A : Type} (l : list A) (r : nat) (x : A) :
  nth_error l r = Some x -> (r < length l)%nat.
Proof. intros H. apply nth_error_Some. congruence. Qed.

(** A loop of buffer methods on one buffer object is a method of that
    object. *)
Lemma on_buffer_for_each {X : Type} (body : X -> SE DEAPWriterBuffer.t unit)
    (xs : list X) g f h t r b :
  nth_error h r = Some (OBuffer b) ->
  for_each xs (fun x => on_buffer r (body x)) (mk_world g f h t)
  = on_buffer r (for_each xs body) (mk_world g f h t).
Proof.
  revert h b. induction xs as [|x xs IH]; intros h b Hr.
  - cbn [for_each]. unfold ret at 1.
    rewrite (on_buffer_run (ret tt) g f h t r b (Ok tt) b Hr eq_refl).
    now rewrite list_set_same.
  - cbn [for_each]. unfold se_bind at 1.
    destruct (body x b) as [res b1] eqn:Eb.
    rewrite (on_buffer_run _ g f h t r b res b1 Hr Eb).
    assert (Hlt := nth_error_in_bounds _ _ _ Hr).
    destruct res as [[]|e].
    + rewrite (IH _ b1) by now apply nth_error_list_set_eq.
      destruct (for_each xs body b1) as [res2 b2] eqn:E2.
      rewrite (on_buffer_run _ g f _ t r b1 res2 b2
                 (nth_error_list_set_eq _ _ _ Hlt) E2).
      rewrite list_set_twice.
      symmetry. apply (on_buffer_run _ g f h t r b res2 b2 Hr).
      unfold se_bind. now rewrite Eb.
    + symmetry. apply (on_buffer_run _ g f h t r b (Raise e) b1 Hr).
      unfold se_bind. now rewrite Eb.
Qed.
End HeapFacts.

(** ** DEAPWriterBuffer: the paired shuffle *)

Module BufferFacts.
Import DEAPWriterBuffer BufferSpec WriterSpec.

Lemma broadcast_axis_exact {A : Type} (n : nat) (l : list A) :
  length l = n -> broadcast_axis n l = Ok l.
Proof.
  intros H. unfold broadcast_axis. now rewrite H, Nat.eqb_refl.
Qed.

Lemma map_result_ok {A B : Type} (f : A -> result B) (l : list A) :
  Forall (fun x => exists y, f x = Ok y) l ->
  exists ys, map_result f l = Ok ys /\ Forall2 (fun x y => f x = Ok y) l ys.
Proof.
  induction 1 as [|x l [y Hy] _ [ys [E HF]]].
  - exists []. split; [reflexivity | constructor].
  - exists (y :: ys). cbn [map_result]. rewrite Hy, E.
    split; [reflexivity | now constructor].
Qed.

Lemma map_result_id {A : Type} (f : A -> result A) (l : list A) :
  Forall (fun x => f x = Ok x) l -> map_result f l = Ok l.
Proof.
  induction 1 as [|x l Hx _ IH]; [reflexivity|].
  cbn [map_result]. now rewrite Hx, IH.
Qed.

Lemma broadcast2_exact (r c : nat) (data : array2) :
  has_shape r c data -> broadcast2 [r; c] data = Ok data.
Proof.
  intros [Hr Hc]. unfold broadcast2.
  rewrite broadcast_axis_exact by exact Hr.
  apply map_result_id. eapply Forall_impl; [|exact Hc].
  intros row Hrow. now apply broadcast_axis_exact.
Qed.

(** One append into a buffer whose first [collected] slots are filled. *)
Lemma write_example_fills (r c L : nat) (rows : list array2)
    (lrows : list (list Z)) (free : nat) (dw : nat) (names : list string)
    (shape_d shape_l : nat) (data : array2) (labels : list pyval) :
  length rows = length lrows ->
  has_shape r c data -> length labels = L ->
  write_example data labels
    (mk [shape_d; r; c] [shape_l; L]
        (rows ++ repeat (zeros2 [r; c]) (S free))
        (lrows ++ repeat (zeros1 [L]) (S free))
        dw (length rows) names)
  = (Ok tt,
     mk [shape_d; r; c] [shape_l; L]
        ((rows ++ [data]) ++ repeat (zeros2 [r; c]) free)
        ((lrows ++ [map py_int labels]) ++ repeat (zeros1 [L]) free)
        dw (length (rows ++ [data])) names).
Proof.
  intros Hlen Hshape HL.
  unfold write_example, se_bind, get, put, lift_result.
  cbn [data_buffer data_buffer_shape label_buffer label_buffer_shape
       collected writer label_names tl hd repeat].
  unfold getitem.
  rewrite nth_error_app2, Nat.sub_diag by lia. cbn [nth_error].
  rewrite broadcast2_exact by exact Hshape.
  rewrite setitem_list_set by (rewrite length_app; cbn [length]; lia).
  rewrite list_set_app_mid.
  rewrite Hlen at 1.
  rewrite nth_error_app2, Nat.sub_diag by lia. cbn [nth_error].
  rewrite broadcast_axis_exact by now rewrite length_map.
  rewrite Hlen at 1.
  rewrite setitem_list_set by (rewrite length_app; cbn [length]; lia).
  rewrite list_set_app_mid.
  rewrite length_app, Nat.add_1_r, <- !app_assoc. reflexivity.
Qed.

Lemma append_all_fills (r c L : nat) (items : list (array2 * list pyval)) :
  Forall (fun it => has_shape r c (fst it) /\ length (snd it) = L) items ->
  forall (rows : list array2) (lrows : list (list Z)) (free dw : nat)
         (names : list string) (shape_d shape_l : nat),
    length rows = length lrows ->
    append_all items
      (mk [shape_d; r; c] [shape_l; L]
          (rows ++ repeat (zeros2 [r; c]) (length items + free))
          (lrows ++ repeat (zeros1 [L]) (length items + free))
          dw (length rows) names)
    = (Ok tt,
       mk [shape_d; r; c] [shape_l; L]
          ((rows ++ map fst items) ++ repeat (zeros2 [r; c]) free)
          ((lrows ++ map stored_labels items) ++ repeat (zeros1 [L]) free)
          dw (length (rows ++ map fst items)) names).
Proof.
  unfold append_all.
  induction 1 as [|[data labels] items [Hs HL] _ IH];
    intros rows lrows free dw names shape_d shape_l Hlen.
  - cbn [for_each map length Nat.add]. rewrite !app_nil_r. reflexivity.
  - cbn [for_each fst snd length Nat.add] in *. unfold se_bind.
    rewrite write_example_fills by assumption.
    rewrite IH by (rewrite !length_app; cbn [length]; lia).
    cbn [map fst snd]. unfold stored_labels at 2. cbn [snd].
    rewrite <- !app_assoc. reflexivity.
Qed.

Lemma map_nth_combine {A B C : Type} (F : A -> B -> C) (da : A) (db : B)
    (a : list A) (b : list B) :
  length a = length b ->
  map (fun i => F (nth i a da) (nth i b db)) (seq 0 (length a))
  = map (fun x => F (fst x) (snd x)) (combine a b).
Proof.
  revert b. induction a as [|x a IH]; intros [|y b] H; simpl in *;
    try discriminate; [reflexivity|].
  f_equal. rewrite <- seq_shift, map_map. apply IH. lia.
Qed.

Section Flush.
Context {R : RandomSource}.
Implicit Types (g : rng_state R) (f : filesystem) (h : list obj)
  (t : list event).

Lemma writes_of_app (t1 t2 : list event) :
  writes_of (t1 ++ t2) = writes_of t1 ++ writes_of t2.
Proof. unfold writes_of. apply flat_map_app. Qed.

(** One write through the heap: the writer object advances and the write
    is logged. *)
Lemma DEAPWriter_write_example_run g f h t rw fns written sh data labels :
  fns <> [] ->
  nth_error h rw = Some (OWriter (after_writes fns written sh)) ->
  exists file,
    DEAPWriter_write_example rw data labels (mk_world g f h t)
    = (Ok tt,
       mk_world g f
         (list_set h rw
            (OWriter (after_writes fns
                        (written ++ [DEAPWriter.serialize_example data labels])
                        (Some (shape2 data)))))
         (t ++ [EWrite file (DEAPWriter.serialize_example data labels)])).
Proof.
  intros Hne Hr.
  assert (Hn : (0 < length fns)%nat)
    by (destruct fns; [congruence | cbn; lia]).
  assert (Hp := Nat.mod_upper_bound (length written) (length fns) ltac:(lia)).
  exists (nth (length written mod length fns) fns ""%string).
  unfold DEAPWriter_write_example, se_bind.
  rewrite (on_writer_run get g f h t rw _ _ _ Hr eq_refl).
  rewrite list_set_same by exact Hr.
  rewrite (on_writer_run _ g f h t rw _ _ _ Hr
             (DEAPWriterFacts.write_example_after fns written sh data labels Hne)).
  unfold next_path, after_writes.
  cbn [DEAPWriter.writer_iterator DEAPWriter.writers].
  rewrite nth_error_map_seq by exact Hp. cbn [option_map DEAPWriter.path Nat.add].
  reflexivity.
Qed.

(** The write loop of [flush_buffer] over the slots [idx]. *)
Lemma flush_loop (b : DEAPWriterBuffer.t) (fns : list string) rb f g :
  fns <> [] ->
  forall (idx : list nat) h t written sh,
    nth_error h rb = Some (OBuffer b) ->
    nth_error h (writer b) = Some (OWriter (after_writes fns written sh)) ->
    Forall (fun i => (i < length (data_buffer b))%nat
                     /\ (i < length (label_buffer b))%nat) idx ->
    exists h' t' sh',
      for_each idx (fun i =>
        self <- on_buffer rb get ;;
        d <- lift_result (getitem (data_buffer self) i) ;;
        l <- lift_result (getitem (label_buffer self) i) ;;
        DEAPWriter_write_example (writer self) d (labels_np_to_dict self l))%se
        (mk_world g f h t)
      = (Ok tt, mk_world g f h' t')
      /\ nth_error h' rb = Some (OBuffer b)
      /\ nth_error h' (writer b)
         = Some (OWriter
                   (after_writes fns
                      (written
                       ++ map (fun i =>
                                 DEAPWriter.serialize_example
                                   (nth i (data_buffer b) [])
                                   (labels_np_to_dict b
                                      (nth i (label_buffer b) []))) idx)
                      sh'))
      /\ writes_of t'
         = writes_of t
           ++ map (fun i =>
                     DEAPWriter.serialize_example
                       (nth i (data_buffer b) [])
                       (labels_np_to_dict b (nth i (label_buffer b) [])))
                  idx.
Proof.
  intros Hne. induction idx as [|i idx IH]; intros h t written sh Hb Hw Hidx.
  - exists h, t, sh. cbn [for_each map]. rewrite !app_nil_r.
    repeat split; assumption.
  - inversion Hidx as [|? ? [Hd Hl] Hidx']; subst.
    cbn [for_each]. unfold se_bind at 1. unfold se_bind at 1.
    rewrite (on_buffer_run get g f h t rb _ _ _ Hb eq_refl).
    rewrite list_set_same by exact Hb.
    rewrite (se_bind_lift_ok _ _ _ _
               (getitem_nth (A := array2) _ _ [] Hd)).
    rewrite (se_bind_lift_ok _ _ _ _ (getitem_nth _ _ [] Hl)).
    destruct (DEAPWriter_write_example_run g f h t (writer b) fns written sh
                (nth i (data_buffer b) [])
                (labels_np_to_dict b (nth i (label_buffer b) [])) Hne Hw)
      as [file ->].
    assert (Hneq : writer b <> rb).
    { intros E. rewrite E, Hb in Hw. discriminate Hw. }
    set (d := nth i (data_buffer b) []) in *.
    set (rec := DEAPWriter.serialize_example d
                  (labels_np_to_dict b (nth i (label_buffer b) []))) in *.
    destruct (IH (list_set h (writer b)
                    (OWriter (after_writes fns (written ++ [rec])
                                (Some (shape2 d)))))
                 (t ++ [EWrite file rec])
                 (written ++ [rec]) (Some (shape2 d)))
      as [h' [t' [sh' [E [Hb' [Hw' Ht']]]]]].
    + rewrite nth_error_list_set_neq by exact Hneq. exact Hb.
    + apply nth_error_list_set_eq. eapply nth_error_in_bounds. exact Hw.
    + exact Hidx'.
    + exists h', t', sh'. rewrite E. split; [reflexivity|].
      split; [exact Hb'|]. cbn [map].
      rewrite <- app_assoc in Hw'. split; [exact Hw'|].
      rewrite Ht', writes_of_app. cbn. rewrite <- app_assoc. reflexivity.
Qed.
End Flush.

Lemma combine_map_pair {A B C : Type} (f1 : A -> B) (f2 : A -> C) (l : list A) :
  combine (map f1 l) (map f2 l) = map (fun x => (f1 x, f2 x)) l.
Proof. induction l as [|x l IH]; [reflexivity|]. cbn. now rewrite IH. Qed.

Section PairedShuffle.
Context {R : RandomSource}.

(** C7: pairs appended to a fresh buffer and then flushed reach the writer
    as one example per pair, the sample together with the labels appended
    with it, in the order of the single permutation drawn for the flush;
    that order is a permutation of the order of appending. *)
Theorem C7_flush_keeps_sample_with_its_labels
    (g : rng_state R) (f : filesystem) (h : list obj) (t : list event)
    (rb rw : nat) (fns : list string) (r c L : nat) (buffer_size : Z)
    (b0 : DEAPWriterBuffer.t) (items : list (array2 * list pyval)) :
  fns <> [] ->
  nth_error h rw = Some (OWriter (DEAPWriter.enter (DEAPWriter.init fns))) ->
  DEAPWriterBuffer.init rw [r; c] [L] buffer_size = Ok b0 ->
  nth_error h rb = Some (OBuffer b0) ->
  Z.of_nat (length items) <= buffer_size ->
  Forall (fun it => has_shape r c (fst it) /\ length (snd it) = L) items ->
  let permutation := fst (draw_permutation R g (length items)) in
  exists w',
    (for_each items (fun it =>
       on_buffer rb (DEAPWriterBuffer.write_example (fst it) (snd it))) ;;;
     flush_buffer rb)%se (mk_world g f h t)
    = (Ok tt, w')
    /\ Permutation permutation (seq 0 (length items))
    /\ Permutation (take items permutation) items
    /\ writes_of (trace w')
       = writes_of t
         ++ map (record_of deap_label_names) (take items permutation).
Proof.
  intros Hne Hw Hinit Hb Hcap Hitems permutation.
  assert (Hperm : Permutation permutation (seq 0 (length items)))
    by apply draw_permutation_ok.
  assert (Hrange := permutation_in_range _ _ Hperm).
  rewrite DEAPWriterFacts.enter_init in Hw.
  unfold DEAPWriterBuffer.init in Hinit.
  destruct (Z.ltb_spec buffer_size 0) as [?|_]; [lia|].
  injection Hinit as <-.
  set (k := length items) in *.
  assert (Hfree : Z.to_nat buffer_size = (k + (Z.to_nat buffer_size - k))%nat)
    by lia.
  set (free := (Z.to_nat buffer_size - k)%nat) in *. clearbody free.
  set (cap := Z.to_nat buffer_size) in *. clearbody cap. subst cap.
  unfold se_bind at 1.
  rewrite (on_buffer_for_each _ _ g f h t rb _ Hb).
  fold (append_all items).
  pose proof (append_all_fills r c L items Hitems [] [] free rw
                deap_label_names (k + free) (k + free) eq_refl) as Eapp.
  cbn [app length] in Eapp. fold k in Eapp.
  rewrite (on_buffer_run _ g f h t rb _ _ _ Hb Eapp).
  cbv beta iota.
  set (bk := mk [(k + free)%nat; r; c] [(k + free)%nat; L]
                (map fst items ++ repeat (zeros2 [r; c]) free)
                (map stored_labels items ++ repeat (zeros1 [L]) free)
                rw (length (map fst items)) deap_label_names) in *.
  set (h1 := list_set h rb (OBuffer bk)).
  assert (Hlt := nth_error_in_bounds _ _ _ Hb).
  assert (Hb1 : nth_error h1 rb = Some (OBuffer bk))
    by now apply nth_error_list_set_eq.
  assert (Hneq : rb <> rw).
  { intros E. rewrite E, Hw in Hb. discriminate Hb. }
  unfold flush_buffer. unfold se_bind at 1.
  rewrite (on_buffer_run get g f h1 t rb _ _ _ Hb1 eq_refl).
  rewrite list_set_same by exact Hb1.
  cbv beta iota.
  unfold se_bind at 1, np_random_permutation at 1. cbn [rng fs heap trace].
  replace (collected bk) with k
    by (unfold bk; cbn [collected]; now rewrite length_map).
  fold k in permutation.
  destruct (draw_permutation R g k) as [p g'] eqn:Edraw.
  cbn [fst] in permutation. subst permutation.
  unfold se_bind at 1.
  rewrite (on_buffer_run (put (permute bk p)) g' f h1 t rb _ _ _ Hb1 eq_refl).
  set (bp := permute bk p).
  set (h2 := list_set h1 rb (OBuffer bp)).
  assert (Hb2 : nth_error h2 rb = Some (OBuffer bp)).
  { apply nth_error_list_set_eq. unfold h1. now rewrite list_set_length. }
  assert (Hw2 : nth_error h2 (writer bp)
                = Some (OWriter (after_writes fns [] None))).
  { unfold h2, h1, bp, bk. cbn [permute writer].
    rewrite !nth_error_list_set_neq by exact Hneq. exact Hw. }
  assert (Hd : data_buffer bp = map fst (take items p)).
  { unfold bp, bk. cbn [permute data_buffer].
    rewrite take_app_l, take_map; [reflexivity|].
    now rewrite length_map. }
  assert (Hl : label_buffer bp = map stored_labels (take items p)).
  { unfold bp, bk. cbn [permute label_buffer].
    rewrite take_app_l, take_map; [reflexivity|].
    now rewrite length_map. }
  assert (Hlen : length (take items p) = k).
  { rewrite take_length by exact Hrange.
    rewrite (Permutation_length Hperm). apply length_seq. }
  destruct (flush_loop bp fns rb f g' Hne (seq 0 k) h2 t [] None Hb2 Hw2)
    as [h' [t' [sh' [E [_ [_ Ht']]]]]].
  { apply Forall_forall. intros i Hi. apply in_seq in Hi.
    rewrite Hd, Hl, !length_map, Hlen. lia. }
  replace (collected bk) with k
    by (unfold bk; cbn [collected]; now rewrite length_map).
  eexists. split; [exact E|]. split; [exact Hperm|].
  split; [now apply take_permutation|].
  cbn [trace]. rewrite Ht'. f_equal.
  rewrite Hd, Hl.
  replace k with (length (map fst (take items p)))
    by now rewrite length_map.
  rewrite (map_nth_combine
             (fun d l => DEAPWriter.serialize_example d
                           (labels_np_to_dict bp l)))
    by now rewrite !length_map.
  rewrite combine_map_pair, map_map. reflexivity.
Qed.

End PairedShuffle.

Lemma C7_flush_keeps_sample_with_its_labels_witness :
  exists w',
    (for_each [([[1%Q]], [PInt 0]); ([[2%Q]], [PInt 1])] (fun it =>
       on_buffer 1 (DEAPWriterBuffer.write_example (fst it) (snd it))) ;;;
     flush_buffer 1)%se
      (mk_world (R := reversing_source) tt empty_filesystem
         [OWriter (DEAPWriter.enter (DEAPWriter.init ["out"%string]));
          OBuffer (mk [2; 1; 1]%nat [2; 1]%nat [[[0%Q]]; [[0%Q]]] [[0]; [0]]
                      0%nat 0%nat deap_label_names)] [])
    = (Ok tt, w')
    /\ writes_of (trace w')
       = map (record_of deap_label_names)
             [([[2%Q]], [PInt 1]); ([[1%Q]], [PInt 0])].
Proof.
  destruct (C7_flush_keeps_sample_with_its_labels
              (R := reversing_source) tt empty_filesystem
              [OWriter (DEAPWriter.enter (DEAPWriter.init ["out"%string]));
               OBuffer (mk [2; 1; 1]%nat [2; 1]%nat [[[0%Q]]; [[0%Q]]]
                           [[0]; [0]] 0%nat 0%nat deap_label_names)] []
              1%nat 0%nat ["out"%string] 1%nat 1%nat 1%nat 2
              (mk [2; 1; 1]%nat [2; 1]%nat [[[0%Q]]; [[0%Q]]] [[0]; [0]]
                  0%nat 0%nat deap_label_names)
              [([[1%Q]], [PInt 0]); ([[2%Q]], [PInt 1])])
    as [w' [E [_ [_ Ht]]]].
  - discriminate.
  - reflexivity.
  - reflexivity.
  - reflexivity.
  - cbn; lia.
  - repeat constructor.
  - exists w'. split; [exact E | exact Ht].
Defined.

End BufferFacts.

(** ** The orchestrator: mode handling *)

Section ModeFacts.
Context {R : RandomSource}.
Variables dwt_alpha fft : array2 -> array2.

(** C9, as the code has it: a mode that is neither of the two supported
    strings is not rejected up front.  [process_directory] lists the input
    directory and computes the windows first; it then skips both passes
    and fails -- with [UnboundLocalError], when the listing and the
    windowing succeeded, because [train_names] was never bound.  It opens
    no output file, reads no subject file and writes no manifest: the
    directory listing is its only I/O. *)
Theorem C9_unsupported_mode_fails_after_listing
    (input_dir target_directory : string) (out_names : list string)
    (mode : string) (target_seconds : pyval) (trim_samples : Z)
    (validation_split : pyval) (num_classes : Z * Z * Z * Z)
    (num_experiments : Z) (processing : option string)
    (window_step : option pyval) (w : world R) :
  mode <> "subject-dependent"%string ->
  mode <> "subject-independent"%string ->
  exists e w',
    process_directory R dwt_alpha fft input_dir target_directory out_names
      mode target_seconds trim_samples validation_split num_classes
      num_experiments processing window_step w
    = (Raise e, w')
    /\ trace w' = trace w ++ [EListDir input_dir]
    /\ heap w' = heap w
    /\ rng w' = rng w
    /\ ((exists file_list windows,
           listdir (fs w) input_dir = Ok file_list
           /\ compute_windows target_seconds trim_samples window_step
              = Ok windows) ->
        e = UnboundLocalError).
Proof.
  intros Hdep Hind. destruct w as [g f h t].
  apply String.eqb_neq in Hdep. apply String.eqb_neq in Hind.
  unfold process_directory, se_bind, log, get, lift_result.
  cbn [rng fs heap trace]. rewrite Hdep, Hind.
  destruct (listdir f input_dir) as [file_list|e1] eqn:El.
  - destruct (compute_windows target_seconds trim_samples window_step)
      as [windows|e2] eqn:Ew.
    + exists UnboundLocalError. eexists. cbn.
      split; [reflexivity|]. repeat split; reflexivity.
    + exists e2. eexists. split; [reflexivity|]. cbn.
      repeat split; try reflexivity.
      intros [fl [ws [_ H]]]. discriminate H.
  - exists e1. eexists. split; [reflexivity|]. cbn.
    repeat split; try reflexivity.
    intros [fl [ws [H _]]]. discriminate H.
Qed.
End ModeFacts.

(** C9, counterexample: with the mode string "both" the run lists the input
    directory -- I/O has happened -- and then stops on an unbound local
    variable, not on a check of the mode. *)
Lemma C9_counterexample :
  exists w',
    process_directory identity_source (fun a => a) (fun a => a)
      "in" "out" ["train.tfrecords"; "test.tfrecords"]%string "both"
      (PInt 1) 384 (PFloat (1 # 5)) (2, 2, 2, 2) 40 None None
      (mk_world (R := identity_source) tt one_subject_filesystem [] [])
    = (Raise UnboundLocalError, w')
    /\ trace w' = [EListDir "in"]
    /\ trace w' <> [].
Proof.
  eexists. split; [vm_compute; reflexivity|].
  split; [reflexivity | discriminate].
Qed.

Lemma C9_unsupported_mode_fails_after_listing_witness :
  exists e w',
    process_directory identity_source (fun a => a) (fun a => a)
      "in" "out" ["train.tfrecords"; "test.tfrecords"]%string "both"
      (PInt 1) 384 (PFloat (1 # 5)) (2, 2, 2, 2) 40 None None
      (mk_world (R := identity_source) tt one_subject_filesystem [] [])
    = (Raise e, w')
    /\ trace w' = [EListDir "in"%string].
Proof.
  destruct (C9_unsupported_mode_fails_after_listing
              (R := identity_source) (fun a => a) (fun a => a)
              "in" "out" ["train.tfrecords"; "test.tfrecords"]%string "both"
              (PInt 1) 384 (PFloat (1 # 5)) (2, 2, 2, 2) 40 None None
              (mk_world (R := identity_source) tt one_subject_filesystem
                 [] []))
    as [e [w' [E [Ht _]]]].
  - discriminate.
  - discriminate.
  - exists e, w'. split; [exact E | exact Ht].
Defined.

(** ** Channel selection in subject-dependent mode *)






Lemma trim_length (trim_samples : Z) (data : array3) :
  length (trim trim_samples data) = length data.
Proof.
  unfold trim. destruct (0 <? trim_samples); [apply length_map | reflexivity].
Qed.





Section ChannelFacts.
Context {R : RandomSource}.
Variables dwt_alpha fft : array2 -> array2.


End ChannelFacts.


(** ** Index-based routing in subject-dependent mode *)

Module RoutingFacts.
Import DEAPWriterBuffer BufferSpec RoutingSpec.








Lemma write_example_holding (cap r c dw : nat)
    (items : list (array2 * list pyval)) (data : array2)
    (labels : list pyval) :
  (length items < cap)%nat -> has_shape r c data -> length labels = 4%nat ->
  write_example data labels (buffer_holding cap r c dw items)
  = (Ok tt, buffer_holding cap r c dw (items ++ [(data, labels)])).
Proof.
  intros Hcap Hshape Hlab. unfold buffer_holding.
  replace (cap - length items)%nat with (S (cap - length items - 1)) by lia.
  replace (length items) with (length (map fst items)) at 3
    by apply length_map.
  rewrite (BufferFacts.write_example_fills r c 4 (map fst items)
             (map stored_labels items) (cap - length items - 1) dw
             deap_label_names cap cap data labels)
    by (rewrite ?length_map; auto).
  rewrite !map_app, !length_app, !length_map. cbn [map length fst].
  unfold stored_labels at 3. cbn [snd].
  replace (cap - (length items + 1))%nat with (cap - length items - 1)%nat
    by lia.
  reflexivity.
Qed.

Section Routing.
Context {R : RandomSource}.
Variables dwt_alpha fft : array2 -> array2.
Implicit Types (g : rng_state R) (f : filesystem) (h : list obj)
  (t : list event).

Variables (rt rv rc capT capV r c wt wv : nat) (vi : list Z).


Variables (target_windows : list (list (option Z))) (trim_samples : Z)
  (num_classes : Z * Z * Z * Z) (axes_order : string)
  (processing : option string).






End Routing.


Section IndexSplit.
Context {R : RandomSource}.
Variables dwt_alpha fft : array2 -> array2.



End IndexSplit.



End RoutingFacts.

(** ** Shuffling: subject-independent against subject-dependent *)

Module ShuffleFacts.
Import ShuffleSpec BufferSpec WriterSpec.

Section KeepsRng.
Context {R : RandomSource}.


Lemma keeps_rng_raise {A : Type} (e : exn) :
  keeps_rng (R := R) (raise e : SE (world R) A).
Proof. intros w. reflexivity. Qed.








Variables dwt_alpha fft : array2 -> array2.


End KeepsRng.

(** With a non-empty table the classification of a channel always returns. *)
Lemma scan_classes_binds (classes : list (Q * Q)) :
  classes <> [] ->
  forall class_id v m,
    exists l hi,
      LabelTransformer.scan_classes class_id classes v m = (l, Some hi).
Proof.
  induction classes as [|[lo hi] rest IH]; intros Hne class_id v m;
    [congruence|].
  cbn [LabelTransformer.scan_classes].
  destruct (py_ge v (PFloat lo) && py_lt v (PFloat hi)).
  - eexists. eexists. reflexivity.
  - destruct rest as [|c rest].
    + eexists. eexists. reflexivity.
    + apply IH. discriminate.
Qed.

Lemma transform_channel_returns (classes : list (Q * Q)) (v : pyval) :
  classes <> [] ->
  exists out,
    LabelTransformer.transform_label_channel_with_classes v classes = Ok out.
Proof.
  intros Hne. unfold LabelTransformer.transform_label_channel_with_classes.
  destruct (scan_classes_binds classes Hne 0 v None) as [l [hi ->]].
  destruct (py_eq l (PFloat hi)); eexists; reflexivity.
Qed.


Lemma init_returns (valence arousal dominance liking : Z) :
  0 < valence -> 0 < arousal -> 0 < dominance -> 0 < liking ->
  exists self,
    LabelTransformer.init valence arousal dominance liking deap_label_names
    = Ok self
    /\ LabelTransformer.valence_classes self <> []
    /\ LabelTransformer.label_names self = deap_label_names.
Proof.
  intros Hv Ha Hd Hl. unfold LabelTransformer.init, bind.
  destruct (LabelTransformerFacts.build_classes_bounds valence Hv)
    as [cv [-> [Hlen _]]].
  destruct (LabelTransformerFacts.build_classes_bounds arousal Ha)
    as [ca [-> _]].
  destruct (LabelTransformerFacts.build_classes_bounds dominance Hd)
    as [cd [-> _]].
  destruct (LabelTransformerFacts.build_classes_bounds liking Hl)
    as [cl [-> _]].
  eexists. split; [reflexivity|]. cbn. split; [|reflexivity].
  intros ->. cbn in Hlen. lia.
Qed.


Lemma written_arrays_app (t1 t2 : list event) :
  written_arrays (t1 ++ t2) = written_arrays t1 ++ written_arrays t2.
Proof.
  unfold written_arrays, writes_of. now rewrite !flat_map_app.
Qed.


Section OwnMethod.
Context {R : RandomSource}.
Implicit Types (g : rng_state R) (f : filesystem) (h : list obj)
  (t : list event).

Variables (writer : nat) (fns : list string) (axes_order : string)
  (target_splits : Z).
Hypothesis fns_nonempty : fns <> [].





End OwnMethod.

Section Asymmetry.
Context {R : RandomSource}.
Variables dwt_alpha fft : array2 -> array2.


End Asymmetry.



End ShuffleFacts.

(* ================================================================== *)
(** * Further properties of the code *)

(** ** The class tables and the binning *)

Module LabelTableFacts.
Import LabelTransformer LabelSpec.
Local Open Scope result_scope.

Lemma nth_error_combine {A B : Type} (l : list A) (m : list B) (k : nat) :
  nth_error (combine l m) k
  = match nth_error l k, nth_error m k with
    | Some a, Some b => Some (a, b)
    | _, _ => None
    end.
Proof.
  revert m k. induction l as [|a l IH]; intros [|b m] [|k]; cbn;
    try reflexivity.
  - destruct (nth_error l k); reflexivity.
  - apply IH.
Qed.

Lemma nth_error_tl {A : Type} (l : list A) (k : nat) :
  nth_error (tl l) k = nth_error l (S k).
Proof. destruct l; [now destruct k | reflexivity]. Qed.

Lemma nth_error_pairwise (l : list Q) (k : nat) :
  nth_error (pairwise l) k
  = match nth_error l k, nth_error l (S k) with
    | Some a, Some b => Some (a, b)
    | _, _ => None
    end.
Proof. unfold pairwise. now rewrite nth_error_combine, nth_error_tl. Qed.

Lemma nth_error_replace_last (stop : Q) (y : list Q) (k : nat) :
  (k < length y)%nat ->
  nth_error (replace_last stop y) k
  = if (S k =? length y)%nat then Some stop else nth_error y k.
Proof.
  intros Hk. destruct y as [|a y]; [cbn in Hk; lia|].
  unfold replace_last. rewrite removelast_firstn_len.
  set (l := a :: y) in *.
  destruct (Nat.eqb_spec (S k) (length l)) as [E|E].
  - rewrite nth_error_app2 by (rewrite length_firstn; lia).
    rewrite length_firstn.
    replace (k - Nat.min (Nat.pred (length l)) (length l))%nat with 0%nat
      by lia.
    reflexivity.
  - rewrite nth_error_app1 by (rewrite length_firstn; lia).
    rewrite nth_error_firstn.
    destruct (Nat.ltb_spec k (Nat.pred (length l))); [reflexivity | lia].
Qed.

(** The break points [build_classes] cuts the range at. *)
Lemma linspace_breaks (n : nat) :
  (0 < n)%nat ->
  exists breaks,
    linspace min_value max_value (Z.of_nat n + 1) = Ok breaks
    /\ length breaks = S n
    /\ forall k, (k <= n)%nat ->
         exists b, nth_error breaks k = Some b
                   /\ (b == 1 + 8 * inject_Z (Z.of_nat k) / inject_Z (Z.of_nat n))%Q.
Proof.
  intros Hn. unfold linspace.
  destruct (Z.ltb_spec (Z.of_nat n + 1) 0) as [?|_]; [lia|].
  destruct (Z.ltb_spec 0 (Z.of_nat n + 1 - 1)) as [_|?]; [|lia].
  destruct (Z.ltb_spec 1 (Z.of_nat n + 1)) as [_|?]; [|lia].
  eexists. split; [reflexivity|].
  set (y := map _ (map _ _)).
  assert (Hlen : length y = S n).
  { unfold y. rewrite !length_map, length_seq. lia. }
  split; [now rewrite LabelTransformerFacts.replace_last_length|].
  intros k Hk.
  rewrite nth_error_replace_last by lia. rewrite Hlen.
  assert (Hn' : ~ (inject_Z (Z.of_nat n) == 0)%Q).
  { unfold Qeq, inject_Z; cbn. lia. }
  destruct (Nat.eqb_spec (S k) (S n)) as [E|E].
  - exists max_value. split; [reflexivity|].
    assert (k = n) by lia. subst k. unfold max_value. field. exact Hn'.
  - unfold y. rewrite !nth_error_map, nth_error_seq.
    destruct (Nat.ltb_spec k (Z.to_nat (Z.of_nat n + 1))); [|lia].
    cbn [option_map Nat.add]. eexists. split; [reflexivity|].
    replace (Z.of_nat n + 1 - 1) with (Z.of_nat n) by lia.
    unfold min_value, max_value. field. exact Hn'.
Qed.

Lemma build_classes_rows (num_classes : Z) :
  0 < num_classes ->
  exists classes,
    build_classes num_classes = Ok classes
    /\ length classes = Z.to_nat num_classes
    /\ (forall k lo hi,
          nth_error classes k = Some (lo, hi) ->
          (lo == 1 + 8 * inject_Z (Z.of_nat k) / inject_Z num_classes
           /\ hi == 1 + 8 * inject_Z (Z.of_nat (S k)) / inject_Z num_classes)%Q)
    /\ (forall k c c',
          nth_error classes k = Some c -> nth_error classes (S k) = Some c' ->
          snd c = fst c').
Proof.
  intros Hpos.
  destruct (linspace_breaks (Z.to_nat num_classes) ltac:(lia))
    as (breaks & E & Hlen & Hb).
  rewrite Z2Nat.id in E, Hb by lia.
  unfold build_classes. rewrite E. cbn [bind].
  eexists. split; [reflexivity|].
  split.
  - unfold pairwise. rewrite length_combine.
    destruct breaks as [|b breaks]; cbn [length tl] in *; lia.
  - split.
    + intros k lo hi Hk. rewrite nth_error_pairwise in Hk.
      destruct (nth_error breaks k) as [a|] eqn:Ea; [|discriminate].
      destruct (nth_error breaks (S k)) as [b|] eqn:Eb; [|discriminate].
      injection Hk as <- <-.
      assert (HSk : (S k < length breaks)%nat)
        by (apply nth_error_Some; congruence).
      destruct (Hb k ltac:(lia)) as (a' & Ea' & Ha).
      destruct (Hb (S k) ltac:(lia)) as (b' & Eb' & Hb').
      rewrite Ea in Ea'. rewrite Eb in Eb'.
      injection Ea' as <-. injection Eb' as <-. split; assumption.
    + intros k c c' Hk Hk'. rewrite nth_error_pairwise in Hk, Hk'.
      destruct (nth_error breaks k) as [a|]; [|discriminate].
      destruct (nth_error breaks (S k)) as [b|]; [|discriminate].
      destruct (nth_error breaks (S (S k))) as [d|]; [|discriminate].
      injection Hk as <-. injection Hk' as <-. reflexivity.
Qed.


(** What the loop of [transform_label_channel_with_classes] leaves behind:
    the id and the upper bound of the first row that accepts the label, or
    the label itself and the upper bound of the last row. *)
Lemma scan_classes_first_interval (classes : list (Q * Q)) (v : pyval) :
  forall class_id m,
    scan_classes class_id classes v m
    = match first_interval class_id classes (to_Q v) with
      | Some k =>
          (PInt k,
           Some (snd (nth (Z.to_nat (k - class_id)) classes (0, 0)%Q)))
      | None => (v, last_bound classes m)
      end.
Proof.
  induction classes as [|[lo hi] rest IH]; intros class_id m; [reflexivity|].
  cbn [scan_classes first_interval]. unfold py_ge, py_lt. cbn [to_Q].
  destruct (Qle_bool lo (to_Q v) && negb (Qle_bool hi (to_Q v))) eqn:E.
  - rewrite Z.sub_diag. reflexivity.
  - rewrite IH.
    destruct (first_interval (class_id + 1) rest (to_Q v)) as [k|] eqn:Ek.
    + assert (Hk : class_id + 1 <= k).
      { clear - Ek. revert class_id Ek.
        induction rest as [|[lo' hi'] rest IH]; intros class_id Ek;
          [discriminate|].
        cbn [first_interval] in Ek.
        destruct (Qle_bool lo' (to_Q v) && negb (Qle_bool hi' (to_Q v))).
        - injection Ek as <-. lia.
        - apply IH in Ek. lia. }
      replace (Z.to_nat (k - class_id)) with (S (Z.to_nat (k - (class_id + 1))))
        by lia.
      reflexivity.
    + destruct rest; reflexivity.
Qed.

Lemma first_interval_some (classes : list (Q * Q)) (q : Q) :
  forall class_id k,
    first_interval class_id classes q = Some k ->
    class_id <= k < class_id + Z.of_nat (length classes)
    /\ exists lo hi,
         nth_error classes (Z.to_nat (k - class_id)) = Some (lo, hi)
         /\ (lo <= q /\ q < hi)%Q.
Proof.
  induction classes as [|[lo hi] rest IH]; intros class_id k Hk;
    [discriminate|].
  cbn [first_interval] in Hk.
  destruct (Qle_bool lo q && negb (Qle_bool hi q)) eqn:E.
  - injection Hk as <-. split; [cbn [length]; lia|].
    rewrite Z.sub_diag. exists lo, hi. split; [reflexivity|].
    apply andb_true_iff in E. destruct E as [E1 E2].
    apply Qle_bool_iff in E1. apply negb_true_iff in E2.
    split; [exact E1|]. apply Qnot_le_lt. intros H.
    apply Qle_bool_iff in H. congruence.
  - destruct (IH _ _ Hk) as [Hb (lo' & hi' & Hn & Hq)].
    split; [cbn [length]; lia|].
    exists lo', hi'. split; [|exact Hq].
    replace (Z.to_nat (k - class_id)) with (S (Z.to_nat (k - (class_id + 1))))
      by lia.
    exact Hn.
Qed.

(** Adjacent intervals leave no gap: a value between the first and the last
    break point is accepted by some row. *)
Lemma pairwise_covers (l : list Q) (q : Q) :
  (hd 0 l <= q)%Q -> (q < last l 0)%Q ->
  forall class_id, first_interval class_id (pairwise l) q <> None.
Proof.
  induction l as [|a l IH]; intros Hlo Hhi class_id.
  - cbn in *. lra.
  - destruct l as [|b l].
    + cbn in *. lra.
    + change (pairwise (a :: b :: l)) with ((a, b) :: pairwise (b :: l)).
      cbn [first_interval hd] in *.
      destruct (Qle_bool a q && negb (Qle_bool b q)) eqn:E; [discriminate|].
      apply IH.
      * cbn [hd]. apply andb_false_iff in E. destruct E as [E|E].
        -- assert (Qle_bool a q = true) by now apply Qle_bool_iff.
           congruence.
        -- apply negb_false_iff in E. now apply Qle_bool_iff.
      * exact Hhi.
Qed.

Lemma last_nth_error {A : Type} (l : list A) (d x : A) :
  nth_error l (Nat.pred (length l)) = Some x -> last l d = x.
Proof.
  induction l as [|a l IH]; [discriminate|].
  destruct l as [|b l]; cbn [length Nat.pred last].
  - cbn. congruence.
  - intros H. apply IH. exact H.
Qed.

(** The shape of the result for a label inside the range. *)
Lemma in_range_label_class (num_classes : Z) (v : pyval) :
  0 < num_classes -> in_range (to_Q v) ->
  exists classes,
    build_classes num_classes = Ok classes
    /\ length classes = Z.to_nat num_classes
    /\ ((exists k lo hi,
           0 <= k < num_classes
           /\ nth_error classes (Z.to_nat k) = Some (lo, hi)
           /\ (lo <= to_Q v /\ to_Q v < hi)%Q
           /\ (hi == 1 + 8 * (inject_Z k + 1) / inject_Z num_classes)%Q
           /\ transform_label_channel_with_classes v classes
              = Ok (PInt (if Qeq_bool (inject_Z k) hi
                          then num_classes - 1 else k)))
        \/ ((to_Q v == max_value)%Q
            /\ transform_label_channel_with_classes v classes
               = Ok (PInt (num_classes - 1)))).
Proof.
  intros Hpos [Hlo Hhi].
  destruct (linspace_breaks (Z.to_nat num_classes) ltac:(lia))
    as (breaks & E & Hlen & Hb).
  rewrite Z2Nat.id in E, Hb by lia.
  assert (Ebuild : build_classes num_classes = Ok (pairwise breaks)).
  { unfold build_classes. now rewrite E. }
  destruct (build_classes_rows num_classes Hpos)
    as (classes & Ebuild' & Hcl & Htile & _).
  rewrite Ebuild in Ebuild'. injection Ebuild' as <-.
  exists (pairwise breaks). split; [exact Ebuild|]. split; [exact Hcl|].
  assert (Hhd : (hd 0 breaks == 1)%Q).
  { destruct (Hb 0%nat ltac:(lia)) as (b & Eb & Hb0).
    destruct breaks as [|b0 breaks]; [discriminate|].
    cbn in Eb. injection Eb as ->. cbn [hd]. rewrite Hb0.
    assert (Hn' : ~ (inject_Z num_classes == 0)%Q)
      by (unfold Qeq, inject_Z; cbn; lia).
    cbn. field. exact Hn'. }
  assert (Hlast : (last breaks 0 == 9)%Q).
  { destruct (Hb (Z.to_nat num_classes) ltac:(lia)) as (b & Eb & Hbn).
    rewrite (last_nth_error breaks 0%Q b)
      by (rewrite Hlen; cbn [Nat.pred]; exact Eb).
    rewrite Hbn. rewrite Z2Nat.id by lia.
    assert (Hn' : ~ (inject_Z num_classes == 0)%Q)
      by (unfold Qeq, inject_Z; cbn; lia).
    field. exact Hn'. }
  unfold transform_label_channel_with_classes.
  rewrite scan_classes_first_interval.
  destruct (first_interval 0 (pairwise breaks) (to_Q v)) as [k|] eqn:Ek.
  - left. destruct (first_interval_some _ _ _ _ Ek)
      as [Hk (lo & hi & Hn & Hq)].
    rewrite Z.sub_0_r in *. rewrite Hcl in Hk.
    exists k, lo, hi. split; [lia|]. split; [exact Hn|]. split; [exact Hq|].
    destruct (Htile _ _ _ Hn) as [_ Hhi'].
    split.
    + rewrite Hhi'. rewrite Nat2Z.inj_succ, Z2Nat.id by lia.
      unfold Z.succ. rewrite inject_Z_plus. reflexivity.
    + rewrite (nth_error_nth _ _ _ Hn). cbn [snd].
      unfold py_eq. cbn [to_Q]. rewrite Hcl.
      rewrite Z2Nat.id by lia.
      destruct (Qeq_bool (inject_Z k) hi); reflexivity.
  - right.
    assert (Hv9 : (to_Q v == max_value)%Q).
    { unfold max_value in *. apply Qle_antisym; [exact Hhi|].
      apply Qnot_lt_le. intros Hlt.
      apply (pairwise_covers breaks (to_Q v)) with (class_id := 0);
        [rewrite Hhd; exact Hlo | rewrite Hlast; exact Hlt | exact Ek]. }
    split; [exact Hv9|].
    assert (Hne : pairwise breaks <> []).
    { intros Hnil. rewrite Hnil in Hcl. cbn in Hcl. lia. }
    assert (Hlt : (Nat.pred (length (pairwise breaks))
                   < length (pairwise breaks))%nat) by lia.
    destruct (nth_error (pairwise breaks)
                (Nat.pred (length (pairwise breaks)))) as [[lo hi]|] eqn:El;
      [|apply nth_error_None in El; lia].
    destruct (Htile _ _ _ El) as [_ Hhi9].
    rewrite Hcl in Hhi9.
    replace (S (Nat.pred (Z.to_nat num_classes))) with (Z.to_nat num_classes)
      in Hhi9 by lia.
    rewrite Z2Nat.id in Hhi9 by lia.
    assert (Hn' : ~ (inject_Z num_classes == 0)%Q)
      by (unfold Qeq, inject_Z; cbn; lia).
    assert (Hhi9' : (hi == 9)%Q) by (rewrite Hhi9; field; exact Hn').
    pose proof (last_nth_error _ (0, 0)%Q _ El) as Hlastc.
    destruct (pairwise breaks) as [|c cs] eqn:Ep; [congruence|].
    cbn [last_bound]. rewrite Hlastc. cbn [snd].
    unfold py_eq. cbn [to_Q].
    assert (Heq : Qeq_bool (to_Q v) hi = true).
    { apply Qeq_bool_iff. rewrite Hv9, Hhi9'. reflexivity. }
    rewrite Heq. rewrite Hcl. rewrite Z2Nat.id by lia. reflexivity.
Qed.


Lemma nonzero_classes (num_classes : Z) :
  0 < num_classes -> ~ (inject_Z num_classes == 0)%Q.
Proof. intros H. unfold Qeq, inject_Z; cbn. lia. Qed.

(** X1: [build_classes] with a positive class count [n] returns exactly [n]
    intervals that tile the rating range: interval [k] starts at
    [1 + 8k/n], is [8/n] wide and not empty, ends where interval [k + 1]
    starts; the first starts at [min_value] and the last ends at
    [max_value]. *)
Theorem build_classes_tiles_the_range (num_classes : Z) :
  0 < num_classes ->
  exists classes,
    build_classes num_classes = Ok classes
    /\ length classes = Z.to_nat num_classes
    /\ (forall k lo hi,
          nth_error classes k = Some (lo, hi) ->
          (lo == 1 + 8 * inject_Z (Z.of_nat k) / inject_Z num_classes
           /\ hi == lo + 8 / inject_Z num_classes
           /\ lo < hi)%Q)
    /\ (forall k c c',
          nth_error classes k = Some c -> nth_error classes (S k) = Some c' ->
          snd c = fst c')
    /\ (fst (hd (0, 0) classes) == min_value)%Q
    /\ (snd (last classes (0, 0)) == max_value)%Q.
Proof.
  intros Hpos.
  destruct (build_classes_rows num_classes Hpos)
    as (classes & E & Hlen & Hrows & Hadj).
  assert (Hn := nonzero_classes num_classes Hpos).
  assert (Hw : (0 < 8 / inject_Z num_classes)%Q).
  { apply Qlt_shift_div_l; [unfold Qlt, inject_Z; cbn; lia | lra]. }
  exists classes. split; [exact E|]. split; [exact Hlen|].
  split; [|split; [exact Hadj|split]].
  - intros k lo hi Hk. destruct (Hrows _ _ _ Hk) as [Hlo Hhi].
    assert (Hstep : (hi == lo + 8 / inject_Z num_classes)%Q).
    { rewrite Hlo, Hhi, Nat2Z.inj_succ. unfold Z.succ.
      rewrite inject_Z_plus. field. exact Hn. }
    split; [exact Hlo|]. split; [exact Hstep|]. rewrite Hstep. lra.
  - destruct classes as [|[lo hi] cs]; [cbn in Hlen; lia|].
    destruct (Hrows 0%nat lo hi eq_refl) as [Hlo _]. cbn [hd fst].
    rewrite Hlo. unfold min_value. cbn. field. exact Hn.
  - assert (Hlt : (Nat.pred (length classes) < length classes)%nat) by lia.
    destruct (nth_error classes (Nat.pred (length classes)))
      as [[lo hi]|] eqn:El; [|apply nth_error_None in El; lia].
    rewrite (last_nth_error _ (0, 0)%Q _ El). cbn [snd].
    destruct (Hrows _ _ _ El) as [_ Hhi]. rewrite Hhi, Hlen.
    replace (S (Nat.pred (Z.to_nat num_classes))) with (Z.to_nat num_classes)
      by lia.
    rewrite Z2Nat.id by lia. unfold max_value. field. exact Hn.
Qed.

Lemma build_classes_tiles_the_range_witness :
  exists classes,
    build_classes 4 = Ok classes
    /\ length classes = 4%nat
    /\ (snd (last classes (0, 0)) == max_value)%Q.
Proof.
  destruct (build_classes_tiles_the_range 4 ltac:(lia))
    as (classes & E & Hlen & _ & _ & _ & Hlast).
  exists classes. split; [exact E|]. split; [exact Hlen | exact Hlast].
Defined.

(** X2: for every positive class count, a rating inside [[1, 9]] is
    turned by [transform_label_channel_with_classes] into an integer class
    id between 0 and the class count minus one -- also for the class counts
    where the id is not the one of the interval that holds the rating. *)
Theorem in_range_label_gets_valid_class (num_classes : Z) (v : pyval) :
  0 < num_classes -> in_range (to_Q v) ->
  exists classes class_id,
    build_classes num_classes = Ok classes
    /\ transform_label_channel_with_classes v classes = Ok (PInt class_id)
    /\ 0 <= class_id < num_classes.
Proof.
  intros Hpos Hv.
  destruct (in_range_label_class num_classes v Hpos Hv)
    as (classes & E & _ & [(k & lo & hi & Hk & _ & _ & _ & Et)|[_ Et]]).
  - exists classes. eexists. split; [exact E|]. split; [exact Et|].
    destruct (Qeq_bool (inject_Z k) hi); lia.
  - exists classes. eexists. split; [exact E|]. split; [exact Et|]. lia.
Qed.

Lemma in_range_label_gets_valid_class_witness :
  exists classes class_id,
    build_classes 16 = Ok classes
    /\ transform_label_channel_with_classes (PFloat (11 # 4)) classes
       = Ok (PInt class_id)
    /\ 0 <= class_id < 16.
Proof.
  apply (in_range_label_gets_valid_class 16 (PFloat (11 # 4))).
  - lia.
  - unfold in_range, min_value, max_value. cbn [to_Q]. split; lra.
Defined.

(** X3: for every positive class count other than 12, 16 and 24, a rating
    inside [[1, 9]] gets the id of an interval that holds it: its lower
    bound is at most the rating and the rating is below its upper bound, or
    the rating is the maximum 9 and the id is the last one.  (For 12, 16 and
    24 an interval's id equals its upper bound, and the patch for the
    maximum then overwrites the id with the last one.) *)
Theorem binning_exact_unless_12_16_24 (num_classes : Z) (v : pyval) :
  0 < num_classes ->
  num_classes <> 12 -> num_classes <> 16 -> num_classes <> 24 ->
  in_range (to_Q v) ->
  exists classes class_id lo hi,
    build_classes num_classes = Ok classes
    /\ transform_label_channel_with_classes v classes = Ok (PInt class_id)
    /\ 0 <= class_id < num_classes
    /\ nth_error classes (Z.to_nat class_id) = Some (lo, hi)
    /\ (lo <= to_Q v)%Q
    /\ ((to_Q v < hi)%Q
        \/ (class_id = num_classes - 1 /\ (to_Q v == max_value)%Q)).
Proof.
  intros Hpos H12 H16 H24 Hv.
  assert (Hn := nonzero_classes num_classes Hpos).
  destruct (in_range_label_class num_classes v Hpos Hv)
    as (classes & E & Hlen & [(k & lo & hi & Hk & Hnth & Hq & Hhi & Et)
                             |[Hv9 Et]]).
  - destruct (Qeq_bool (inject_Z k) hi) eqn:Eq.
    + (* the patch fires: only possible in the last row *)
      apply Qeq_bool_iff in Eq. rewrite Hhi in Eq.
      assert (Ez : k * num_classes = num_classes + 8 * (k + 1)).
      { apply inject_Z_injective.
        rewrite inject_Z_mult, inject_Z_plus, inject_Z_mult, inject_Z_plus.
        rewrite Eq at 1. change (inject_Z 8) with 8%Q.
        change (inject_Z 1) with 1%Q. field. exact Hn. }
      assert (Hlast : k = num_classes - 1).
      { clear - Ez Hk Hpos H12 H16 H24.
        assert (Hp : (k - 1) * (num_classes - 8) = 16) by lia.
        assert (H8 : 8 < num_classes).
        { destruct (Z.le_gt_cases num_classes 8) as [Hle|]; [|lia].
          assert (k = 0) by nia. subst k. lia. }
        assert (H2 : 2 <= k) by nia.
        assert (H25 : num_classes <= 24) by nia.
        assert (Hc : num_classes = 9 \/ num_classes = 10 \/ num_classes = 11
                     \/ num_classes = 12 \/ num_classes = 13
                     \/ num_classes = 14 \/ num_classes = 15
                     \/ num_classes = 16 \/ num_classes = 17
                     \/ num_classes = 18 \/ num_classes = 19
                     \/ num_classes = 20 \/ num_classes = 21
                     \/ num_classes = 22 \/ num_classes = 23
                     \/ num_classes = 24) by lia.
        repeat (destruct Hc as [Hc|Hc]; [subst num_classes; lia|]).
        subst num_classes; lia. }
      exists classes, (num_classes - 1), lo, hi.
      split; [exact E|]. split; [exact Et|]. split; [lia|].
      rewrite <- Hlast. split; [exact Hnth|]. split; [apply Hq|].
      left. apply Hq.
    + exists classes, k, lo, hi.
      split; [exact E|]. split; [exact Et|]. split; [exact Hk|].
      split; [exact Hnth|]. split; [apply Hq|]. left. apply Hq.
  - assert (Hlt : (Z.to_nat (num_classes - 1) < length classes)%nat)
      by (rewrite Hlen; clear - Hpos; lia).
    destruct (nth_error classes (Z.to_nat (num_classes - 1)))
      as [[lo hi]|] eqn:El; [|apply nth_error_None in El; lia].
    exists classes, (num_classes - 1), lo, hi.
    split; [exact E|]. split; [exact Et|]. split; [lia|].
    split; [exact El|].
    split; [|right; split; [reflexivity | exact Hv9]].
    destruct (build_classes_rows num_classes Hpos)
      as (classes' & E' & _ & Hrows & _).
    rewrite E in E'. injection E' as <-.
    destruct (LabelTransformerFacts.build_classes_bounds num_classes Hpos)
      as (classes' & E' & _ & Hall).
    rewrite E in E'. injection E' as <-.
    rewrite Forall_forall in Hall.
    destruct (Hall _ (nth_error_In _ _ El)) as [_ [_ Hhi9]]. cbn [snd] in Hhi9.
    destruct (Hrows _ _ _ El) as [Hlo Hhi].
    assert (Hw : (0 < 8 / inject_Z num_classes)%Q).
    { apply Qlt_shift_div_l; [unfold Qlt, inject_Z; cbn; lia | lra]. }
    assert (Hstep : (hi == lo + 8 / inject_Z num_classes)%Q).
    { rewrite Hlo, Hhi, Nat2Z.inj_succ. unfold Z.succ.
      rewrite inject_Z_plus. field. exact Hn. }
    rewrite Hv9. unfold max_value in *. lra.
Qed.

Lemma binning_exact_unless_12_16_24_witness :
  exists classes class_id lo hi,
    build_classes 10 = Ok classes
    /\ transform_label_channel_with_classes (PFloat (17 # 2)) classes
       = Ok (PInt class_id)
    /\ 0 <= class_id < 10
    /\ nth_error classes (Z.to_nat class_id) = Some (lo, hi)
    /\ (lo <= 17 # 2)%Q
    /\ ((17 # 2 < hi)%Q \/ (class_id = 10 - 1 /\ (17 # 2 == max_value)%Q)).
Proof.
  apply (binning_exact_unless_12_16_24 10 (PFloat (17 # 2))).
  - lia.
  - lia.
  - lia.
  - lia.
  - unfold in_range, min_value, max_value. cbn [to_Q]. split; lra.
Defined.

(** For the three class counts left out, the slip does bite: the rating
    lies in the interval of the first id given, and the last id comes
    back. *)
Lemma binning_slips_for_12_16_24 :
  (exists classes,
     build_classes 12 = Ok classes
     /\ first_interval 0 classes (9 # 2) = Some 5
     /\ transform_label_channel_with_classes (PFloat (9 # 2)) classes
        = Ok (PInt 11))
  /\ (exists classes,
        build_classes 16 = Ok classes
        /\ first_interval 0 classes (11 # 4) = Some 3
        /\ transform_label_channel_with_classes (PFloat (11 # 4)) classes
           = Ok (PInt 15))
  /\ (exists classes,
        build_classes 24 = Ok classes
        /\ first_interval 0 classes (7 # 4) = Some 2
        /\ transform_label_channel_with_classes (PFloat (7 # 4)) classes
           = Ok (PInt 23)).
Proof.
  repeat split; eexists; (split; [reflexivity|]); split; reflexivity.
Qed.

(** X4: a class count that is not positive cannot be used.  For 0 and -1
    [build_classes] returns an empty table, and binning any rating with it
    raises [UnboundLocalError], the loop variable [max_exclusive] never
    being bound; below -1 [np.linspace] refuses the negative number of
    samples and [build_classes] raises [ValueError]. *)
Theorem non_positive_class_count_raises (num_classes : Z) (v : pyval) :
  num_classes <= 0 ->
  (classes <- build_classes num_classes ;;
   transform_label_channel_with_classes v classes)
  = Raise (if num_classes <? -1 then ValueError else UnboundLocalError).
Proof.
  intros Hn. unfold build_classes, linspace.
  destruct (Z.ltb_spec num_classes (-1)) as [Hlt|Hge].
  - destruct (Z.ltb_spec (num_classes + 1) 0); [reflexivity | lia].
  - assert (Hc : num_classes = 0 \/ num_classes = -1) by lia.
    destruct Hc as [-> | ->]; reflexivity.
Qed.

Lemma non_positive_class_count_raises_witness :
  (classes <- build_classes 0 ;;
   transform_label_channel_with_classes (PFloat 5) classes)
  = Raise (if 0 <? -1 then ValueError else UnboundLocalError).
Proof.
  apply (non_positive_class_count_raises 0 (PFloat 5)). lia.
Defined.

(** X5: [transform_labels] reads the entries 0 to 3 of the label vector and
    nothing else.  With a table of at least one class, a vector of fewer
    than four entries raises [IndexError]; a vector of four or more is
    always transformed, and entries beyond the fourth do not change the
    result. *)
Theorem transform_labels_reads_four_entries
    (self : t) (labels : list pyval) (return_np : bool) :
  valence_classes self <> [] ->
  ((length labels < 4)%nat ->
     transform_labels self labels return_np = Raise IndexError)
  /\ ((4 <= length labels)%nat ->
        (exists out, transform_labels self labels return_np = Ok out)
        /\ transform_labels self labels return_np
           = transform_labels self (firstn 4 labels) return_np).
Proof.
  intros Hne. split.
  - intros Hlen. unfold transform_labels, bind, getitem.
    destruct labels as [|l0 [|l1 [|l2 [|l3 rest]]]]; cbn [length] in Hlen;
      try lia; cbn [nth_error]; try reflexivity.
    + destruct (ShuffleFacts.transform_channel_returns _ l0 Hne) as [o0 ->].
      reflexivity.
    + destruct (ShuffleFacts.transform_channel_returns _ l0 Hne) as [o0 ->].
      destruct (ShuffleFacts.transform_channel_returns _ l1 Hne) as [o1 ->].
      reflexivity.
    + destruct (ShuffleFacts.transform_channel_returns _ l0 Hne) as [o0 ->].
      destruct (ShuffleFacts.transform_channel_returns _ l1 Hne) as [o1 ->].
      destruct (ShuffleFacts.transform_channel_returns _ l2 Hne) as [o2 ->].
      reflexivity.
  - intros Hlen.
    destruct labels as [|l0 [|l1 [|l2 [|l3 rest]]]]; cbn [length] in Hlen;
      try lia.
    split; [|reflexivity].
    unfold transform_labels, bind, getitem. cbn [nth_error].
    destruct (ShuffleFacts.transform_channel_returns _ l0 Hne) as [o0 ->].
    destruct (ShuffleFacts.transform_channel_returns _ l1 Hne) as [o1 ->].
    destruct (ShuffleFacts.transform_channel_returns _ l2 Hne) as [o2 ->].
    destruct (ShuffleFacts.transform_channel_returns _ l3 Hne) as [o3 ->].
    destruct return_np; eexists; reflexivity.
Qed.

Lemma transform_labels_reads_four_entries_witness :
  transform_labels
    (mk [(1, 5); (5, 9)]%Q [] [] [] deap_label_names)
    [PFloat 5; PFloat 4; PFloat 5] true
  = Raise IndexError.
Proof.
  apply (proj1 (transform_labels_reads_four_entries
                  (mk [(1, 5); (5, 9)]%Q [] [] [] deap_label_names)
                  [PFloat 5; PFloat 4; PFloat 5] true ltac:(discriminate))).
  cbn. lia.
Defined.

(** X6: [onehot] of the class id computed for a rating inside [[1, 9]]
    succeeds and is the unit vector of that id: as many entries as there
    are classes, 1 at the position of the id and 0 elsewhere.  A float, such
    as an unbinned rating, is no index: [onehot] raises [IndexError]. *)
Theorem onehot_marks_the_class (num_classes : Z) (v : pyval) :
  0 < num_classes -> in_range (to_Q v) ->
  exists classes class_id row,
    build_classes num_classes = Ok classes
    /\ transform_label_channel_with_classes v classes = Ok (PInt class_id)
    /\ onehot (Z.of_nat (length classes)) (PInt class_id) = Ok row
    /\ length row = Z.to_nat num_classes
    /\ (forall j, (j < length row)%nat ->
          nth j row 0%Q = if (j =? Z.to_nat class_id)%nat then 1%Q else 0%Q)
    /\ (forall q, onehot (Z.of_nat (length classes)) (PFloat q)
                  = Raise IndexError).
Proof.
  intros Hpos Hv.
  destruct (in_range_label_class num_classes v Hpos Hv)
    as (classes & E & Hlen & Hcases).
  assert (Hid : exists k, transform_label_channel_with_classes v classes
                          = Ok (PInt k) /\ 0 <= k < num_classes).
  { destruct Hcases as [(k & lo & hi & Hk & _ & _ & _ & Et)|[_ Et]];
      eexists; (split; [exact Et|]);
      [destruct (Qeq_bool (inject_Z k) hi); lia | lia]. }
  destruct Hid as (k & Et & Hk).
  exists classes, k.
  unfold onehot, eye. rewrite Hlen, Z2Nat.id by lia.
  destruct (Z.ltb_spec num_classes 0) as [?|_]; [lia|].
  unfold row_at. rewrite length_map, length_seq, Z2Nat.id by lia.
  destruct (Z.leb_spec 0 k) as [_|?]; [|lia].
  destruct (Z.ltb_spec k num_classes) as [_|?]; [|lia]. cbn [andb].
  unfold getitem. rewrite nth_error_map_seq by lia. cbn [Nat.add].
  eexists. split; [exact E|]. split; [exact Et|]. split; [reflexivity|].
  split; [now rewrite length_map, length_seq|].
  split; [|reflexivity].
  intros j Hj. rewrite length_map, length_seq in Hj.
  rewrite (nth_error_nth _ _ 0%Q
             (nth_error_map_seq
                (fun j0 => if (Z.to_nat k =? j0)%nat then 1%Q else 0%Q)
                0 (Z.to_nat num_classes) j Hj)).
  cbn [Nat.add]. rewrite Nat.eqb_sym. reflexivity.
Qed.

Lemma onehot_marks_the_class_witness :
  exists classes class_id row,
    build_classes 2 = Ok classes
    /\ transform_label_channel_with_classes (PFloat 7) classes
       = Ok (PInt class_id)
    /\ onehot (Z.of_nat (length classes)) (PInt class_id) = Ok row
    /\ length row = 2%nat.
Proof.
  destruct (onehot_marks_the_class 2 (PFloat 7))
    as (classes & k & row & E & Et & Eo & Hlen & _).
  - lia.
  - unfold in_range, min_value, max_value. cbn [to_Q]. split; lra.
  - exists classes, k, row. repeat split; assumption.
Defined.

End LabelTableFacts.

(** ** What the label buffer keeps of an unbinned rating *)

Module StoredLabelFacts.
Import LabelTransformer LabelSpec BufferSpec.



End StoredLabelFacts.

(** ** normalize *)

Module NormalizeFacts.

Lemma qmax_ge (a b : Q) : (a <= qmax a b /\ b <= qmax a b)%Q.
Proof.
  unfold qmax. destruct (Qle_bool a b) eqn:E.
  - apply Qle_bool_iff in E. split; [exact E | apply Qle_refl].
  - split; [apply Qle_refl|]. apply Qlt_le_weak, Qnot_le_lt. intros H.
    apply Qle_bool_iff in H. congruence.
Qed.

Lemma qmin_le (a b : Q) : (qmin a b <= a /\ qmin a b <= b)%Q.
Proof.
  unfold qmin. destruct (Qle_bool a b) eqn:E.
  - apply Qle_bool_iff in E. split; [apply Qle_refl | exact E].
  - split; [|apply Qle_refl]. apply Qlt_le_weak, Qnot_le_lt. intros H.
    apply Qle_bool_iff in H. congruence.
Qed.

(** Column [j] of the reduction is the reduction of column [j]. *)
Lemma reduce_column (op : Q -> Q -> Q) (c : nat) (rest : array2) :
  Forall (fun row => length row = c) rest ->
  forall row, length row = c ->
    length (fold_left (fun acc r =>
                         map (fun ab => op (fst ab) (snd ab)) (combine acc r))
                      rest row) = c
    /\ forall j, (j < c)%nat ->
         nth j (fold_left (fun acc r =>
                             map (fun ab => op (fst ab) (snd ab))
                                 (combine acc r))
                          rest row) 0%Q
         = fold_left op (map (fun r => nth j r 0%Q) rest) (nth j row 0%Q).
Proof.
  induction 1 as [|r rest Hr _ IH]; intros row Hrow.
  - split; [exact Hrow | reflexivity].
  - cbn [fold_left map].
    assert (Hlen : length (map (fun ab => op (fst ab) (snd ab))
                               (combine row r)) = c)
      by (rewrite length_map, length_combine; lia).
    destruct (IH _ Hlen) as [Hl Hn]. split; [exact Hl|].
    intros j Hj. rewrite (Hn j Hj). f_equal.
    assert (Hc : nth_error (combine row r) j
                 = Some (nth j row 0%Q, nth j r 0%Q)).
    { rewrite LabelTableFacts.nth_error_combine.
      rewrite (nth_error_nth' row 0%Q), (nth_error_nth' r 0%Q) by lia.
      reflexivity. }
    rewrite (nth_error_nth _ _ 0%Q
               (eq_trans (nth_error_map _ _ _)
                         (f_equal (option_map _) Hc))).
    reflexivity.
Qed.

Lemma fold_qmax_ge (l : list Q) :
  forall a, (a <= fold_left qmax l a)%Q
            /\ Forall (fun x => (x <= fold_left qmax l a)%Q) l.
Proof.
  induction l as [|x l IH]; intros a; cbn [fold_left].
  - split; [apply Qle_refl | constructor].
  - destruct (IH (qmax a x)) as [H1 H2]. destruct (qmax_ge a x) as [Ha Hx].
    split; [eapply Qle_trans; eassumption|].
    constructor; [eapply Qle_trans; eassumption | exact H2].
Qed.

Lemma fold_qmin_le (l : list Q) :
  forall a, (fold_left qmin l a <= a)%Q
            /\ Forall (fun x => (fold_left qmin l a <= x)%Q) l.
Proof.
  induction l as [|x l IH]; intros a; cbn [fold_left].
  - split; [apply Qle_refl | constructor].
  - destruct (IH (qmin a x)) as [H1 H2]. destruct (qmin_le a x) as [Ha Hx].
    split; [eapply Qle_trans; eassumption|].
    constructor; [eapply Qle_trans; eassumption | exact H2].
Qed.

Lemma unit_interval (x mn mx : Q) :
  (mn <= x)%Q -> (x <= mx)%Q -> ~ (mx == mn)%Q ->
  (0 <= (x - mn) / (mx - mn) /\ (x - mn) / (mx - mn) <= 1)%Q.
Proof.
  intros H1 H2 Hne.
  assert (Hpos : (0 < mx - mn)%Q).
  { assert (Hle : (mn <= mx)%Q) by (eapply Qle_trans; eassumption).
    destruct (Qlt_le_dec mn mx) as [Hlt|Hge]; [lra|].
    exfalso. apply Hne. apply Qle_antisym; assumption. }
  split.
  - apply Qle_shift_div_l; [exact Hpos | lra].
  - apply Qle_shift_div_r; [exact Hpos | lra].
Qed.

(** X8: [normalize] on a rectangular array with at least one row returns an
    array with as many rows; every column is rescaled by its own extremes:
    each entry lies between the minimum and the maximum of its column and is
    mapped to [(x - min) / (max - min)], a value in [[0, 1]], when the
    column is not constant, and to [nan] (here [None]) when it is. *)
Theorem normalize_maps_columns_into_the_unit_interval
    (first_row : list Q) (other_rows : array2) :
  Forall (fun row => length row = length first_row) other_rows ->
  exists out maximum minimum,
    normalize (first_row :: other_rows) = Ok out
    /\ reduce_axis0 qmax (first_row :: other_rows) = Ok maximum
    /\ reduce_axis0 qmin (first_row :: other_rows) = Ok minimum
    /\ length out = S (length other_rows)
    /\ forall i j row x,
         nth_error (first_row :: other_rows) i = Some row ->
         nth_error row j = Some x ->
         exists mx mn,
           nth_error maximum j = Some mx
           /\ nth_error minimum j = Some mn
           /\ (mn <= x /\ x <= mx)%Q
           /\ nth_error (nth i out []) j
              = Some (if Qeq_bool mx mn then None
                      else Some ((x - mn) / (mx - mn))%Q)
           /\ (~ (mx == mn)%Q ->
               (0 <= (x - mn) / (mx - mn) /\ (x - mn) / (mx - mn) <= 1)%Q).
Proof.
  intros Hrect. set (c := length first_row) in *.
  unfold normalize, reduce_axis0.
  destruct (reduce_column qmax c other_rows Hrect first_row eq_refl)
    as [Hlmax Hmax].
  destruct (reduce_column qmin c other_rows Hrect first_row eq_refl)
    as [Hlmin Hmin].
  set (maximum := fold_left _ other_rows first_row) in *.
  set (minimum := fold_left _ other_rows first_row) in Hlmin, Hmin |- *.
  eexists. exists maximum, minimum.
  split; [reflexivity|]. split; [reflexivity|]. split; [reflexivity|].
  split; [now rewrite length_map|].
  intros i j row x Hrow Hx.
  assert (Hall : Forall (fun r => length r = c) (first_row :: other_rows))
    by (constructor; [reflexivity | exact Hrect]).
  assert (Hrc : length row = c).
  { rewrite Forall_forall in Hall. apply Hall.
    eapply nth_error_In. exact Hrow. }
  assert (Hj : (j < c)%nat).
  { rewrite <- Hrc. apply nth_error_Some. congruence. }
  assert (Hxn : nth j row 0%Q = x) by now apply nth_error_nth.
  exists (nth j maximum 0%Q), (nth j minimum 0%Q).
  split; [apply nth_error_nth'; lia|].
  split; [apply nth_error_nth'; lia|].
  assert (Hb : (nth j minimum 0 <= x /\ x <= nth j maximum 0)%Q).
  { rewrite Hmax, Hmin by exact Hj.
    destruct (fold_qmax_ge (map (fun r => nth j r 0%Q) other_rows)
                (nth j first_row 0%Q)) as [Hmx0 Hmx].
    destruct (fold_qmin_le (map (fun r => nth j r 0%Q) other_rows)
                (nth j first_row 0%Q)) as [Hmn0 Hmn].
    destruct i as [|i]; cbn [nth_error] in Hrow.
    - injection Hrow as <-. rewrite <- Hxn. split; assumption.
    - rewrite Forall_forall in Hmx, Hmn.
      assert (Hin : In x (map (fun r => nth j r 0%Q) other_rows)).
      { apply in_map_iff. exists row. split; [exact Hxn|].
        eapply nth_error_In. exact Hrow. }
      split; [now apply Hmn | now apply Hmx]. }
  split; [exact Hb|]. split.
  - rewrite (nth_error_nth _ _ []
               (eq_trans (nth_error_map _ _ _)
                         (f_equal (option_map _) Hrow))).
    assert (Hc : nth_error (combine row (combine maximum minimum)) j
                 = Some (x, (nth j maximum 0%Q, nth j minimum 0%Q))).
    { rewrite !LabelTableFacts.nth_error_combine, Hx.
      rewrite (nth_error_nth' maximum 0%Q), (nth_error_nth' minimum 0%Q)
        by lia.
      reflexivity. }
    rewrite nth_error_map, Hc. reflexivity.
  - intros Hne. apply unit_interval; [apply Hb | apply Hb | exact Hne].
Qed.

Lemma normalize_maps_columns_into_the_unit_interval_witness :
  exists out maximum minimum,
    normalize ([1; 5]%Q :: [[3; 5]%Q]) = Ok out
    /\ reduce_axis0 qmax ([1; 5]%Q :: [[3; 5]%Q]) = Ok maximum
    /\ reduce_axis0 qmin ([1; 5]%Q :: [[3; 5]%Q]) = Ok minimum
    /\ length out = 2%nat.
Proof.
  destruct (normalize_maps_columns_into_the_unit_interval [1; 5]%Q
              [[3; 5]%Q]) as (out & mx & mn & E & Emx & Emn & Hlen & _).
  - repeat constructor.
  - exists out, mx, mn. repeat split; assumption.
Defined.

End NormalizeFacts.

(** ** DEAPWriterBuffer: capacity, shapes, flushing *)

Module BufferEdgeFacts.
Import DEAPWriterBuffer BufferSpec WriterSpec RoutingSpec FlushSpec.

Lemma write_example_full (b : DEAPWriterBuffer.t) (data : array2)
    (labels : list pyval) :
  (length (data_buffer b) <= collected b)%nat ->
  write_example data labels b = (Raise IndexError, b).
Proof.
  intros H. unfold write_example, se_bind, get, lift_result, getitem.
  apply nth_error_None in H. now rewrite H.
Qed.

Lemma buffer_holding_length (cap r c dw : nat)
    (items : list (array2 * list pyval)) :
  (length items <= cap)%nat ->
  length (data_buffer (buffer_holding cap r c dw items)) = cap
  /\ length (label_buffer (buffer_holding cap r c dw items)) = cap.
Proof.
  intros H. unfold buffer_holding. cbn [data_buffer label_buffer].
  rewrite !length_app, !length_map, !repeat_length. lia.
Qed.

Lemma append_all_holding (cap r c dw : nat)
    (items : list (array2 * list pyval)) :
  Forall (well_shaped r c) items ->
  forall pre,
    (length pre <= cap)%nat ->
    append_all items (buffer_holding cap r c dw pre)
    = (if (length pre + length items <=? cap)%nat
       then Ok tt else Raise IndexError,
       buffer_holding cap r c dw
         (pre ++ firstn (cap - length pre) items)).
Proof.
  unfold append_all.
  induction 1 as [|[data labels] items [Hs Hl] _ IH]; intros pre Hpre.
  - cbn [for_each length firstn]. rewrite Nat.add_0_r, firstn_nil, app_nil_r.
    destruct (Nat.leb_spec (length pre) cap); [reflexivity | lia].
  - cbn [for_each fst snd length] in *. unfold se_bind.
    destruct (Nat.eq_dec (length pre) cap) as [Efull|Hfree].
    + rewrite write_example_full
        by (rewrite (proj1 (buffer_holding_length cap r c dw pre Hpre));
            unfold buffer_holding; cbn [collected]; lia).
      destruct (Nat.leb_spec (length pre + S (length items)) cap); [lia|].
      rewrite Efull, Nat.sub_diag. cbn [firstn]. now rewrite app_nil_r.
    + rewrite (RoutingFacts.write_example_holding cap r c dw pre data labels)
        by (try lia; assumption).
      rewrite IH by (rewrite length_app; cbn [length]; lia).
      rewrite length_app. cbn [length].
      replace (cap - length pre)%nat with (S (cap - (length pre + 1)))
        by lia.
      cbn [firstn]. rewrite <- app_assoc. cbn [app].
      replace (length pre + 1 + length items)%nat
        with (length pre + S (length items))%nat by lia.
      reflexivity.
Qed.

(** X9: appending more well-shaped samples to a fresh buffer than its
    capacity raises [IndexError] at the first sample that does not fit; the
    buffer then holds exactly the first [capacity] samples, in order, and
    none of them was overwritten. *)
Theorem append_beyond_capacity_raises (cap r c dw : nat)
    (items : list (array2 * list pyval)) :
  Forall (well_shaped r c) items -> (cap < length items)%nat ->
  append_all items (buffer_holding cap r c dw [])
  = (Raise IndexError, buffer_holding cap r c dw (firstn cap items)).
Proof.
  intros Hshape Hlen.
  rewrite (append_all_holding cap r c dw items Hshape []) by (cbn; lia).
  cbn [length Nat.add app]. rewrite Nat.sub_0_r.
  destruct (Nat.leb_spec (length items) cap); [lia | reflexivity].
Qed.

Lemma append_beyond_capacity_raises_witness :
  append_all [([[1%Q]], [PInt 0; PInt 0; PInt 0; PInt 0]);
              ([[2%Q]], [PInt 1; PInt 1; PInt 1; PInt 1])]
    (buffer_holding 1 1 1 0 [])
  = (Raise IndexError,
     buffer_holding 1 1 1 0
       (firstn 1 [([[1%Q]], [PInt 0; PInt 0; PInt 0; PInt 0]);
                  ([[2%Q]], [PInt 1; PInt 1; PInt 1; PInt 1])])).
Proof.
  apply (append_beyond_capacity_raises 1 1 1 0).
  - repeat constructor.
  - cbn. lia.
Defined.

(** X10: the buffer only takes samples it can broadcast to its slot shape: a
    sample whose number of rows is neither the slot's nor 1 -- such as a
    32-channel sample offered to the 40-row buffer [process_directory]
    allocates -- raises [ValueError] and leaves the buffer as it was. *)
Theorem write_example_rejects_other_row_counts (cap r c dw : nat)
    (items : list (array2 * list pyval)) (data : array2)
    (labels : list pyval) :
  (length items < cap)%nat -> length data <> r -> length data <> 1%nat ->
  write_example data labels (buffer_holding cap r c dw items)
  = (Raise ValueError, buffer_holding cap r c dw items).
Proof.
  intros Hcap Hr H1.
  unfold write_example, se_bind, get, lift_result, getitem.
  unfold buffer_holding at 1 2 3.
  cbn [data_buffer data_buffer_shape collected tl].
  rewrite nth_error_app2 by (rewrite length_map; lia).
  rewrite length_map, Nat.sub_diag.
  replace (cap - length items)%nat with (S (cap - length items - 1)) by lia.
  cbn [repeat nth_error].
  unfold broadcast2, broadcast_axis.
  destruct (Nat.eqb_spec (length data) r) as [E|_]; [congruence|].
  destruct data as [|x [|y data]]; cbn [length] in H1; try reflexivity.
  congruence.
Qed.

Lemma write_example_rejects_other_row_counts_witness :
  write_example (repeat [1%Q] 32) [PInt 0; PInt 0; PInt 0; PInt 0]
    (buffer_holding 2 40 1 0 [])
  = (Raise ValueError, buffer_holding 2 40 1 0 []).
Proof.
  apply (write_example_rejects_other_row_counts 2 40 1 0 []
           (repeat [1%Q] 32)).
  - cbn. lia.
  - cbn. lia.
  - cbn. lia.
Defined.


Section FlushMore.
Context {R : RandomSource}.
Implicit Types (g : rng_state R) (f : filesystem) (h : list obj)
  (t : list event).

(** The first steps of [flush_buffer]: the permutation is drawn for the
    collected slots and both buffers are reindexed with it. *)
Lemma flush_permutes (b : DEAPWriterBuffer.t)
    (items : list (array2 * list pyval)) g :
  holds b items ->
  let p := fst (draw_permutation R g (length items)) in
  data_buffer (permute b p) = map fst (take items p)
  /\ label_buffer (permute b p) = map stored_labels (take items p)
  /\ collected (permute b p) = length (take items p)
  /\ length (take items p) = length items
  /\ Permutation (take items p) items
  /\ holds (permute b p) (take items p).
Proof.
  intros (pad_d & pad_l & Hd & Hl & Hc & Hn) p.
  assert (Hperm : Permutation p (seq 0 (length items)))
    by apply draw_permutation_ok.
  assert (Hrange := permutation_in_range _ _ Hperm).
  assert (Hlen : length (take items p) = length items).
  { rewrite take_length by exact Hrange.
    rewrite (Permutation_length Hperm). apply length_seq. }
  assert (Ed : data_buffer (permute b p) = map fst (take items p)).
  { cbn [permute data_buffer]. rewrite Hd.
    rewrite take_app_l, take_map; [reflexivity|]. now rewrite length_map. }
  assert (El : label_buffer (permute b p) = map stored_labels (take items p)).
  { cbn [permute label_buffer]. rewrite Hl.
    rewrite take_app_l, take_map; [reflexivity|]. now rewrite length_map. }
  assert (Ec : collected (permute b p) = length (take items p)).
  { cbn [permute collected]. now rewrite Hlen. }
  repeat split; try assumption.
  - now apply take_permutation.
  - exists [], []. rewrite !app_nil_r. repeat split; assumption.
Qed.

Lemma flush_holds (b : DEAPWriterBuffer.t)
    (items : list (array2 * list pyval)) (fns : list string)
    rb g f h t written sh :
  fns <> [] ->
  nth_error h rb = Some (OBuffer b) ->
  holds b items ->
  nth_error h (writer b) = Some (OWriter (after_writes fns written sh)) ->
  exists h' t' sh',
    flush_buffer rb (mk_world g f h t)
    = (Ok tt, mk_world (snd (draw_permutation R g (length items))) f h' t')
    /\ nth_error h' rb
       = Some (OBuffer (permute b (fst (draw_permutation R g (length items)))))
    /\ nth_error h' (writer b)
       = Some (OWriter
                 (after_writes fns
                    (written
                     ++ map (record_of deap_label_names)
                          (take items
                             (fst (draw_permutation R g (length items)))))
                    sh'))
    /\ writes_of t'
       = writes_of t
         ++ map (record_of deap_label_names)
              (take items (fst (draw_permutation R g (length items)))).
Proof.
  intros Hne Hb Hholds Hw.
  destruct (flush_permutes b items g Hholds)
    as (Ed & El & Ec & Hlen & Hperm & _).
  destruct Hholds as (pad_d & pad_l & Hd & Hl & Hc & Hn).
  assert (Hneq : rb <> writer b).
  { intros E. rewrite <- E, Hb in Hw. discriminate Hw. }
  unfold flush_buffer. unfold se_bind at 1.
  rewrite (on_buffer_run get g f h t rb _ _ _ Hb eq_refl).
  rewrite list_set_same by exact Hb.
  cbv beta iota.
  unfold se_bind at 1, np_random_permutation at 1. cbn [rng fs heap trace].
  rewrite Hc.
  destruct (draw_permutation R g (length items)) as [p g'] eqn:Edraw.
  cbn [fst snd] in *.
  unfold se_bind at 1.
  rewrite (on_buffer_run (put (permute b p)) g' f h t rb _ _ _ Hb eq_refl).
  set (bp := permute b p) in *.
  set (h2 := list_set h rb (OBuffer bp)).
  assert (Hlt := nth_error_in_bounds _ _ _ Hb).
  assert (Hb2 : nth_error h2 rb = Some (OBuffer bp))
    by now apply nth_error_list_set_eq.
  assert (Hw2 : nth_error h2 (writer bp)
                = Some (OWriter (after_writes fns written sh))).
  { unfold h2. change (writer bp) with (writer b).
    rewrite nth_error_list_set_neq by exact Hneq. exact Hw. }
  destruct (BufferFacts.flush_loop bp fns rb f g' Hne (seq 0 (length items))
              h2 t written sh Hb2 Hw2)
    as (h' & t' & sh' & E & Hb' & Hw' & Ht').
  { apply Forall_forall. intros i Hi. apply in_seq in Hi.
    rewrite Ed, El, !length_map, Hlen. lia. }
  assert (Erec : map (fun i =>
                        DEAPWriter.serialize_example
                          (nth i (data_buffer bp) [])
                          (labels_np_to_dict bp (nth i (label_buffer bp) [])))
                     (seq 0 (length items))
                 = map (record_of deap_label_names) (take items p)).
  { rewrite Ed, El.
    replace (length items) with (length (map fst (take items p)))
      by now rewrite length_map.
    rewrite (BufferFacts.map_nth_combine
               (fun d l => DEAPWriter.serialize_example d
                             (labels_np_to_dict bp l)))
      by now rewrite !length_map.
    rewrite BufferFacts.combine_map_pair, map_map.
    apply map_ext. intros it. unfold record_of, labels_np_to_dict.
    cbn [fst snd]. change (label_names bp) with (label_names b).
    now rewrite Hn. }
  rewrite Erec in Hw', Ht'.
  exists h', t', sh'. split; [exact E|]. split; [exact Hb'|].
  split; [exact Hw' | exact Ht'].
Qed.

(** X11: [flush_buffer] does not empty the buffer: [collected] keeps its
    value, so flushing twice succeeds and hands every collected pair to the
    writer twice (each flush in the order of its own permutation). *)
Theorem second_flush_writes_every_record_again
    (g : rng_state R) (f : filesystem) (h : list obj) (t : list event)
    (rb : nat) (b : DEAPWriterBuffer.t) (fns : list string)
    (items : list (array2 * list pyval)) :
  fns <> [] ->
  nth_error h rb = Some (OBuffer b) ->
  holds b items ->
  nth_error h (writer b)
  = Some (OWriter (DEAPWriter.enter (DEAPWriter.init fns))) ->
  exists w',
    (flush_buffer rb ;;; flush_buffer rb)%se (mk_world g f h t) = (Ok tt, w')
    /\ Permutation (writes_of (trace w'))
         (writes_of t ++ map (record_of deap_label_names) (items ++ items)).
Proof.
  intros Hne Hb Hholds Hw. rewrite DEAPWriterFacts.enter_init in Hw.
  destruct (flush_permutes b items g Hholds)
    as (_ & _ & _ & Hlen & Hperm & Hholds1).
  destruct (flush_holds b items fns rb g f h t [] None Hne Hb Hholds Hw)
    as (h1 & t1 & sh1 & E1 & Hb1 & Hw1 & Ht1).
  set (p1 := fst (draw_permutation R g (length items))) in *.
  set (g1 := snd (draw_permutation R g (length items))) in *.
  destruct (flush_permutes (permute b p1) (take items p1) g1 Hholds1)
    as (_ & _ & _ & _ & Hperm2 & _).
  destruct (flush_holds (permute b p1) (take items p1) fns rb g1 f h1 t1
              _ sh1 Hne Hb1 Hholds1 Hw1)
    as (h2 & t2 & sh2 & E2 & _ & _ & Ht2).
  eexists. split.
  - unfold se_bind. rewrite E1. exact E2.
  - cbn [trace]. rewrite Ht2, Ht1, <- app_assoc.
    apply Permutation_app_head. rewrite map_app.
    apply Permutation_app; apply Permutation_map.
    + exact Hperm.
    + eapply Permutation_trans; [exact Hperm2 | exact Hperm].
Qed.

(** X12: [flush_buffer] replaces both buffers by their permuted collected
    slots, so after a flush the buffer has no free slot, whatever its
    capacity was: the next [write_example] raises [IndexError].  The flush
    itself has written one example per collected pair. *)
Theorem buffer_takes_nothing_after_flush
    (g : rng_state R) (f : filesystem) (h : list obj) (t : list event)
    (rb : nat) (b : DEAPWriterBuffer.t) (fns : list string)
    (items : list (array2 * list pyval)) (data : array2)
    (labels : list pyval) :
  fns <> [] ->
  nth_error h rb = Some (OBuffer b) ->
  holds b items ->
  nth_error h (writer b)
  = Some (OWriter (DEAPWriter.enter (DEAPWriter.init fns))) ->
  exists w',
    (flush_buffer rb ;;; on_buffer rb (write_example data labels))%se
      (mk_world g f h t)
    = (Raise IndexError, w')
    /\ Permutation (writes_of (trace w'))
         (writes_of t ++ map (record_of deap_label_names) items).
Proof.
  intros Hne Hb Hholds Hw. rewrite DEAPWriterFacts.enter_init in Hw.
  destruct (flush_permutes b items g Hholds)
    as (Ed & _ & Ec & Hlen & Hperm & _).
  destruct (flush_holds b items fns rb g f h t [] None Hne Hb Hholds Hw)
    as (h1 & t1 & sh1 & E1 & Hb1 & _ & Ht1).
  set (p1 := fst (draw_permutation R g (length items))) in *.
  eexists. split.
  - unfold se_bind. rewrite E1.
    apply (on_buffer_run _ _ f h1 t1 rb (permute b p1) (Raise IndexError)
             (permute b p1) Hb1).
    apply write_example_full. rewrite Ed, Ec, length_map. lia.
  - cbn [trace]. rewrite Ht1. apply Permutation_app_head.
    apply Permutation_map. exact Hperm.
Qed.

(** X13: [DEAPWriterBuffer.__exit__] flushes whatever the body did: when the
    body of the [with] block raises, the pairs collected so far are still
    written, each sample with its labels, and the exception of the body is
    the one that propagates. *)
Theorem failed_body_still_flushes {B : Type}
    (dw : nat) (item_shape label_shape : list nat) (buffer_size : Z)
    (body : nat -> SE (world R) B) (w0 w1 : world R) (rb : nat) (e : exn)
    (g : rng_state R) (f : filesystem) (h : list obj) (t : list event)
    (b : DEAPWriterBuffer.t) (fns : list string)
    (written : list DEAPWriter.example) (sh : option (list nat))
    (items : list (array2 * list pyval)) :
  fns <> [] ->
  DEAPWriterBuffer_enter dw item_shape label_shape buffer_size w0
  = (Ok rb, w1) ->
  body rb w1 = (Raise e, mk_world g f h t) ->
  nth_error h rb = Some (OBuffer b) ->
  holds b items ->
  nth_error h (writer b) = Some (OWriter (after_writes fns written sh)) ->
  exists w',
    with_ctx (DEAPWriterBuffer_enter dw item_shape label_shape buffer_size)
      flush_buffer body w0
    = (Raise e, w')
    /\ Permutation (writes_of (trace w'))
         (writes_of t ++ map (record_of deap_label_names) items).
Proof.
  intros Hne Henter Hbody Hb Hholds Hw.
  destruct (flush_permutes b items g Hholds)
    as (_ & _ & _ & _ & Hperm & _).
  destruct (flush_holds b items fns rb g f h t written sh Hne Hb Hholds Hw)
    as (h1 & t1 & sh1 & E1 & _ & _ & Ht1).
  eexists. split.
  - unfold with_ctx. rewrite Henter, Hbody, E1. reflexivity.
  - cbn [trace]. rewrite Ht1. apply Permutation_app_head.
    apply Permutation_map. exact Hperm.
Qed.

(** X14: flushing into a [DEAPWriter] opened over an empty list of files
    succeeds when nothing was collected and raises [StopIteration] -- from
    [next] on the empty rotation -- as soon as one pair was collected; no
    record is written in either case. *)
Theorem flush_needs_a_destination
    (g : rng_state R) (f : filesystem) (h : list obj) (t : list event)
    (rb : nat) (b : DEAPWriterBuffer.t)
    (items : list (array2 * list pyval)) :
  nth_error h rb = Some (OBuffer b) ->
  holds b items ->
  nth_error h (writer b)
  = Some (OWriter (DEAPWriter.enter (DEAPWriter.init []))) ->
  exists w',
    flush_buffer rb (mk_world g f h t)
    = (match items with [] => Ok tt | _ :: _ => Raise StopIteration end, w')
    /\ trace w' = t.
Proof.
  intros Hb Hholds Hw.
  destruct (flush_permutes b items g Hholds)
    as (Ed & El & _ & Hlen & _ & _).
  destruct Hholds as (pad_d & pad_l & Hd & Hl & Hc & Hn).
  assert (Hneq : rb <> writer b).
  { intros E. rewrite <- E, Hb in Hw. discriminate Hw. }
  unfold flush_buffer. unfold se_bind at 1.
  rewrite (on_buffer_run get g f h t rb _ _ _ Hb eq_refl).
  rewrite list_set_same by exact Hb.
  cbv beta iota.
  unfold se_bind at 1, np_random_permutation at 1. cbn [rng fs heap trace].
  rewrite Hc.
  destruct (draw_permutation R g (length items)) as [p g'] eqn:Edraw.
  cbn [fst snd] in *.
  unfold se_bind at 1.
  rewrite (on_buffer_run (put (permute b p)) g' f h t rb _ _ _ Hb eq_refl).
  set (bp := permute b p) in *.
  set (h2 := list_set h rb (OBuffer bp)).
  assert (Hlt := nth_error_in_bounds _ _ _ Hb).
  assert (Hb2 : nth_error h2 rb = Some (OBuffer bp))
    by now apply nth_error_list_set_eq.
  assert (Hw2 : nth_error h2 (writer bp)
                = Some (OWriter (DEAPWriter.enter (DEAPWriter.init [])))).
  { unfold h2. change (writer bp) with (writer b).
    rewrite nth_error_list_set_neq by exact Hneq. exact Hw. }
  destruct items as [|it items].
  - cbn [length seq for_each]. eexists. split; reflexivity.
  - cbn [length seq for_each]. unfold se_bind at 1. unfold se_bind at 1.
    rewrite (on_buffer_run get g' f h2 t rb _ _ _ Hb2 eq_refl).
    rewrite list_set_same by exact Hb2.
    assert (H0d : (0 < length (data_buffer bp))%nat)
      by (rewrite Ed, length_map, Hlen; cbn; lia).
    assert (H0l : (0 < length (label_buffer bp))%nat)
      by (rewrite El, length_map, Hlen; cbn; lia).
    rewrite (se_bind_lift_ok _ _ _ _
               (getitem_nth (A := array2) _ _ [] H0d)).
    rewrite (se_bind_lift_ok _ _ _ _ (getitem_nth _ _ [] H0l)).
    unfold DEAPWriter_write_example. unfold se_bind at 1.
    rewrite (on_writer_run get g' f h2 t (writer bp) _ _ _ Hw2 eq_refl).
    rewrite list_set_same by exact Hw2.
    unfold se_bind at 1.
    erewrite (on_writer_run _ g' f h2 t (writer bp) _ _ _ Hw2);
      [|reflexivity].
    eexists. split; reflexivity.
Qed.

End FlushMore.

Lemma second_flush_writes_every_record_again_witness :
  exists w',
    (flush_buffer 1 ;;; flush_buffer 1)%se
      (mk_world (R := reversing_source) tt empty_filesystem
         [OWriter (DEAPWriter.enter (DEAPWriter.init ["out"%string]));
          OBuffer (buffer_holding 2 1 1 0
                     [([[1%Q]], [PInt 0; PInt 0; PInt 0; PInt 0])])] [])
    = (Ok tt, w')
    /\ Permutation (writes_of (trace w'))
         (writes_of []
          ++ map (record_of deap_label_names)
               ([([[1%Q]], [PInt 0; PInt 0; PInt 0; PInt 0])]
                ++ [([[1%Q]], [PInt 0; PInt 0; PInt 0; PInt 0])])).
Proof.
  apply (second_flush_writes_every_record_again (R := reversing_source)
           tt empty_filesystem
           [OWriter (DEAPWriter.enter (DEAPWriter.init ["out"%string]));
            OBuffer (buffer_holding 2 1 1 0
                       [([[1%Q]], [PInt 0; PInt 0; PInt 0; PInt 0])])] []
           1%nat (buffer_holding 2 1 1 0
                    [([[1%Q]], [PInt 0; PInt 0; PInt 0; PInt 0])])
           ["out"%string]).
  - discriminate.
  - reflexivity.
  - eexists. eexists. repeat split; reflexivity.
  - reflexivity.
Defined.

Lemma buffer_takes_nothing_after_flush_witness :
  exists w',
    (flush_buffer 1 ;;;
     on_buffer 1 (write_example [[2%Q]] [PInt 1; PInt 1; PInt 1; PInt 1]))%se
      (mk_world (R := reversing_source) tt empty_filesystem
         [OWriter (DEAPWriter.enter (DEAPWriter.init ["out"%string]));
          OBuffer (buffer_holding 2 1 1 0
                     [([[1%Q]], [PInt 0; PInt 0; PInt 0; PInt 0])])] [])
    = (Raise IndexError, w')
    /\ Permutation (writes_of (trace w'))
         (writes_of []
          ++ map (record_of deap_label_names)
               [([[1%Q]], [PInt 0; PInt 0; PInt 0; PInt 0])]).
Proof.
  apply (buffer_takes_nothing_after_flush (R := reversing_source)
           tt empty_filesystem
           [OWriter (DEAPWriter.enter (DEAPWriter.init ["out"%string]));
            OBuffer (buffer_holding 2 1 1 0
                       [([[1%Q]], [PInt 0; PInt 0; PInt 0; PInt 0])])] []
           1%nat (buffer_holding 2 1 1 0
                    [([[1%Q]], [PInt 0; PInt 0; PInt 0; PInt 0])])
           ["out"%string]).
  - discriminate.
  - reflexivity.
  - eexists. eexists. repeat split; reflexivity.
  - reflexivity.
Defined.

Lemma failed_body_still_flushes_witness :
  exists w',
    with_ctx (B := unit) (DEAPWriterBuffer_enter 0 [1; 1]%nat [4%nat] 1)
      flush_buffer
      (fun rb =>
         (on_buffer rb
            (write_example [[1%Q]] [PInt 0; PInt 0; PInt 0; PInt 0]) ;;;
          raise OSError)%se)
      (mk_world (R := reversing_source) tt empty_filesystem
         [OWriter (DEAPWriter.enter (DEAPWriter.init ["out"%string]))] [])
    = (Raise OSError, w')
    /\ Permutation (writes_of (trace w'))
         (writes_of []
          ++ map (record_of deap_label_names)
               [([[1%Q]], [PInt 0; PInt 0; PInt 0; PInt 0])]).
Proof.
  apply (failed_body_still_flushes (R := reversing_source) (B := unit)
           0%nat [1; 1]%nat [4%nat] 1
           (fun rb =>
              (on_buffer rb
                 (write_example [[1%Q]] [PInt 0; PInt 0; PInt 0; PInt 0]) ;;;
               raise OSError)%se)
           (mk_world (R := reversing_source) tt empty_filesystem
              [OWriter (DEAPWriter.enter (DEAPWriter.init ["out"%string]))]
              [])
           (mk_world (R := reversing_source) tt empty_filesystem
              [OWriter (DEAPWriter.enter (DEAPWriter.init ["out"%string]));
               OBuffer (buffer_holding 1 1 1 0 [])] [])
           1%nat OSError tt empty_filesystem
           [OWriter (DEAPWriter.enter (DEAPWriter.init ["out"%string]));
            OBuffer (buffer_holding 1 1 1 0
                       [([[1%Q]], [PInt 0; PInt 0; PInt 0; PInt 0])])] []
           (buffer_holding 1 1 1 0
              [([[1%Q]], [PInt 0; PInt 0; PInt 0; PInt 0])])
           ["out"%string] [] None).
  - discriminate.
  - reflexivity.
  - reflexivity.
  - reflexivity.
  - eexists. eexists. repeat split; reflexivity.
  - reflexivity.
Defined.

Lemma flush_needs_a_destination_witness :
  exists w',
    flush_buffer 1
      (mk_world (R := reversing_source) tt empty_filesystem
         [OWriter (DEAPWriter.enter (DEAPWriter.init []));
          OBuffer (buffer_holding 2 1 1 0
                     [([[1%Q]], [PInt 0; PInt 0; PInt 0; PInt 0])])] [])
    = (Raise StopIteration, w')
    /\ trace w' = [].
Proof.
  apply (flush_needs_a_destination (R := reversing_source)
           tt empty_filesystem
           [OWriter (DEAPWriter.enter (DEAPWriter.init []));
            OBuffer (buffer_holding 2 1 1 0
                       [([[1%Q]], [PInt 0; PInt 0; PInt 0; PInt 0])])] []
           1%nat (buffer_holding 2 1 1 0
                    [([[1%Q]], [PInt 0; PInt 0; PInt 0; PInt 0])])
           [([[1%Q]], [PInt 0; PInt 0; PInt 0; PInt 0])]).
  - reflexivity.
  - eexists. eexists. repeat split; reflexivity.
  - reflexivity.
Defined.

End BufferEdgeFacts.

(** ** DEAPWriter: a session from open to close *)

Module SessionFacts.
Import DEAPWriter WriterSpec SessionSpec.

Section Session.
Context {R : RandomSource}.
Implicit Types (g : rng_state R) (f : filesystem) (h : list obj)
  (t : list event).

Lemma for_each_log {X : Type} (F : X -> event) (xs : list X) g f h t :
  for_each xs (fun x => log (F x)) (mk_world g f h t)
  = (Ok tt, mk_world g f h (t ++ map F xs)).
Proof.
  revert t. induction xs as [|x xs IH]; intros t.
  - cbn [for_each map]. now rewrite app_nil_r.
  - cbn [for_each map]. unfold se_bind, log at 1. cbn [rng fs heap trace].
    rewrite IH, <- app_assoc. reflexivity.
Qed.

Lemma DEAPWriter_enter_run (fns : list string) g f h t :
  DEAPWriter_enter fns (mk_world g f h t)
  = (Ok (length h),
     mk_world g f (h ++ [OWriter (enter (init fns))]) (t ++ map EOpen fns)).
Proof.
  unfold DEAPWriter_enter, se_bind, alloc. cbn [rng fs heap trace].
  rewrite (on_writer_run (fun dw => (Ok tt, enter dw)) g f
             (h ++ [OWriter (init fns)]) t (length h) (init fns) (Ok tt)
             (enter (init fns)))
    by (try reflexivity; rewrite nth_error_app2, Nat.sub_diag by lia;
        reflexivity).
  rewrite list_set_app_mid, for_each_log. reflexivity.
Qed.



Lemma map_fst_combine_same {A B : Type} (l : list A) (m : list B) :
  length l = length m -> map fst (combine l m) = l.
Proof.
  revert m. induction l as [|a l IH]; intros [|b m] H; cbn in *;
    try discriminate; [reflexivity|].
  f_equal. apply IH. lia.
Qed.

Lemma DEAPWriter_exit_run (fns : list string) (written : list example) sh
    rw g f h t :
  nth_error h rw = Some (OWriter (after_writes fns written sh)) ->
  DEAPWriter_exit rw (mk_world g f h t)
  = (Ok tt,
     mk_world g f (list_set h rw (OWriter (closed_after fns written sh)))
       (t ++ map EClose fns)).
Proof.
  intros Hr. unfold DEAPWriter_exit, se_bind.
  rewrite (on_writer_run get g f h t rw _ _ _ Hr eq_refl).
  rewrite list_set_same by exact Hr.
  unfold exit, after_writes at 1. cbn [writers filenames].
  erewrite (on_writer_run _ g f h t rw _ _ _ Hr); [|reflexivity].
  unfold after_writes at 2 3. cbn [writers filenames].
  rewrite map_fst_combine_same by now rewrite length_map, length_seq.
  rewrite for_each_log. f_equal. f_equal. f_equal. f_equal.
  unfold closed_after, after_writes.
  cbn [filenames records_processed writer_iterator shape].
  f_equal. f_equal.
  rewrite length_map, length_seq, Nat.min_id.
  rewrite firstn_all2, skipn_all2, app_nil_r
    by (rewrite length_map, length_seq; lia).
  rewrite map_map. reflexivity.
Qed.


End Session.


End SessionFacts.

(** ** Cutting a trial: windows and equal splits *)

Module SplitFacts.
Import MoreItertools WindowSpec.

Lemma map_result_raises_only {A B : Type} (f : A -> result B) (e0 : exn)
    (l : list A) :
  (forall x e, In x l -> f x = Raise e -> e = e0) ->
  forall e, map_result f l = Raise e -> e = e0.
Proof.
  induction l as [|x l IH]; intros Hf e H; cbn [map_result] in H;
    [discriminate|].
  destruct (f x) as [y|e1] eqn:Ex.
  - destruct (map_result f l) as [ys|e2] eqn:El; [discriminate|].
    injection H as <-. apply IH; [|reflexivity].
    intros x' e' Hin. apply Hf. now right.
  - injection H as <-. apply (Hf x); [now left | exact Ex].
Qed.

Lemma map_result_some_raise {A B : Type} (f : A -> result B) (l : list A) :
  Exists (fun x => exists e, f x = Raise e) l ->
  exists e, map_result f l = Raise e.
Proof.
  induction 1 as [x l [e Hx]|x l _ [e IH]]; cbn [map_result].
  - rewrite Hx. now exists e.
  - destruct (f x) as [y|e1]; [|now exists e1].
    rewrite IH. now exists e.
Qed.

Lemma map_result_map_ok {A B : Type} (f : A -> result B) (g : A -> B)
    (l : list A) :
  (forall x, In x l -> f x = Ok (g x)) -> map_result f l = Ok (map g l).
Proof.
  induction l as [|x l IH]; intros H; [reflexivity|].
  cbn [map_result map]. rewrite (H x) by now left.
  rewrite IH by (intros y Hy; apply H; now right). reflexivity.
Qed.

Lemma map_result_map {A B C : Type} (f : B -> result C) (h : A -> B)
    (l : list A) :
  map_result f (map h l) = map_result (fun x => f (h x)) l.
Proof.
  induction l as [|x l IH]; [reflexivity|].
  cbn [map map_result]. now rewrite IH.
Qed.

Lemma row_at_raises_index (data : array2) (p : option Z) (e : exn) :
  row_at data p = Raise e -> e = IndexError.
Proof.
  unfold row_at, getitem. destruct p as [z|]; [|congruence].
  destruct ((0 <=? z) && (z <? Z.of_nat (length data))).
  - destruct (nth_error data (Z.to_nat z)); congruence.
  - destruct ((- Z.of_nat (length data) <=? z) && (z <? 0)); [|congruence].
    destruct (nth_error data (Z.to_nat (Z.of_nat (length data) + z)));
      congruence.
Qed.

Lemma window_rows_raise_index (data : array2) (w : list (option Z))
    (e : exn) :
  map_result (row_at data) w = Raise e -> e = IndexError.
Proof.
  apply map_result_raises_only. intros p e' _. apply row_at_raises_index.
Qed.

(** A window that holds the fill value cannot be cut out of a trial. *)
Lemma split_with_windows_padded (data : array2)
    (windows : list (list (option Z))) :
  Exists (fun w => In None w) windows ->
  split_with_windows data windows = Raise IndexError.
Proof.
  intros Hex. unfold split_with_windows.
  destruct (map_result_some_raise
              (fun w => map_result (row_at data) w) windows) as [e He].
  { eapply Exists_impl; [|exact Hex]. intros w Hin. cbn beta.
    apply map_result_some_raise. apply Exists_exists.
    exists None. split; [exact Hin|]. now exists IndexError. }
  rewrite He.
  assert (Hidx : e = IndexError).
  { eapply (map_result_raises_only _ IndexError); [|exact He].
    intros w e' _. apply window_rows_raise_index. }
  now rewrite Hidx.
Qed.

Lemma transform_labels_returns (self : LabelTransformer.t)
    (labels : list pyval) (return_np : bool) :
  LabelTransformer.valence_classes self <> [] ->
  (4 <= length labels)%nat ->
  exists out, LabelTransformer.transform_labels self labels return_np = Ok out.
Proof.
  intros Hne Hlen.
  destruct labels as [|l0 [|l1 [|l2 [|l3 rest]]]]; cbn [length] in Hlen;
    try lia.
  unfold LabelTransformer.transform_labels, bind, getitem. cbn [nth_error].
  destruct (ShuffleFacts.transform_channel_returns _ l0 Hne) as [o0 ->].
  destruct (ShuffleFacts.transform_channel_returns _ l1 Hne) as [o1 ->].
  destruct (ShuffleFacts.transform_channel_returns _ l2 Hne) as [o2 ->].
  destruct (ShuffleFacts.transform_channel_returns _ l3 Hne) as [o3 ->].
  destruct return_np; eexists; reflexivity.
Qed.

Section Pipeline.
Context {R : RandomSource}.
Variables dwt_alpha fft : array2 -> array2.

(** X16: when some index window holds the fill value [None],
    [process_file_subject_dependent] fails on its first trial: cutting the
    trial raises [IndexError] before any sample reaches a buffer, and the
    heap, the counter and the trace are left as they were. *)
Theorem padded_window_stops_the_first_trial
    (trial : array2) (rest : array3) (trial_labels : list pyval)
    (other_labels : list (list pyval))
    (train_writer test_writer current_sample : nat)
    (validation_indices : list Z) (target_windows : list (list (option Z)))
    (trim_samples : Z) (valence arousal dominance liking : Z)
    (axes_order : string) (processing : option string) (w : world R) :
  0 < valence -> 0 < arousal -> 0 < dominance -> 0 < liking ->
  (4 <= length trial_labels)%nat ->
  Exists (fun window => In None window) target_windows ->
  process_subject_trials R dwt_alpha fft (trial :: rest)
    (trial_labels :: other_labels) train_writer test_writer current_sample
    validation_indices target_windows trim_samples
    (valence, arousal, dominance, liking) axes_order processing w
  = (Raise IndexError, w).
Proof.
  intros Hv Ha Hd Hl Hlen Hpad.
  destruct (ShuffleFacts.init_returns valence arousal dominance liking
              Hv Ha Hd Hl) as (self & Einit & Hcls & _).
  unfold process_subject_trials.
  rewrite (se_bind_lift_ok _ _ _ _ Einit). cbv zeta.
  rewrite trim_length, length_map. cbn [length seq for_each].
  unfold se_bind at 1.
  assert (Hd0 : exists ed,
             getitem (trim trim_samples (map swapaxes (trial :: rest))) 0
             = Ok ed).
  { unfold trim. destruct (0 <? trim_samples); eexists; reflexivity. }
  destruct Hd0 as [ed Ed].
  rewrite (se_bind_lift_ok _ _ _ _ Ed).
  rewrite (se_bind_lift_ok _ _ _ _ (eq_refl : getitem (trial_labels :: other_labels) 0 = Ok trial_labels)).
  destruct (transform_labels_returns self trial_labels true Hcls Hlen)
    as [out Eout].
  rewrite (se_bind_lift_ok _ _ _ _ Eout).
  rewrite (split_with_windows_padded _ _ Hpad).
  reflexivity.
Qed.

End Pipeline.

Lemma padded_window_stops_the_first_trial_witness :
  process_subject_trials identity_source (fun a => a) (fun a => a)
    ([[1; 2; 3]%Q] :: []) ([PFloat 5; PFloat 5; PFloat 5; PFloat 5] :: [])
    0 1 2 [] [[Some 0; Some 1]; [Some 2; None]] 0 (2, 2, 2, 2)
    "sensors-first" None
    (mk_world (R := identity_source) tt empty_filesystem [] [])
  = (Raise IndexError,
     mk_world (R := identity_source) tt empty_filesystem [] []).
Proof.
  apply (padded_window_stops_the_first_trial (R := identity_source)
           (fun a => a) (fun a => a)).
  - lia.
  - lia.
  - lia.
  - lia.
  - cbn. lia.
  - right. left. right. now left.
Defined.

(** ** The last window *)

Lemma window_at_padded (T n s i : nat) :
  (0 < n)%nat ->
  In None (window_at T n s i) <-> (T < i * s + n)%nat.
Proof.
  intros Hn. unfold window_at. rewrite in_map_iff. split.
  - intros (x & Hx & Hin). apply in_seq in Hin. unfold cell in Hx.
    destruct (Nat.ltb_spec x T); [discriminate | lia].
  - intros Hlt. exists (i * s + n - 1)%nat. split.
    + unfold cell. destruct (Nat.ltb_spec (i * s + n - 1) T); [lia|].
      reflexivity.
    + apply in_seq. lia.
Qed.

(** X17: for a step of at most the window length and a timeline of at least
    one window, [windowed] pads a window with [None] exactly when the step
    does not divide the timeline length minus the window length. *)
Theorem last_window_padded_iff_step_misses_the_end (T n s : nat) :
  (0 < s <= n)%nat -> (n <= T)%nat ->
  exists windows,
    windowed (map Some (py_range (Z.of_nat T))) (Z.of_nat n) None
      (PInt (Z.of_nat s)) = Ok windows
    /\ (Exists (fun window => In None window) windows
        <-> ((T - n) mod s <> 0)%nat).
Proof.
  intros [Hs Hsn] HnT.
  rewrite (WindowedFacts.windowed_timeline (Z.of_nat T) (Z.of_nat n)
             (Z.of_nat s)) by lia.
  rewrite !Nat2Z.id. eexists. split; [reflexivity|].
  rewrite Exists_map, Exists_exists.
  unfold window_count, padding_length.
  destruct (Nat.eqb_spec T 0) as [?|_]; [lia|].
  destruct (Nat.ltb_spec T n) as [?|_]; [lia|].
  assert (Hp : (if (n <=? s)%nat then (n - 1)%nat else (s - 1)%nat)
               = (s - 1)%nat)
    by (destruct (Nat.leb_spec n s); lia).
  rewrite Hp.
  assert (Hq := Nat.div_mod_eq (T - n + (s - 1)) s).
  assert (Hr := Nat.mod_upper_bound (T - n + (s - 1)) s ltac:(lia)).
  assert (Hd := Nat.div_mod_eq (T - n) s).
  assert (Hm := Nat.mod_upper_bound (T - n) s ltac:(lia)).
  set (q := ((T - n + (s - 1)) / s)%nat) in *.
  set (d := ((T - n) / s)%nat) in *.
  set (m := ((T - n) mod s)%nat) in *.
  split.
  - intros (i & Hi & Hin). apply in_seq in Hi.
    apply window_at_padded in Hin; [|lia].
    intros Hm0. rewrite Hm0 in Hd.
    assert (q = d) by nia. nia.
  - intros Hm0. exists q. split; [apply in_seq; lia|].
    apply window_at_padded; [lia|].
    assert (q = S d) by nia. nia.
Qed.

Lemma last_window_padded_iff_step_misses_the_end_witness :
  exists windows,
    windowed (map Some (py_range (Z.of_nat 6))) (Z.of_nat 3) None
      (PInt (Z.of_nat 2)) = Ok windows
    /\ (Exists (fun window => In None window) windows
        <-> ((6 - 3) mod 2 <> 0)%nat).
Proof.
  apply (last_window_padded_iff_step_misses_the_end 6 3 2); lia.
Defined.

(** ** Non-overlapping windows against [np.split] *)

Lemma skipn_cons_nth {A : Type} (l : list A) (d : A) (a : nat) :
  (a < length l)%nat -> skipn a l = nth a l d :: skipn (S a) l.
Proof.
  revert a. induction l as [|x l IH]; intros [|a] H; cbn [length] in H;
    try lia; [reflexivity|].
  cbn [skipn nth]. rewrite (IH a) by lia. reflexivity.
Qed.

Lemma chunk_nth {A : Type} (l : list A) (d : A) (n a : nat) :
  (a + n <= length l)%nat ->
  firstn n (skipn a l) = map (fun x => nth x l d) (seq a n).
Proof.
  revert a. induction n as [|n IH]; intros a H; [reflexivity|].
  rewrite (skipn_cons_nth l d a) by lia. cbn [firstn seq map]. f_equal.
  apply IH. lia.
Qed.

Lemma firstn_plus {A : Type} (e k : nat) (l : list A) :
  firstn (e + k) l = firstn e l ++ firstn k (skipn e l).
Proof.
  revert l. induction e as [|e IH]; intros [|x l]; cbn [Nat.add firstn skipn app];
    try reflexivity.
  - now rewrite firstn_nil.
  - now rewrite IH.
Qed.

Lemma concat_chunks {A : Type} (e : nat) (l : list A) (k a : nat) :
  concat (map (fun i => firstn e (skipn (i * e) l)) (seq a k))
  = firstn (k * e) (skipn (a * e) l).
Proof.
  revert a. induction k as [|k IH]; intros a; [reflexivity|].
  cbn [seq map concat]. rewrite IH. cbn [Nat.mul].
  rewrite firstn_plus, skipn_skipn. reflexivity.
Qed.

(** X18: when [np.split] returns, it returns as many parts as asked for, all
    of the same length, and concatenating them gives back the array. *)
Theorem np_split_round_trip (ary : array2) (sections : Z)
    (parts : list array2) :
  np_split ary sections = Ok parts ->
  concat parts = ary
  /\ Z.of_nat (length parts) = sections
  /\ Forall (fun part => (length part * length parts)%nat = length ary) parts.
Proof.
  unfold np_split.
  destruct (Z.eqb_spec sections 0) as [|Hne]; [discriminate|].
  destruct (Z.eqb_spec (Z.of_nat (length ary) mod sections) 0) as [Hmod|];
    [|discriminate].
  cbn [negb].
  destruct (Z.ltb_spec sections 0) as [|Hpos]; [discriminate|].
  intros H. injection H as <-.
  set (k := Z.to_nat sections).
  assert (Hk : (0 < k)%nat) by (unfold k; lia).
  assert (Hlen : (length ary = (length ary / k) * k)%nat).
  { assert (Hz : Z.of_nat (length ary)
                 = sections * (Z.of_nat (length ary) / sections))
      by (apply Z.div_exact; lia).
    assert (Hn : (length ary mod k = 0)%nat).
    { apply Nat2Z.inj. rewrite Nat2Z.inj_mod. unfold k.
      rewrite Z2Nat.id by lia. exact Hmod. }
    assert (Hdm := Nat.div_mod_eq (length ary) k). lia. }
  set (e := (length ary / k)%nat) in *.
  split; [|split].
  - rewrite concat_chunks. cbn [Nat.mul skipn].
    replace (k * e)%nat with (length ary) by lia. apply firstn_all.
  - rewrite length_map, length_seq. unfold k. lia.
  - apply Forall_forall. intros part Hin.
    apply in_map_iff in Hin. destruct Hin as (i & <- & Hi).
    apply in_seq in Hi. rewrite length_map, length_seq, length_firstn,
      length_skipn.
    fold k. nia.
Qed.

Lemma np_split_round_trip_witness :
  concat [[[1%Q]; [2%Q]]; [[3%Q]; [4%Q]]] = [[1%Q]; [2%Q]; [3%Q]; [4%Q]]
  /\ Z.of_nat (length [[[1%Q]; [2%Q]]; [[3%Q]; [4%Q]]]) = 2.
Proof.
  destruct (np_split_round_trip [[1%Q]; [2%Q]; [3%Q]; [4%Q]] 2
              [[[1%Q]; [2%Q]]; [[3%Q]; [4%Q]]] eq_refl) as (H1 & H2 & _).
  split; [exact H1 | exact H2].
Defined.

Section NoOverlap.

(** X19: without a window step, and when the window length divides the trial
    length, [process_directory] computes [trial length / window length]
    windows, none padded, and cutting a trial with them
    ([split_with_windows], the subject-dependent branch) gives the same
    samples as [np.split] into that many parts (the subject-independent
    branch). *)
Theorem windows_without_step_cut_like_np_split
    (target_seconds : pyval) (trim_samples : Z) (data : array2) :
  let samples_per_chunk := py_int (py_mul (PInt 128) target_seconds) in
  let total_samples_per_experiment := 63 * 128 - trim_samples in
  0 < samples_per_chunk ->
  0 < total_samples_per_experiment ->
  total_samples_per_experiment mod samples_per_chunk = 0 ->
  Z.of_nat (length data) = total_samples_per_experiment ->
  exists windows,
    compute_windows target_seconds trim_samples None = Ok windows
    /\ Z.of_nat (length windows)
       = total_samples_per_experiment / samples_per_chunk
    /\ split_with_windows data windows
       = np_split data (Z.of_nat (length windows)).
Proof.
  intros n T Hn HT Hmod Hlen.
  unfold compute_windows. fold n. fold T.
  rewrite (WindowedFacts.windowed_timeline T n n Hn Hn).
  set (T' := Z.to_nat T). set (n' := Z.to_nat n).
  set (k := Z.to_nat (T / n)).
  assert (Hdiv : T = n * (T / n)) by (apply Z.div_exact; lia).
  assert (Hkpos : 0 < T / n) by nia.
  assert (HT' : (T' = n' * k)%nat).
  { unfold T', n', k. rewrite <- Z2Nat.inj_mul by lia. now rewrite <- Hdiv. }
  assert (Hn' : (0 < n')%nat) by (unfold n'; lia).
  assert (Hk : (0 < k)%nat) by (unfold k; lia).
  assert (Hcount : window_count T' n' n' = k).
  { unfold window_count, padding_length.
    destruct (Nat.eqb_spec T' 0) as [?|_]; [nia|].
    destruct (Nat.ltb_spec T' n') as [?|_]; [nia|].
    rewrite Nat.leb_refl.
    assert (Hq : ((T' - n' + (n' - 1)) / n' = k - 1)%nat).
    { symmetry. apply (Nat.div_unique _ _ _ (n' - 1)); nia. }
    rewrite Hq. lia. }
  rewrite Hcount.
  eexists. split; [reflexivity|].
  rewrite length_map, length_seq.
  split; [unfold k; lia|].
  assert (Hdata : length data = T') by (unfold T'; lia).
  unfold split_with_windows. rewrite map_result_map.
  rewrite (map_result_map_ok _
             (fun i => firstn n' (skipn (i * n') data))).
  - unfold np_split.
    destruct (Z.eqb_spec (Z.of_nat k) 0) as [?|_]; [lia|].
    assert (Hm : Z.of_nat (length data) mod Z.of_nat k = 0).
    { rewrite Hdata, HT', Nat2Z.inj_mul. apply Z.mod_mul. lia. }
    rewrite Hm. cbn [Z.eqb negb].
    destruct (Z.ltb_spec (Z.of_nat k) 0) as [?|_]; [lia|].
    rewrite Nat2Z.id.
    replace (length data / k)%nat with n'
      by (rewrite Hdata, HT'; symmetry; apply Nat.div_mul; lia).
    reflexivity.
  - intros i Hi. apply in_seq in Hi. unfold window_at.
    rewrite map_result_map.
    rewrite (map_result_map_ok _ (fun x => nth x data [])).
    + f_equal. symmetry. apply chunk_nth. nia.
    + intros x Hx. apply in_seq in Hx. unfold cell.
      destruct (Nat.ltb_spec x T'); [|nia].
      unfold row_at.
      destruct (Z.leb_spec 0 (Z.of_nat x)); [|lia].
      destruct (Z.ltb_spec (Z.of_nat x) (Z.of_nat (length data))); [|lia].
      cbn [andb]. rewrite Nat2Z.id. apply getitem_nth. lia.
Qed.

End NoOverlap.

Lemma windows_without_step_cut_like_np_split_witness :
  exists windows,
    compute_windows (PFloat (1 # 64)) 8060 None = Ok windows
    /\ Z.of_nat (length windows)
       = (63 * 128 - 8060) / py_int (py_mul (PInt 128) (PFloat (1 # 64)))
    /\ split_with_windows [[1%Q]; [2%Q]; [3%Q]; [4%Q]] windows
       = np_split [[1%Q]; [2%Q]; [3%Q]; [4%Q]] (Z.of_nat (length windows)).
Proof.
  apply (windows_without_step_cut_like_np_split (PFloat (1 # 64)) 8060
           [[1%Q]; [2%Q]; [3%Q]; [4%Q]]).
  - reflexivity.
  - reflexivity.
  - reflexivity.
  - reflexivity.
Defined.



End SplitFacts.

(** ** The manifest *)

Module ManifestFacts.
Import ManifestSpec.

Lemma se_bind_cases {S A B : Type} (m : SE S A) (k : A -> SE S B) (s : S)
    (P : result B * S -> Prop) :
  (forall a s1, m s = (Ok a, s1) -> P (k a s1)) ->
  (forall e s1, m s = (Raise e, s1) -> P (Raise e, s1)) ->
  P (se_bind m k s).
Proof.
  intros Hok Hraise. unfold se_bind.
  destruct (m s) as [[a|e] s1]; [now apply Hok | now apply Hraise].
Qed.

Section DumpsNothing.
Context {R : RandomSource}.

Lemma dn_ret {A : Type} (a : A) : dumps_nothing (R := R) (ret a).
Proof. intros w. reflexivity. Qed.

Lemma dn_raise {A : Type} (e : exn) :
  dumps_nothing (R := R) (raise e : SE (world R) A).
Proof. intros w. reflexivity. Qed.

Lemma dn_lift {A : Type} (r : result A) : dumps_nothing (R := R) (lift_result r).
Proof. intros w. reflexivity. Qed.

Lemma dn_get : dumps_nothing (R := R) get.
Proof. intros w. reflexivity. Qed.

Lemma dn_log (e : event) : is_dump e = false -> dumps_nothing (R := R) (log e).
Proof.
  intros He w. unfold log, dumps_of. cbn [snd trace].
  rewrite filter_app. cbn [filter]. rewrite He. apply app_nil_r.
Qed.

Lemma dn_alloc (o : obj) : dumps_nothing (R := R) (alloc o).
Proof. intros w. reflexivity. Qed.

Lemma dn_on_writer {A : Type} (r : nat) (m : SE DEAPWriter.t A) :
  dumps_nothing (R := R) (on_writer r m).
Proof.
  intros w. unfold on_writer.
  destruct (nth_error (heap w) r) as [[dw|b|z]|]; try reflexivity.
  destruct (m dw). reflexivity.
Qed.

Lemma dn_on_buffer {A : Type} (r : nat) (m : SE DEAPWriterBuffer.t A) :
  dumps_nothing (R := R) (on_buffer r m).
Proof.
  intros w. unfold on_buffer.
  destruct (nth_error (heap w) r) as [[dw|b|z]|]; try reflexivity.
  destruct (m b). reflexivity.
Qed.

Lemma dn_on_array0 {A : Type} (r : nat) (m : SE Z A) :
  dumps_nothing (R := R) (on_array0 r m).
Proof.
  intros w. unfold on_array0.
  destruct (nth_error (heap w) r) as [[dw|b|z]|]; try reflexivity.
  destruct (m z). reflexivity.
Qed.

Lemma dn_permutation (n : nat) :
  dumps_nothing (R := R) (np_random_permutation n).
Proof.
  intros w. unfold np_random_permutation.
  destruct (draw_permutation R (rng w) n). reflexivity.
Qed.

Lemma dn_bind {A B : Type} (m : SE (world R) A) (k : A -> SE (world R) B) :
  dumps_nothing m -> (forall a, dumps_nothing (k a)) ->
  dumps_nothing (se_bind m k).
Proof.
  intros Hm Hk w. unfold se_bind. specialize (Hm w).
  destruct (m w) as [[a|e] w1]; cbn [snd] in *.
  - rewrite <- Hm. apply Hk.
  - exact Hm.
Qed.

Lemma dn_for_each {A : Type} (xs : list A) (body : A -> SE (world R) unit) :
  (forall x, dumps_nothing (body x)) -> dumps_nothing (for_each xs body).
Proof.
  intros Hb. induction xs as [|x xs IH]; cbn [for_each].
  - apply dn_ret.
  - apply dn_bind; [apply Hb | intros _; exact IH].
Qed.

Lemma dn_with_ctx {X B : Type} (enter : SE (world R) X)
    (exit_ : X -> SE (world R) unit) (body : X -> SE (world R) B) :
  dumps_nothing enter -> (forall x, dumps_nothing (exit_ x)) ->
  (forall x, dumps_nothing (body x)) ->
  dumps_nothing (with_ctx enter exit_ body).
Proof.
  intros He Hx Hb w. unfold with_ctx. specialize (He w).
  destruct (enter w) as [[x|e] w1]; cbn [snd] in *; [|exact He].
  specialize (Hb x w1). destruct (body x w1) as [r w2]. cbn [snd] in Hb.
  specialize (Hx x w2). destruct (exit_ x w2) as [[u|e'] w3];
    cbn [snd] in *; congruence.
Qed.

Ltac dn :=
  repeat first
    [ apply dn_ret | apply dn_raise | apply dn_lift | apply dn_get
    | apply dn_alloc | apply dn_on_writer | apply dn_on_buffer
    | apply dn_on_array0 | apply dn_permutation
    | apply dn_log; reflexivity
    | apply dn_bind; [|intro]
    | apply dn_for_each; intro
    | apply dn_with_ctx; [|intro|intro]
    | match goal with
      | |- dumps_nothing (match ?x with _ => _ end) => destruct x
      end
    | progress cbv zeta ].

Lemma dn_shuffle {A : Type} (l : list A) : dumps_nothing (R := R) (shuffle l).
Proof. unfold shuffle. dn. Qed.

Lemma dn_choice (a size : Z) : dumps_nothing (R := R) (np_random_choice a size).
Proof. unfold np_random_choice. dn. Qed.

Lemma dn_writer_enter (fns : list string) :
  dumps_nothing (R := R) (DEAPWriter_enter fns).
Proof. unfold DEAPWriter_enter. dn. Qed.

Lemma dn_writer_exit (r : nat) : dumps_nothing (R := R) (DEAPWriter_exit r).
Proof. unfold DEAPWriter_exit. dn. Qed.

Lemma dn_writer_write (r : nat) (data : array2)
    (labels : list (string * pyval)) :
  dumps_nothing (R := R) (DEAPWriter_write_example r data labels).
Proof. unfold DEAPWriter_write_example, next_path. dn. Qed.

Lemma dn_buffer_enter (dw : nat) (item_shape label_shape : list nat)
    (buffer_size : Z) :
  dumps_nothing (R := R)
    (DEAPWriterBuffer_enter dw item_shape label_shape buffer_size).
Proof. unfold DEAPWriterBuffer_enter. dn. Qed.

Lemma dn_flush (r : nat) : dumps_nothing (R := R) (flush_buffer r).
Proof. unfold flush_buffer. dn. Qed.

Lemma dn_unpickle (file : string) : dumps_nothing (R := R) (unpickle file).
Proof. unfold unpickle. dn. Qed.

Variables dwt_alpha fft : array2 -> array2.

Lemma dn_process_file (pickle_file : string) (writer : nat)
    (trim_samples target_splits : Z)
    (valence arousal dominance liking : Z) (axes_order : string) :
  dumps_nothing
    (process_file R pickle_file writer trim_samples target_splits valence
       arousal dominance liking axes_order).
Proof.
  unfold process_file.
  apply dn_bind; [apply dn_unpickle|]. intros [data labels].
  dn; try apply dn_shuffle; try apply dn_writer_write.
Qed.

Lemma dn_process_file_subject_dependent
    (in_file : string) (train_writer test_writer current_sample : nat)
    (validation_indices : list Z) (target_windows : list (list (option Z)))
    (trim_samples : Z) (num_classes : Z * Z * Z * Z) (axes_order : string)
    (processing : option string) :
  dumps_nothing
    (process_file_subject_dependent R dwt_alpha fft in_file train_writer
       test_writer current_sample validation_indices target_windows
       trim_samples num_classes axes_order processing).
Proof.
  unfold process_file_subject_dependent.
  apply dn_bind; [apply dn_unpickle|]. intros [data labels].
  unfold process_subject_trials.
  destruct num_classes as [[[valence arousal] dominance] liking].
  dn.
Qed.

Lemma dn_subject_dependent_pass (input_dir : string)
    (out_names file_list : list string) (windows : list (list (option Z)))
    (samples_per_chunk trim_samples : Z) (validation_split : pyval)
    (num_classes : Z * Z * Z * Z) (num_experiments : Z)
    (processing : option string) :
  dumps_nothing
    (subject_dependent_pass R dwt_alpha fft input_dir out_names file_list
       windows samples_per_chunk trim_samples validation_split num_classes
       num_experiments processing).
Proof.
  unfold subject_dependent_pass. cbv zeta.
  apply dn_bind; [apply dn_choice|]. intros validation_indices.
  apply dn_bind; [apply dn_alloc|]. intros current_sample.
  apply dn_with_ctx; [apply dn_writer_enter | apply dn_writer_exit|].
  intros train_writer.
  apply dn_with_ctx; [apply dn_writer_enter | apply dn_writer_exit|].
  intros test_writer.
  apply dn_bind.
  - apply dn_with_ctx; [apply dn_buffer_enter | apply dn_flush|].
    intros train_writer_buffer.
    apply dn_with_ctx; [apply dn_buffer_enter | apply dn_flush|].
    intros test_writer_buffer.
    apply dn_for_each. intros file.
    apply dn_process_file_subject_dependent.
  - intros _. dn.
Qed.

Lemma dn_independent_files (input_dir : string) (out_names : list string)
    (trim_samples num_samples_per_experiment : Z)
    (num_classes : Z * Z * Z * Z) (files : list string) :
  forall file_id shape,
    dumps_nothing
      (independent_files R input_dir out_names trim_samples
         num_samples_per_experiment num_classes file_id files shape).
Proof.
  induction files as [|file rest IH]; intros file_id shape;
    cbn [independent_files].
  - apply dn_ret.
  - apply dn_bind; [apply dn_lift|]. intros tffile.
    destruct num_classes as [[[valence arousal] dominance] liking].
    apply dn_bind; [|intros shape'; apply IH].
    apply dn_with_ctx; [apply dn_writer_enter | apply dn_writer_exit|].
    intros writer.
    apply dn_bind; [apply dn_process_file|]. intros _. dn.
Qed.

Lemma dn_subject_independent_pass (input_dir : string)
    (out_names file_list : list string) (windows : list (list (option Z)))
    (trim_samples : Z) (validation_split : pyval)
    (num_classes : Z * Z * Z * Z) (num_experiments : Z) (before : locals) :
  dumps_nothing
    (subject_independent_pass R input_dir out_names file_list windows
       trim_samples validation_split num_classes num_experiments before).
Proof.
  unfold subject_independent_pass. cbv zeta.
  apply dn_bind; [apply dn_lift|]. intros test_names.
  apply dn_bind; [apply dn_independent_files|]. intros shape. apply dn_ret.
Qed.

Lemma dn_lookup {A : Type} (v : option A) : dumps_nothing (lookup R v).
Proof. unfold lookup. dn. Qed.

(** X21: [process_directory] writes [meta.json] exactly when it returns
    normally, and then as its last action: a run that raises has dumped no
    manifest, whatever it wrote before; a run that returns ends with one
    dump to [target_directory/meta.json] whose meta block repeats the mode,
    the window length in samples, the trim, the class counts, the four
    label names and the validation split it was called with. *)
Theorem manifest_is_dumped_last_and_only_on_success
    (input_dir target_directory : string) (out_names : list string)
    (mode : string) (target_seconds : pyval) (trim_samples : Z)
    (validation_split : pyval) (num_classes : Z * Z * Z * Z)
    (num_experiments : Z) (processing : option string)
    (window_step : option pyval) (w : world R) :
  let run :=
    process_directory R dwt_alpha fft input_dir target_directory out_names
      mode target_seconds trim_samples validation_split num_classes
      num_experiments processing window_step w in
  match fst run with
  | Ok _ =>
      exists before m,
        trace (snd run)
        = before ++ [EDump (path_join target_directory "meta.json") m]
        /\ dumps_of before = dumps_of (trace w)
        /\ meta_mode m = mode
        /\ meta_timestep m = py_int (py_mul (PInt 128) target_seconds)
        /\ meta_trim_samples m = trim_samples
        /\ meta_num_classes m = num_classes
        /\ meta_label_names m = deap_label_names
        /\ files_validation_split m = validation_split
  | Raise _ => dumps_of (trace (snd run)) = dumps_of (trace w)
  end.
Proof.
  set (G := fun (r : result unit * world R) =>
              match fst r with
              | Ok _ =>
                  exists before m,
                    trace (snd r)
                    = before
                      ++ [EDump (path_join target_directory "meta.json") m]
                    /\ dumps_of before = dumps_of (trace w)
                    /\ meta_mode m = mode
                    /\ meta_timestep m
                       = py_int (py_mul (PInt 128) target_seconds)
                    /\ meta_trim_samples m = trim_samples
                    /\ meta_num_classes m = num_classes
                    /\ meta_label_names m = deap_label_names
                    /\ files_validation_split m = validation_split
              | Raise _ => dumps_of (trace (snd r)) = dumps_of (trace w)
              end).
  change (G (process_directory R dwt_alpha fft input_dir target_directory
               out_names mode target_seconds trim_samples validation_split
               num_classes num_experiments processing window_step w)).
  unfold process_directory.
  assert (Hstep : forall {A : Type} (m : SE (world R) A)
                         (k : A -> SE (world R) unit) w0,
            dumps_nothing m ->
            dumps_of (trace w0) = dumps_of (trace w) ->
            (forall a w1, dumps_of (trace w1) = dumps_of (trace w) ->
                          G (k a w1)) ->
            G (se_bind m k w0)).
  { intros A m k w0 Hm H0 Hk. apply se_bind_cases.
    - intros a w1 E. apply Hk. rewrite <- H0.
      specialize (Hm w0). rewrite E in Hm. exact Hm.
    - intros e w1 E. unfold G. cbn [fst snd]. rewrite <- H0.
      specialize (Hm w0). rewrite E in Hm. exact Hm. }
  apply Hstep; [apply dn_log; reflexivity | reflexivity|]. intros _ w1 H1.
  apply Hstep; [apply dn_get | exact H1|]. intros w1' w2 H2.
  apply Hstep; [apply dn_lift | exact H2|]. intros file_list w3 H3.
  apply Hstep; [apply dn_lift | exact H3|]. intros windows w4 H4.
  apply Hstep; [|exact H4|].
  { destruct (String.eqb mode "subject-dependent");
      [apply dn_subject_dependent_pass | apply dn_ret]. }
  intros l w5 H5.
  apply Hstep; [|exact H5|].
  { destruct (String.eqb mode "subject-independent");
      [apply dn_subject_independent_pass | apply dn_ret]. }
  intros l' w6 H6.
  apply Hstep; [apply dn_lookup | exact H6|]. intros train w7 H7.
  apply Hstep; [apply dn_lookup | exact H7|]. intros test w8 H8.
  apply Hstep; [apply dn_lookup | exact H8|]. intros available w9 H9.
  apply Hstep; [apply dn_lookup | exact H9|]. intros shape w10 H10.
  unfold write_config. destruct available as [[a_train a_test] a_total].
  unfold G, log. cbn [fst snd trace].
  eexists. eexists. split; [reflexivity|].
  split; [exact H10|]. repeat split; reflexivity.
Qed.

End DumpsNothing.

End ManifestFacts.

(** ** The orchestrator in subject-dependent mode: edge cases *)

Module DirectoryFacts.

Lemma nth_error_app_at {A : Type} (h l : list A) (k : nat) :
  nth_error (h ++ l) (length h + k) = nth_error l k.
Proof.
  rewrite nth_error_app2 by lia. f_equal. lia.
Qed.

Lemma list_set_app_at {A : Type} (h l : list A) (k : nat) (x : A) :
  list_set (h ++ l) (length h + k) x = h ++ list_set l k x.
Proof.
  induction h as [|y h IH]; [reflexivity|].
  cbn [app length Nat.add list_set]. now rewrite IH.
Qed.

Section Directory.
Context {R : RandomSource}.
Variables dwt_alpha fft : array2 -> array2.
Implicit Types (g : rng_state R) (f : filesystem) (h : list obj)
  (t : list event).

(** X22: in subject-dependent mode, when [int(total * validation_split)] is
    negative or exceeds the number of samples, the draw of the validation
    indices raises [ValueError]; nothing was opened, read or written, the
    directory listing is the only I/O, and the random state is untouched. *)
Theorem validation_split_beyond_the_data_opens_nothing
    (input_dir target_directory : string) (out_names : list string)
    (target_seconds : pyval) (trim_samples : Z) (validation_split : pyval)
    (num_classes : Z * Z * Z * Z) (num_experiments : Z)
    (processing : option string) (window_step : option pyval)
    (g : rng_state R) (f : filesystem) (h : list obj) (t : list event)
    (file_list : list string) (windows : list (list (option Z))) :
  listdir f input_dir = Ok file_list ->
  compute_windows target_seconds trim_samples window_step = Ok windows ->
  let total_number_available :=
    Z.of_nat (length (filter (contains ".dat") file_list))
    * num_experiments * Z.of_nat (length windows) in
  (num_validation_of total_number_available validation_split < 0
   \/ total_number_available
      < num_validation_of total_number_available validation_split) ->
  process_directory R dwt_alpha fft input_dir target_directory out_names
    "subject-dependent" target_seconds trim_samples validation_split
    num_classes num_experiments processing window_step (mk_world g f h t)
  = (Raise ValueError, mk_world g f h (t ++ [EListDir input_dir])).
Proof.
  intros Hlist Hwin total Hbad.
  unfold process_directory, se_bind at 1 2 3 4, log, get, lift_result.
  cbn [rng fs heap trace]. rewrite Hlist, Hwin.
  rewrite String.eqb_refl. unfold se_bind at 1.
  unfold subject_dependent_pass. cbv zeta. fold total.
  unfold se_bind at 1. unfold np_random_choice.
  destruct (Z.ltb_spec (num_validation_of total validation_split) 0)
    as [Hneg|Hpos]; [reflexivity|].
  destruct ((total <=? 0)
            && negb (num_validation_of total validation_split =? 0));
    [reflexivity|].
  destruct (Z.ltb_spec total (num_validation_of total validation_split))
    as [Hlt|Hge]; [reflexivity | lia].
Qed.

End Directory.

Lemma validation_split_beyond_the_data_opens_nothing_witness :
  process_directory identity_source (fun a => a) (fun a => a)
    "in" "out" ["train.tfrecords"; "test.tfrecords"]%string
    "subject-dependent" (PFloat (1 # 128)) 8061 (PFloat (3 # 2))
    (2, 2, 2, 2) 1 None None
    (mk_world (R := identity_source) tt one_subject_filesystem [] [])
  = (Raise ValueError,
     mk_world (R := identity_source) tt one_subject_filesystem []
       ([] ++ [EListDir "in"])).
Proof.
  apply (validation_split_beyond_the_data_opens_nothing
           (R := identity_source) (fun a => a) (fun a => a)
           "in" "out" ["train.tfrecords"; "test.tfrecords"]%string
           (PFloat (1 # 128)) 8061 (PFloat (3 # 2)) (2, 2, 2, 2) 1 None None
           tt one_subject_filesystem [] [] ["s01.dat"%string]
           [[Some 0]; [Some 1]; [Some 2]]).
  - reflexivity.
  - reflexivity.
  - right. vm_compute. reflexivity.
Defined.

Section EmptyDirectory.
Context {R : RandomSource}.
Variables dwt_alpha fft : array2 -> array2.
Implicit Types (g : rng_state R) (f : filesystem) (h : list obj)
  (t : list event).

Lemma num_validation_of_zero (validation_split : pyval) :
  num_validation_of 0 validation_split = 0.
Proof. destruct validation_split; reflexivity. Qed.

Lemma flush_empty_run (b : DEAPWriterBuffer.t) rb g f h t :
  nth_error h rb = Some (OBuffer b) ->
  DEAPWriterBuffer.collected b = 0%nat ->
  exists g' b',
    flush_buffer rb (mk_world g f h t)
    = (Ok tt, mk_world g' f (list_set h rb (OBuffer b')) t).
Proof.
  intros Hb Hc. unfold flush_buffer. unfold se_bind at 1.
  rewrite (on_buffer_run get g f h t rb _ _ _ Hb eq_refl).
  rewrite list_set_same by exact Hb. cbv beta iota.
  unfold se_bind at 1, np_random_permutation at 1. cbn [rng fs heap trace].
  rewrite Hc. destruct (draw_permutation R g 0) as [p g'].
  unfold se_bind at 1.
  rewrite (on_buffer_run (put (DEAPWriterBuffer.permute b p)) g' f h t rb
             _ _ _ Hb eq_refl).
  cbn [seq for_each]. eexists. eexists. reflexivity.
Qed.


Ltac heap_lookup k :=
  rewrite ?nth_error_list_set_neq
    by (rewrite ?length_app; cbn [length]; lia);
  rewrite <- ?app_assoc; cbn [app];
  rewrite nth_error_app2 by (rewrite ?length_app; cbn [length]; lia);
  match goal with
  | |- nth_error _ ?i = _ =>
      replace i with k by (rewrite ?length_app; cbn [length]; lia)
  end;
  reflexivity.

Lemma DEAPWriterBuffer_enter_run (dw : nat) (item_shape label_shape : list nat)
    (buffer_size : Z) g f h t :
  0 <= buffer_size ->
  exists b,
    DEAPWriterBuffer.init dw item_shape label_shape buffer_size = Ok b
    /\ DEAPWriterBuffer.collected b = 0%nat
    /\ DEAPWriterBuffer_enter dw item_shape label_shape buffer_size
         (mk_world g f h t)
       = (Ok (length h), mk_world g f (h ++ [OBuffer b]) t).
Proof.
  intros Hsize. unfold DEAPWriterBuffer_enter, DEAPWriterBuffer.init.
  destruct (Z.ltb_spec buffer_size 0) as [?|_]; [lia|].
  eexists. split; [reflexivity|]. split; reflexivity.
Qed.

Lemma empty_pass (train test : list string) (item_shape : list nat)
    (body : nat -> nat -> SE (world R) unit) (k : list nat -> SE (world R) locals)
    g f h t :
  (forall rt rv w, body rt rv w = (Ok tt, w)) ->
  exists w',
    with_ctx (DEAPWriter_enter train) DEAPWriter_exit
      (fun train_writer =>
         with_ctx (DEAPWriter_enter test) DEAPWriter_exit
           (fun test_writer =>
              (with_ctx
                 (DEAPWriterBuffer_enter train_writer item_shape [4%nat]
                    (0 - 0))
                 flush_buffer
                 (fun train_writer_buffer =>
                    with_ctx
                      (DEAPWriterBuffer_enter test_writer item_shape
                         [4%nat] 0)
                      flush_buffer
                      (fun test_writer_buffer =>
                         body train_writer_buffer test_writer_buffer)) ;;;
               dw <- on_writer train_writer get ;;
               shape <- match DEAPWriter.shape dw with
                        | Some s => ret s
                        | None => raise AttributeError
                        end ;;
               k shape)%se))
      (mk_world g f h t)
    = (Raise AttributeError, w')
    /\ trace w'
       = t ++ map EOpen train ++ map EOpen test
           ++ map EClose test ++ map EClose train.
Proof.
  intros Hbody.
  unfold with_ctx at 1. rewrite SessionFacts.DEAPWriter_enter_run.
  unfold with_ctx at 1. rewrite SessionFacts.DEAPWriter_enter_run.
  rewrite !DEAPWriterFacts.enter_init.
  set (Wtr := OWriter (WriterSpec.after_writes train [] None)).
  set (Wte := OWriter (WriterSpec.after_writes test [] None)).
  unfold se_bind at 1. unfold with_ctx at 1.
  destruct (DEAPWriterBuffer_enter_run (length h) item_shape [4%nat] (0 - 0)
              g f ((h ++ [Wtr]) ++ [Wte])
              ((t ++ map EOpen train) ++ map EOpen test) ltac:(lia))
    as (b1 & _ & Hc1 & ->).
  unfold with_ctx at 1.
  destruct (DEAPWriterBuffer_enter_run (length (h ++ [Wtr])) item_shape
              [4%nat] 0 g f (((h ++ [Wtr]) ++ [Wte]) ++ [OBuffer b1])
              ((t ++ map EOpen train) ++ map EOpen test) ltac:(lia))
    as (b2 & _ & Hc2 & ->).
  rewrite Hbody.
  set (H4 := (((h ++ [Wtr]) ++ [Wte]) ++ [OBuffer b1]) ++ [OBuffer b2]).
  set (T2 := (t ++ map EOpen train) ++ map EOpen test).
  destruct (flush_empty_run b2 (length (((h ++ [Wtr]) ++ [Wte])
                                        ++ [OBuffer b1]))
              g f H4 T2) as (g2 & b2' & ->).
  { unfold H4. heap_lookup 3%nat. }
  { exact Hc2. }
  set (H5 := list_set H4 _ (OBuffer b2')).
  destruct (flush_empty_run b1 (length ((h ++ [Wtr]) ++ [Wte])) g2 f H5 T2)
    as (g3 & b1' & ->).
  { unfold H5, H4. heap_lookup 2%nat. }
  { exact Hc1. }
  set (H6 := list_set H5 _ (OBuffer b1')).
  unfold se_bind at 1.
  assert (Htr : nth_error H6 (length h) = Some Wtr).
  { unfold H6, H5, H4. heap_lookup 0%nat. }
  rewrite (on_writer_run get g3 f H6 T2 (length h) _ _ _ Htr eq_refl).
  rewrite list_set_same by exact Htr.
  cbn [WriterSpec.after_writes DEAPWriter.shape]. unfold se_bind at 1.
  unfold raise at 1.
  assert (Hte : nth_error H6 (length (h ++ [Wtr])) = Some Wte).
  { unfold H6, H5, H4. heap_lookup 1%nat. }
  rewrite (SessionFacts.DEAPWriter_exit_run test [] None _ g3 f H6 T2 Hte).
  set (H7 := list_set H6 _ _).
  assert (Htr' : nth_error H7 (length h) = Some Wtr).
  { unfold H7, H6, H5, H4. heap_lookup 0%nat. }
  rewrite (SessionFacts.DEAPWriter_exit_run train [] None _ g3 f H7 _ Htr').
  eexists. split; [reflexivity|]. cbn [trace]. unfold T2.
  rewrite <- !app_assoc. reflexivity.
Qed.

(** X23: in subject-dependent mode an input directory without entries makes
    [process_directory] open and close every output file, write no record
    and then raise [AttributeError]: [train_writer.shape] was never set.  No
    manifest is written. *)
Theorem empty_directory_fails_after_opening_the_outputs
    (input_dir target_directory : string) (out_names : list string)
    (target_seconds : pyval) (trim_samples : Z) (validation_split : pyval)
    (num_classes : Z * Z * Z * Z) (num_experiments : Z)
    (processing : option string) (window_step : option pyval)
    (g : rng_state R) (f : filesystem) (h : list obj) (t : list event)
    (windows : list (list (option Z))) :
  listdir f input_dir = Ok [] ->
  compute_windows target_seconds trim_samples window_step = Ok windows ->
  exists w',
    process_directory R dwt_alpha fft input_dir target_directory out_names
      "subject-dependent" target_seconds trim_samples validation_split
      num_classes num_experiments processing window_step (mk_world g f h t)
    = (Raise AttributeError, w')
    /\ trace w'
       = t ++ [EListDir input_dir]
           ++ map EOpen (filter (contains "train") out_names)
           ++ map EOpen (filter (contains "test") out_names)
           ++ map EClose (filter (contains "test") out_names)
           ++ map EClose (filter (contains "train") out_names).
Proof.
  intros Hlist Hwin.
  unfold process_directory, se_bind at 1 2 3 4, log, get, lift_result.
  cbn [rng fs heap trace]. rewrite Hlist, Hwin.
  rewrite String.eqb_refl. unfold se_bind at 1.
  unfold subject_dependent_pass. cbv zeta.
  cbn [filter length Z.of_nat Z.mul].
  rewrite num_validation_of_zero.
  set (train := filter (contains "train") out_names).
  set (test := filter (contains "test") out_names).
  unfold se_bind at 1. unfold np_random_choice.
  cbn [Z.ltb Z.leb Z.eqb Z.compare andb negb].
  unfold se_bind at 1, np_random_permutation at 1. cbn [rng fs heap trace].
  destruct (draw_permutation R g (Z.to_nat 0)) as [p g1].
  unfold ret at 1. cbn [Z.to_nat firstn map].
  unfold se_bind at 1, alloc at 1. cbn [rng fs heap trace].
  destruct (empty_pass train test
              [40%nat; Z.to_nat (py_int (py_mul (PInt 128) target_seconds))]
              (fun rt rv =>
                 for_each [] (fun file =>
                   process_file_subject_dependent R dwt_alpha fft
                     (path_join input_dir file) rt rv (length h) [] windows
                     trim_samples num_classes "sensors-first" processing))
              (fun shape =>
                 ret (mk_locals (Some train) (Some test)
                        (Some (0 - 0, 0, 0)) (Some shape)))
              g1 f (h ++ [OArray0 0]) (t ++ [EListDir input_dir]))
    as (w' & E & Ht).
  { reflexivity. }
  rewrite E. exists w'. split; [reflexivity|].
  rewrite Ht, <- !app_assoc. reflexivity.
Qed.

End EmptyDirectory.

Lemma empty_directory_fails_after_opening_the_outputs_witness :
  exists w',
    process_directory identity_source (fun a => a) (fun a => a)
      "void" "out" ["train.tfrecords"; "test.tfrecords"]%string
      "subject-dependent" (PFloat (1 # 128)) 8061 (PFloat (1 # 5))
      (2, 2, 2, 2) 40 None None
      (mk_world (R := identity_source) tt
         empty_directory_filesystem [] [])
    = (Raise AttributeError, w')
    /\ trace w'
       = [] ++ [EListDir "void"]
           ++ map EOpen (filter (contains "train")
                           ["train.tfrecords"; "test.tfrecords"]%string)
           ++ map EOpen (filter (contains "test")
                           ["train.tfrecords"; "test.tfrecords"]%string)
           ++ map EClose (filter (contains "test")
                            ["train.tfrecords"; "test.tfrecords"]%string)
           ++ map EClose (filter (contains "train")
                            ["train.tfrecords"; "test.tfrecords"]%string).
Proof.
  apply (empty_directory_fails_after_opening_the_outputs
           (R := identity_source) (fun a => a) (fun a => a)
           "void" "out" ["train.tfrecords"; "test.tfrecords"]%string
           (PFloat (1 # 128)) 8061 (PFloat (1 # 5)) (2, 2, 2, 2) 40 None
           None tt empty_directory_filesystem [] []
           [[Some 0]; [Some 1]; [Some 2]]).
  - reflexivity.
  - reflexivity.
Defined.

End DirectoryFacts.

(** ** process_file: trials against their labels *)

Module OwnFacts.
Import ShuffleSpec BufferSpec WriterSpec OwnSpec.



Section OwnBlocks.
Context {R : RandomSource}.
Implicit Types (g : rng_state R) (f : filesystem) (h : list obj)
  (t : list event).

Variables (writer : nat) (fns : list string) (axes_order : string)
  (target_splits : Z).
Hypothesis fns_nonempty : fns <> [].




End OwnBlocks.


(** Under a source that reverses, the first example written holds the
    samples of the second trial with the classes of the first trial's
    ratings. *)
Lemma process_file_mispairs_under_reversal :
  exists w',
    process_file reversing_source "in/s01.dat" 0 0 1 2 2 2 2 "sensors-first"
      (mk_world (R := reversing_source) tt two_trial_filesystem
         [OWriter (DEAPWriter.enter (DEAPWriter.init ["out"%string]))] [])
    = (Ok tt, w')
    /\ writes_of (trace w')
       = [DEAPWriter.serialize_example [[3; 4]]%Q
            [("valence"%string, PInt 1); ("arousal"%string, PInt 0);
             ("dominance"%string, PInt 1); ("liking"%string, PInt 1)];
          DEAPWriter.serialize_example [[1; 2]]%Q
            [("valence"%string, PInt 0); ("arousal"%string, PInt 0);
             ("dominance"%string, PInt 0); ("liking"%string, PInt 0)]].
Proof.
  eexists. split; [vm_compute; reflexivity|]. vm_compute. reflexivity.
Qed.

End OwnFacts.
